(** * vnpy trader UI: table monitors, connection dialog, manual trading,
      event delivery and the chart module

    A shallow embedding of vnpy/trader/ui/widget.py and of the module
    header of vnpy/chart/widget.py.  Python objects that are mutated in
    place and shared (table cells) live in an explicit store; methods
    that may raise are functions in a state-and-exception monad whose
    state survives a raise, as a slot called by Qt leaves the widget
    behind when it fails. *)

From Stdlib Require Import Ascii.
From stdpp Require Import gmap strings list pretty.

Open Scope string_scope.
Open Scope Z_scope.
Open Scope list_scope.

(** ** Python values, exceptions and the execution monad *)

Module Py.

(** The exception classes the modelled code can raise. *)
Inductive exn :=
| AttributeError (name : string)
| KeyError (key : string)
| TypeError (what : string)
| ValueError (what : string)
| NameError (name : string)
| ImportError (name : string).

Inductive outcome (A : Type) :=
| Return (a : A)
| Raise (e : exn).
Arguments Return {A} a.
Arguments Raise {A} e.

(** A method body over an object state [St]: it yields a value or raises,
    and in both cases leaves a state behind. *)
Definition Exec (St A : Type) : Type := St → outcome A * St.

Definition ret {St A} (a : A) : Exec St A := λ s, (Return a, s).
Definition raise {St A} (e : exn) : Exec St A := λ s, (Raise e, s).
Definition bind {St A B} (c : Exec St A) (k : A → Exec St B) : Exec St B :=
  λ s, match c s with
       | (Return a, s') => k a s'
       | (Raise e, s') => (Raise e, s')
       end.
Definition get {St} : Exec St St := λ s, (Return s, s).
Definition modify {St} (f : St → St) : Exec St unit := λ s, (Return tt, f s).

Notation "'let*' x ':=' c 'in' k" := (bind c (λ x, k))
  (at level 10, x binder, c at level 100, k at level 200).
Notation "c ';;' k" := (bind c (λ _, k))
  (at level 100, k at level 200, right associativity).

(** [for x in xs: body(x)] *)
Fixpoint for_each {St A} (xs : list A) (body : A → Exec St unit) : Exec St unit :=
  match xs with
  | [] => ret tt
  | x :: xs' => body x ;; for_each xs' body
  end.

(** What the code observes of a [datetime]: its [str()], its local
    [%H:%M:%S] and [%Y-%m-%d] renderings and its microsecond field. *)
Record datetime := {
  dt_str : string;
  dt_hms : string;
  dt_ymd : string;
  dt_microsecond : nat
}.

(** Attribute values of the data objects carried by events.  Numbers are
    carried as integers: the monitors only print, store and test them. *)
Inductive value :=
| VNone
| VStr (s : string)
| VNum (z : Z)
| VEnum (cls member : string)
| VTime (dt : datetime).

#[export] Instance datetime_eq_dec : EqDecision datetime.
Proof. solve_decision. Defined.
#[export] Instance value_eq_dec : EqDecision value.
Proof. solve_decision. Defined.

Definition value_encode (v : value) : unit + string + Z + (string * string) + (string * string * string * nat) :=
  match v with
  | VNone => inl (inl (inl (inl tt)))
  | VStr s => inl (inl (inl (inr s)))
  | VNum z => inl (inl (inr z))
  | VEnum c m => inl (inr (c, m))
  | VTime d => inr (dt_str d, dt_hms d, dt_ymd d, dt_microsecond d)
  end.
Definition value_decode (x : unit + string + Z + (string * string) + (string * string * string * nat)) : value :=
  match x with
  | inl (inl (inl (inl _))) => VNone
  | inl (inl (inl (inr s))) => VStr s
  | inl (inl (inr z)) => VNum z
  | inl (inr (c, m)) => VEnum c m
  | inr (a, b, c, d) => VTime {| dt_str := a; dt_hms := b; dt_ymd := c; dt_microsecond := d |}
  end.
#[export] Instance value_countable : Countable value.
Proof.
  apply (inj_countable' value_encode value_decode).
  intros [| | | |[]]; reflexivity.
Defined.

(** [str(v)] *)
Definition py_str (v : value) : string :=
  match v with
  | VNone => "None"
  | VStr s => s
  | VNum z => pretty z
  | VEnum c m => c +:+ "." +:+ m
  | VTime d => dt_str d
  end.

(** Truth value of [v] in a condition. *)
Definition truthy (v : value) : bool :=
  match v with
  | VNone => false
  | VStr s => negb (String.eqb s "")
  | VNum z => negb (z =? 0)
  | VEnum _ _ => true
  | VTime _ => true
  end.

(** A data object, seen through [__getattribute__]. *)
Definition Data : Type := list (string * value).

Fixpoint assoc {A} (name : string) (l : list (string * A)) : option A :=
  match l with
  | [] => None
  | (n, v) :: l' => if String.eqb n name then Some v else assoc name l'
  end.

Definition getattr {St} (d : Data) (name : string) : Exec St value :=
  match assoc name d with
  | Some v => ret v
  | None => raise (AttributeError name)
  end.

Definition lower_char (c : ascii) : ascii :=
  let n := nat_of_ascii c in
  if ((65 <=? n) && (n <=? 90))%nat then ascii_of_nat (n + 32) else c.

(** [str.lower] on ASCII letters; other bytes are kept. *)
Fixpoint lower (t : string) : string :=
  match t with
  | EmptyString => EmptyString
  | String c t' => String (lower_char c) (lower t')
  end.

End Py.
Import Py.

(** ** Table monitors (BaseMonitor and its subclasses) *)

Module Monitor.

(** The names that widget.py binds at module level: what it imports
    (lines 5 to 38), its colours and its classes. *)
Definition widget_globals : list string :=
  [ "csv"; "platform"; "Enum"; "cast"; "Any"; "Dict"; "List"; "copy";
    "get_localzone_name"; "datetime"; "metadata";
    "QtCore"; "QtGui"; "QtWidgets"; "Qt";
    "Direction"; "Exchange"; "Offset"; "OrderType";
    "MainEngine"; "Event"; "EventEngine";
    "EVENT_QUOTE"; "EVENT_TICK"; "EVENT_TRADE"; "EVENT_ORDER"; "EVENT_POSITION";
    "EVENT_ACCOUNT"; "EVENT_LOG";
    "OrderRequest"; "SubscribeRequest"; "CancelRequest"; "ContractData"; "PositionData";
    "OrderData"; "QuoteData"; "TickData";
    "load_json"; "save_json"; "get_digits"; "ZoneInfo";
    "SETTING_FILENAME"; "SETTINGS"; "_";
    "COLOR_LONG"; "COLOR_SHORT"; "COLOR_BID"; "COLOR_ASK"; "COLOR_BLACK";
    "BaseCell"; "EnumCell"; "DirectionCell"; "BidCell"; "AskCell"; "PnlCell"; "TimeCell";
    "DateCell"; "MsgCell"; "BaseMonitor"; "TickMonitor"; "LogMonitor"; "TradeMonitor";
    "OrderMonitor"; "OrderDelegate"; "PositionMonitor"; "AccountMonitor"; "QuoteMonitor";
    "ConnectDialog"; "TradingWidget"; "ActiveOrderMonitor"; "ContractManager";
    "AboutDialog"; "GlobalDialog" ].

(** The evaluation, in a function of widget.py, of a global name that is
    no builtin of Python. *)
Definition global_name {St} (name : string) : Exec St unit :=
  if bool_decide (name ∈ widget_globals) then ret tt else raise (NameError name).

Inductive color := COLOR_LONG | COLOR_SHORT | COLOR_BID | COLOR_ASK | COLOR_BLACK.

(** The cell classes of widget.py. *)
Inductive cell_class :=
| BaseCell | EnumCell | DirectionCell | BidCell | AskCell
| PnlCell | TimeCell | DateCell | MsgCell.

#[export] Instance cell_class_eq_dec : EqDecision cell_class.
Proof. solve_decision. Defined.

(** A cell object: its class, the text it shows, the data object it keeps
    ([_data]) and its foreground colour. *)
Record Cell := {
  cell_cls : cell_class;
  cell_text : string;
  cell_data : Data;
  cell_fg : option color
}.

(** [cls(content, data)]: every constructor goes through
    [BaseCell.__init__], which shows [str(content)] and keeps [data];
    BidCell and AskCell then set their colour. *)
Definition new_cell (cls : cell_class) (content : value) (data : Data) : Cell :=
  {| cell_cls := cls;
     cell_text := py_str content;
     cell_data := data;
     cell_fg := match cls with
                | BidCell => Some COLOR_BID
                | AskCell => Some COLOR_ASK
                | _ => None
                end |}.

(** Whether the class, or one of its bases below QTableWidgetItem, defines
    [set_content]. *)
Definition defines_set_content (cls : cell_class) : bool :=
  match cls with
  | BaseCell | BidCell | AskCell | MsgCell => false
  | EnumCell | DirectionCell | PnlCell | TimeCell | DateCell => true
  end.

Definition set_text (t : string) (c : Cell) : Cell :=
  {| cell_cls := cell_cls c; cell_text := t; cell_data := cell_data c; cell_fg := cell_fg c |}.
Definition set_data (d : Data) (c : Cell) : Cell :=
  {| cell_cls := cell_cls c; cell_text := cell_text c; cell_data := d; cell_fg := cell_fg c |}.
Definition setForeground (col : color) (c : Cell) : Cell :=
  {| cell_cls := cell_cls c; cell_text := cell_text c; cell_data := cell_data c; cell_fg := Some col |}.

(** [EnumCell.set_content]: for a true content it calls
    [super().set_content(content.value, data)]; the callee is looked up
    first, and BaseCell has no [set_content]. *)
Definition EnumCell_set_content (content : value) (data : Data) : Exec Cell unit :=
  if truthy content then raise (AttributeError "set_content")
  else ret tt.

Definition is_Direction_SHORT (content : value) : bool :=
  match content with
  | VEnum c m => String.eqb c "Direction" && String.eqb m "SHORT"
  | _ => false
  end.

(** [TimeCell.set_content] *)
Definition TimeCell_set_content (content : value) (data : Data) : Exec Cell unit :=
  match content with
  | VNone => ret tt
  | VTime d =>
      let timestamp := dt_hms d in
      let millisecond := (dt_microsecond d / 1000)%nat in
      let timestamp :=
        if (millisecond =? 0)%nat then timestamp +:+ ".000"
        else timestamp +:+ "." +:+ pretty millisecond in
      modify (set_text timestamp) ;;
      modify (set_data data)
  | _ => raise (AttributeError "astimezone")
  end.

(** [DateCell.set_content] *)
Definition DateCell_set_content (content : value) (data : Data) : Exec Cell unit :=
  match content with
  | VNone => ret tt
  | VTime d => modify (set_text (dt_ymd d)) ;; modify (set_data data)
  | _ => raise (AttributeError "strftime")
  end.

(** [cell.set_content(content, data)], resolved on the class of the cell. *)
Definition set_content (cls : cell_class) (content : value) (data : Data) : Exec Cell unit :=
  match cls with
  | BaseCell | BidCell | AskCell | MsgCell => raise (AttributeError "set_content")
  | EnumCell => EnumCell_set_content content data
  | DirectionCell =>
      EnumCell_set_content content data ;;
      if is_Direction_SHORT content then modify (setForeground COLOR_SHORT)
      else modify (setForeground COLOR_LONG)
  | PnlCell => raise (AttributeError "set_content")
  | TimeCell => TimeCell_set_content content data
  | DateCell => DateCell_set_content content data
  end.

(** One entry of a [headers] dictionary. *)
Record header := {
  display : string;
  cell : cell_class;
  update : bool
}.

(** The class attributes of a monitor. *)
Record MonitorClass := {
  data_key : string;
  sorting : bool;
  headers : list (string * header)
}.

(** A table row: the cell object (by reference) of each column, and the
    hidden flag of the row. *)
Record TableRow := {
  items : list (option nat);
  hidden : bool
}.

(** The monitor object: the cell objects, the table, the [cells]
    dictionary of updatable cells per key, and Qt's sorting switch.
    [rows] is in the order the code inserts rows; the re-sort that the
    toolkit may run when sorting is switched back on is not modelled. *)
Record State := {
  store : list Cell;
  rows : list TableRow;
  cells : gmap value (list (string * nat));
  sortingEnabled : bool
}.

Definition init : State :=
  {| store := []; rows := []; cells := ∅; sortingEnabled := false |}.

Definition with_store (f : list Cell → list Cell) (s : State) : State :=
  {| store := f (store s); rows := rows s; cells := cells s; sortingEnabled := sortingEnabled s |}.
Definition with_rows (f : list TableRow → list TableRow) (s : State) : State :=
  {| store := store s; rows := f (rows s); cells := cells s; sortingEnabled := sortingEnabled s |}.
Definition with_cells (f : gmap value (list (string * nat)) → gmap value (list (string * nat))) (s : State) : State :=
  {| store := store s; rows := rows s; cells := f (cells s); sortingEnabled := sortingEnabled s |}.
Definition setSortingEnabled (b : bool) : Exec State unit :=
  modify (λ s, {| store := store s; rows := rows s; cells := cells s; sortingEnabled := b |}).

(** Qt table primitives. *)
Definition insertRow0 (ncols : nat) : Exec State unit :=
  modify (with_rows (λ rs, {| items := replicate ncols None; hidden := false |} :: rs)).

Definition set_item (column : nat) (id : nat) (r : TableRow) : TableRow :=
  {| items := <[column := Some id]> (items r); hidden := hidden r |}.

Definition setItem0 (column : nat) (id : nat) : Exec State unit :=
  modify (with_rows (λ rs, match rs with
                            | [] => []
                            | r :: rs' => set_item column id r :: rs'
                            end)).

Definition set_hidden (b : bool) (r : TableRow) : TableRow :=
  {| items := items r; hidden := b |}.

Definition setRowHidden (row : nat) (b : bool) : Exec State unit :=
  modify (with_rows (λ rs, match rs !! row with
                            | Some r => <[row := set_hidden b r]> rs
                            | None => rs
                            end)).

(** Allocation of a new cell object. *)
Definition alloc (c : Cell) : Exec State nat :=
  λ s, (Return (length (store s)), with_store (λ st, st ++ [c]) s).

(** A method call on the cell object [id]: the object is updated in the
    store whether or not the method raises. *)
Definition on_cell (id : nat) (m : cell_class → Exec Cell unit) : Exec State unit :=
  λ s, match store s !! id with
       | Some c =>
           let '(r, c') := m (cell_cls c) c in
           (r, with_store (λ st, <[id := c']> st) s)
       | None => (Raise (KeyError "cell"), s)
       end.

Section WithClass.
Variable M : MonitorClass.

(** The loop of [insert_new_row]: one cell per header, placed in row 0;
    the updatable ones are collected in [row_cells]. *)
Fixpoint fill_row (data : Data) (column : nat) (hs : list (string * header))
    (row_cells : list (string * nat)) : Exec State (list (string * nat)) :=
  match hs with
  | [] => ret row_cells
  | (name, setting) :: hs' =>
      let* content := getattr data name in
      let* id := alloc (new_cell (cell setting) content data) in
      setItem0 column id ;;
      fill_row data (S column) hs'
        (if update setting then row_cells ++ [(name, id)] else row_cells)
  end.

(** [BaseMonitor.insert_new_row] *)
Definition insert_new_row (data : Data) : Exec State unit :=
  insertRow0 (length (headers M)) ;;
  let* row_cells := fill_row data 0 (headers M) [] in
  if String.eqb (data_key M) "" then ret tt
  else
    let* key := getattr data (data_key M) in
    modify (with_cells (λ cs, <[key := row_cells]> cs)).

(** The loop of [update_old_row] over [row_cells.items()]. *)
Definition update_cells (data : Data) (row_cells : list (string * nat)) : Exec State unit :=
  for_each row_cells (λ '(name, id),
    let* content := getattr data name in
    on_cell id (λ cls, set_content cls content data)).

(** [BaseMonitor.update_old_row] *)
Definition update_old_row (data : Data) : Exec State unit :=
  let* key := getattr data (data_key M) in
  let* s := get in
  match cells s !! key with
  | None => raise (KeyError (py_str key))
  | Some row_cells => update_cells data row_cells
  end.

(** [BaseMonitor.process_event] on [event.data] *)
Definition process_event (data : Data) : Exec State unit :=
  (if sorting M then setSortingEnabled false else ret tt) ;;
  (if String.eqb (data_key M) "" then insert_new_row data
   else
     let* key := getattr data (data_key M) in
     let* s := get in
     match cells s !! key with
     | Some _ => update_old_row data
     | None => insert_new_row data
     end) ;;
  (if sorting M then setSortingEnabled true else ret tt).

(** The monitor after the slot has run, whether it returned or raised. *)
Definition after_event (s : State) (data : Data) : State :=
  snd (process_event data s).

Definition after_events (s : State) (evs : list Data) : State :=
  foldl after_event s evs.

End WithClass.

(** *** The monitor classes

    [_( )] is the translation lookup; labels are given by their message
    identifiers. *)

Definition H (d : string) (c : cell_class) (u : bool) : header :=
  {| display := d; cell := c; update := u |}.

Definition TickMonitor : MonitorClass :=
  {| data_key := "vt_symbol"; sorting := true;
     headers := [
       ("symbol", H "代码" BaseCell false);
       ("exchange", H "交易所" EnumCell false);
       ("name", H "名称" BaseCell true);
       ("last_price", H "最新价" BaseCell true);
       ("volume", H "成交量" BaseCell true);
       ("open_price", H "开盘价" BaseCell true);
       ("high_price", H "最高价" BaseCell true);
       ("low_price", H "最低价" BaseCell true);
       ("bid_price_1", H "买1价" BidCell true);
       ("bid_volume_1", H "买1量" BidCell true);
       ("ask_price_1", H "卖1价" AskCell true);
       ("ask_volume_1", H "卖1量" AskCell true);
       ("datetime", H "时间" TimeCell true);
       ("gateway_name", H "接口" BaseCell false) ] |}.


Definition TradeMonitor : MonitorClass :=
  {| data_key := ""; sorting := true;
     headers := [
       ("tradeid", H "成交号" BaseCell false);
       ("orderid", H "委托号" BaseCell false);
       ("symbol", H "代码" BaseCell false);
       ("exchange", H "交易所" EnumCell false);
       ("direction", H "方向" DirectionCell false);
       ("offset", H "开平" EnumCell false);
       ("price", H "价格" BaseCell false);
       ("volume", H "数量" BaseCell false);
       ("datetime", H "时间" TimeCell false);
       ("gateway_name", H "接口" BaseCell false) ] |}.

Definition OrderMonitor : MonitorClass :=
  {| data_key := "vt_orderid"; sorting := true;
     headers := [
       ("gateway_name", H "接口" BaseCell false);
       ("symbol", H "代码" BaseCell false);
       ("exchange", H "交易所" EnumCell false);
       ("type", H "类型" EnumCell false);
       ("direction", H "方向" DirectionCell false);
       ("offset", H "开平" EnumCell false);
       ("price", H "价格" BaseCell false);
       ("volume", H "总数量" BaseCell false);
       ("traded", H "已成交" BaseCell true);
       ("status", H "状态" EnumCell true);
       ("datetime", H "时间" TimeCell true);
       ("reference", H "来源" BaseCell false) ] |}.

Definition PositionMonitor : MonitorClass :=
  {| data_key := "vt_positionid"; sorting := true;
     headers := [
       ("symbol", H "代码" BaseCell false);
       ("exchange", H "交易所" EnumCell false);
       ("direction", H "方向" DirectionCell false);
       ("volume", H "数量" BaseCell true);
       ("yd_volume", H "昨仓" BaseCell true);
       ("frozen", H "冻结" BaseCell true);
       ("price", H "均价" BaseCell true);
       ("pnl", H "盈亏" PnlCell true);
       ("gateway_name", H "接口" BaseCell false) ] |}.


Definition QuoteMonitor : MonitorClass :=
  {| data_key := "vt_quoteid"; sorting := true;
     headers := [
       ("quoteid", H "报价号" BaseCell false);
       ("reference", H "来源" BaseCell false);
       ("symbol", H "代码" BaseCell false);
       ("exchange", H "交易所" EnumCell false);
       ("bid_offset", H "买开平" EnumCell false);
       ("bid_volume", H "买量" BidCell false);
       ("bid_price", H "买价" BidCell false);
       ("ask_price", H "卖价" AskCell false);
       ("ask_volume", H "卖量" AskCell false);
       ("ask_offset", H "卖开平" EnumCell false);
       ("status", H "状态" EnumCell true);
       ("datetime", H "时间" TimeCell true);
       ("gateway_name", H "接口" BaseCell false) ] |}.

(** *** Order data *)

(** Modelled from the spec: the status enumeration of
    vnpy/trader/constant.py, which is not among the sources (section 3:
    Submitting, NotTraded, PartTraded, AllTraded, Cancelled, Rejected). *)
Inductive Status :=
| SUBMITTING | NOTTRADED | PARTTRADED | ALLTRADED | CANCELLED | REJECTED.

Definition status_name (st : Status) : string :=
  match st with
  | SUBMITTING => "SUBMITTING" | NOTTRADED => "NOTTRADED"
  | PARTTRADED => "PARTTRADED" | ALLTRADED => "ALLTRADED"
  | CANCELLED => "CANCELLED" | REJECTED => "REJECTED"
  end.

(** Modelled from the spec: OrderData of vnpy/trader/object.py, which is
    not among the sources (section 3, Order; the fields are those the
    order monitor reads).  Enumerated fields are given by member name. *)
Record OrderData := {
  gateway_name : string;
  orderid : string;
  symbol : string;
  exchange : string;
  type : string;
  direction : string;
  offset : string;
  price : Z;
  volume : Z;
  traded : Z;
  status : Status;
  datetime_ : option datetime;
  reference : string
}.

(** Modelled from the spec: the global order key, the order id combined
    with the gateway name. *)
Definition vt_orderid (o : OrderData) : string :=
  gateway_name o +:+ "." +:+ orderid o.

(** Modelled from the spec: [OrderData.is_active], an order not yet in a
    terminal status (AllTraded, Cancelled, Rejected). *)
Definition is_active (o : OrderData) : bool :=
  match status o with
  | ALLTRADED | CANCELLED | REJECTED => false
  | SUBMITTING | NOTTRADED | PARTTRADED => true
  end.

(** The order object as the monitor reads it. *)
Definition order_obj (o : OrderData) : Data :=
  [ ("gateway_name", VStr (gateway_name o));
    ("orderid", VStr (orderid o));
    ("symbol", VStr (symbol o));
    ("exchange", VEnum "Exchange" (exchange o));
    ("type", VEnum "OrderType" (type o));
    ("direction", VEnum "Direction" (direction o));
    ("offset", VEnum "Offset" (offset o));
    ("price", VNum (price o));
    ("volume", VNum (volume o));
    ("traded", VNum (traded o));
    ("status", VEnum "Status" (status_name (status o)));
    ("datetime", match datetime_ o with Some d => VTime d | None => VNone end);
    ("reference", VStr (reference o));
    ("vt_orderid", VStr (vt_orderid o)) ].

(** [self.row(item)]: the row that holds the cell object, or -1. *)
Fixpoint row_of (id : nat) (rs : list TableRow) : option nat :=
  match rs with
  | [] => None
  | r :: rs' =>
      if bool_decide (Some id ∈ items r) then Some 0%nat
      else S <$> row_of id rs'
  end.

Definition showRow (row : option nat) : Exec State unit :=
  match row with Some r => setRowHidden r false | None => ret tt end.
Definition hideRow (row : option nat) : Exec State unit :=
  match row with Some r => setRowHidden r true | None => ret tt end.

(** [ActiveOrderMonitor.process_event] *)
Definition ActiveOrderMonitor_process_event (order : OrderData) : Exec State unit :=
  process_event OrderMonitor (order_obj order) ;;
  let* s := get in
  match cells s !! VStr (vt_orderid order) with
  | None => raise (KeyError (vt_orderid order))
  | Some row_cells =>
      match assoc "volume" row_cells with
      | None => raise (KeyError "volume")
      | Some id =>
          let row := row_of id (rows s) in
          if is_active order then showRow row else hideRow row
      end
  end.

Definition active_after_event (s : State) (order : OrderData) : State :=
  snd (ActiveOrderMonitor_process_event order s).

(** *** Export *)

(** [self.item(row, column).text()], or the empty string for no item. *)
Definition item_text (s : State) (r : TableRow) (column : nat) : string :=
  match items r !! column with
  | Some (Some id) =>
      match store s !! id with
      | Some c => cell_text c
      | None => ""
      end
  | _ => ""
  end.

(** The inner loop of [save_csv]: the texts of one row, column by column. *)
Fixpoint row_data (s : State) (r : TableRow) (column ncols : nat) : list string :=
  match ncols with
  | O => []
  | S n => item_text s r column :: row_data s r (S column) n
  end.

(** The outer loop of [save_csv] over [range(self.rowCount())]; [out] is
    what the writer has written so far.  A file is the list of rows
    handed to [writerow]. *)
Fixpoint write_rows (s : State) (ncols : nat) (rs : list TableRow)
    (out : list (list string)) : list (list string) :=
  match rs with
  | [] => out
  | r :: rs' =>
      if hidden r then write_rows s ncols rs' out
      else write_rows s ncols rs' (out ++ [row_data s r 0 ncols])
  end.

(** [BaseMonitor.save_csv], with the path chosen in the file dialog (empty
    when the dialog is dismissed).  The column count is the number of
    headers, as [init_table] sets it. *)
Definition save_csv (M : MonitorClass) (path : string) (s : State)
    (fs : gmap string (list (list string))) : gmap string (list (list string)) :=
  if String.eqb path "" then fs
  else
    let labels := map (λ h, display h.2) (headers M) in
    <[path := write_rows s (length (headers M)) (rows s) [labels]]> fs.

(** *** The order filter *)

(** [needle in hay] *)
Fixpoint contains (needle hay : string) : bool :=
  String.prefix needle hay ||
  match hay with
  | EmptyString => false
  | String _ hay' => contains needle hay'
  end.

(** [list(self.headers.keys()).index(name)] *)
Fixpoint index_of (name : string) (hs : list (string * header)) : option nat :=
  match hs with
  | [] => None
  | (n, _) :: hs' => if String.eqb n name then Some 0%nat else S <$> index_of name hs'
  end.

(** The text of the item at a column, when there is an item. *)
Definition item_text_opt (s : State) (r : TableRow) (column : nat) : option string :=
  match items r !! column with
  | Some (Some id) => cell_text <$> store s !! id
  | _ => None
  end.

(** The body of the loop of [OrderMonitor.filter_orders] for one row. *)
Definition show_row (s : State) (filter_status search_text : string) (r : TableRow) : bool :=
  let show :=
    if String.eqb filter_status "全部" then true
    else match index_of "status" (headers OrderMonitor) ≫= item_text_opt s r with
         | Some t => String.eqb t filter_status
         | None => true
         end in
  if negb (String.eqb search_text "") && show then
    match index_of "symbol" (headers OrderMonitor) ≫= item_text_opt s r with
    | Some t => contains search_text (lower t)
    | None => true
    end
  else show.

(** [OrderMonitor.filter_orders], with the current text of the status
    combo box and of the search field. *)
Definition filter_orders (filter_status search_edit : string) (s : State) : State :=
  with_rows (map (λ r, set_hidden (negb (show_row s filter_status (lower search_edit) r)) r)) s.

(** *** Vocabulary of the properties, and sample events *)

(** Every cell object of [s] is still there in [s'], with its class. *)
Definition grows (s s' : State) : Prop :=
  ∀ i c, store s !! i = Some c → ∃ c', store s' !! i = Some c' ∧ cell_cls c' = cell_cls c.

(** The updatable headers, in order: the keys of [row_cells]. *)
Fixpoint updatable (hs : list (string * header)) : list (string * header) :=
  match hs with
  | [] => []
  | h :: hs' => if update h.2 then h :: updatable hs' else updatable hs'
  end.

(** Entry [e] of a [row_cells] dictionary belongs to header [h]: same
    name, and a live cell object of the header's class. *)
Definition cell_for (s : State) (h : string * header) (e : string * nat) : Prop :=
  h.1 = e.1 ∧ ∃ c, store s !! e.2 = Some c ∧ cell_cls c = cell h.2.

Definition row_ok (M : MonitorClass) (s : State) (rc : list (string * nat)) : Prop :=
  Forall2 (cell_for s) (updatable (headers M)) rc.

(** The first row of the table changes only in its items. *)
Definition top_row_items_only (rs rs' : list TableRow) : Prop :=
  match rs with
  | [] => rs' = []
  | r :: rest => ∃ its, rs' = {| items := its; hidden := hidden r |} :: rest
  end.

Definition set_sorting (b : bool) (s : State) : State :=
  {| store := store s; rows := rows s; cells := cells s; sortingEnabled := b |}.
Definition sort_off (M : MonitorClass) (s : State) : State :=
  if sorting M then set_sorting false s else s.
Definition sort_on (M : MonitorClass) (s : State) : State :=
  if sorting M then set_sorting true s else s.

(** The table part of a state: everything but Qt's sorting switch. *)
Definition same_table (s s' : State) : Prop :=
  store s' = store s ∧ rows s' = rows s ∧ cells s' = cells s.

(** Every [row_cells] dictionary holds, for each updatable header in order,
    a live cell object of the header's class. *)
Definition wf (M : MonitorClass) (s : State) : Prop :=
  ∀ key rc, cells s !! key = Some rc → row_ok M s rc.

(** The traded volume of the order object kept by the "traded" cell of the
    row listed under [key]. *)
Definition shown_traded (s : State) (key : string) : option value :=
  rc ← cells s !! VStr key;
  id ← assoc "traded" rc;
  c ← store s !! id;
  assoc "traded" (cell_data c).

Definition order_events (os : list OrderData) : list Data := map order_obj os.

Definition order_5_of_10 : OrderData :=
  {| gateway_name := "SIM"; orderid := "1"; symbol := "AAPL"; exchange := "NASDAQ";
     type := "LIMIT"; direction := "LONG"; offset := "OPEN"; price := 100;
     volume := 10; traded := 5; status := PARTTRADED; datetime_ := None;
     reference := "ManualTrading" |}.

Definition order_with (o : OrderData) (t : Z) (st : Status) : OrderData :=
  {| gateway_name := gateway_name o; orderid := orderid o; symbol := symbol o;
     exchange := exchange o; type := type o; direction := direction o;
     offset := offset o; price := price o; volume := volume o; traded := t;
     status := st; datetime_ := datetime_ o; reference := reference o |}.

Definition order_msft : OrderData :=
  {| gateway_name := "SIM"; orderid := "2"; symbol := "MSFT"; exchange := "NASDAQ";
     type := "LIMIT"; direction := "SHORT"; offset := "OPEN"; price := 300;
     volume := 4; traded := 0; status := NOTTRADED; datetime_ := None;
     reference := "ManualTrading" |}.

Definition tick_at (last : Z) : Data :=
  [ ("symbol", VStr "AAPL"); ("exchange", VEnum "Exchange" "NASDAQ");
    ("name", VStr "Apple"); ("last_price", VNum last); ("volume", VNum 1000);
    ("open_price", VNum 99); ("high_price", VNum 102); ("low_price", VNum 98);
    ("bid_price_1", VNum 100); ("bid_volume_1", VNum 7);
    ("ask_price_1", VNum 101); ("ask_volume_1", VNum 9);
    ("datetime", VNone); ("gateway_name", VStr "SIM");
    ("vt_symbol", VStr "AAPL.NASDAQ") ].

Definition two_orders_filtered : State :=
  filter_orders "全部" "aapl"
    (after_events OrderMonitor init (order_events [order_5_of_10; order_msft])).

End Monitor.

(** ** The connection dialog (ConnectDialog) *)

Module Connect.

(** A value of a settings record. *)
Inductive jvalue :=
| JStr (s : string)
| JBool (b : bool)
| JNum (z : Z).

#[export] Instance jvalue_eq_dec : EqDecision jvalue.
Proof. solve_decision. Defined.

(** An entry of a gateway's [default_setting]: a list of options, or a
    plain default value. *)
Inductive default_value :=
| DList (options : list string)
| DVal (v : jvalue).

(** A settings record: field name to value, in insertion order. *)
Definition record : Type := list (string * jvalue).

(** [str(v)] *)
Definition jstr (v : jvalue) : string :=
  match v with
  | JStr s => s
  | JBool true => "True"
  | JBool false => "False"
  | JNum z => pretty z
  end.

(** The form widgets, with what the user can change in them. *)
Inductive widget :=
| QComboBox (options : list string) (currentIndex : nat)
| QCheckBox (checked : bool)
| QLineEdit (text : string).

(** The dialog, the settings files and the calls made on the registry. *)
Record State := {
  widgets : list (string * (widget * string));
  files : gmap string record;
  connect_calls : list (record * string);
  accepted : bool
}.

Definition with_widgets (f : list (string * (widget * string)) → list (string * (widget * string)))
    (s : State) : State :=
  {| widgets := f (widgets s); files := files s;
     connect_calls := connect_calls s; accepted := accepted s |}.

(** [self.filename] *)
Definition filename (gateway_name : string) : string :=
  "connect_" +:+ lower gateway_name +:+ ".json".

(** Modelled from the spec: [load_json] and [save_json] of
    vnpy/trader/utility.py, which is not among the sources: the settings
    of a gateway are a flat record kept under a file name; a file that
    does not exist reads as the empty record. *)
Definition load_json (name : string) (fs : gmap string record) : record :=
  default [] (fs !! name).
Definition save_json (name : string) (r : record) : Exec State unit :=
  modify (λ s, {| widgets := widgets s; files := <[name := r]> (files s);
                  connect_calls := connect_calls s; accepted := accepted s |}).

(** [main_engine.connect(setting, gateway_name)]: the call is recorded. *)
Definition main_engine_connect (r : record) (gateway_name : string) : Exec State unit :=
  modify (λ s, {| widgets := widgets s; files := files s;
                  connect_calls := connect_calls s ++ [(r, gateway_name)];
                  accepted := accepted s |}).

Definition accept : Exec State unit :=
  modify (λ s, {| widgets := widgets s; files := files s;
                  connect_calls := connect_calls s; accepted := true |}).

(** [field_value.index(saved_value) if saved_value in field_value else 0] *)
Fixpoint index_or_0 (saved : jvalue) (options : list string) : nat :=
  match options with
  | [] => 0%nat
  | o :: options' =>
      if decide (saved = JStr o) then 0%nat
      else if bool_decide (saved ∈ map JStr options') then S (index_or_0 saved options')
      else 0%nat
  end.

(** [setting.get(field_name, default)] *)
Definition setting_get (setting : record) (name : string) (dflt : jvalue) : jvalue :=
  default dflt (assoc name setting).

(** [self.widgets[field_name] = entry] *)
Fixpoint dict_set {A} (name : string) (entry : A) (d : list (string * A)) : list (string * A) :=
  match d with
  | [] => [(name, entry)]
  | (n, e) :: d' =>
      if String.eqb n name then (n, entry) :: d' else (n, e) :: dict_set name entry d'
  end.

(** The body of the loop of [init_ui] for one field of [default_setting],
    with the record loaded from the settings file.  [setChecked] takes a
    boolean. *)
Definition init_field (setting : record) (field_name : string) (field_value : default_value)
    : Exec State unit :=
  match field_value with
  | DList [] => ret tt
  | DList (first :: rest) =>
      let ix :=
        match setting with
        | [] => 0%nat
        | _ => index_or_0 (setting_get setting field_name (JStr first)) (first :: rest)
        end in
      modify (with_widgets (dict_set field_name (QComboBox (first :: rest) ix, "currentText")))
  | DVal (JBool b) =>
      let* checked :=
        match setting with
        | [] => ret b
        | _ => match setting_get setting field_name (JBool b) with
               | JBool saved => ret saved
               | JNum z => ret (negb (z =? 0))
               | JStr _ => raise (TypeError "setChecked")
               end
        end in
      modify (with_widgets (dict_set field_name (QCheckBox checked, "isChecked")))
  | DVal v =>
      let text :=
        match setting with
        | [] => jstr v
        | _ => jstr (setting_get setting field_name v)
        end in
      modify (with_widgets (dict_set field_name (QLineEdit text, "text")))
  end.

(** The part of [init_ui] from [load_json] on: the loop over the fields
    of [default_setting]. *)
Definition init_fields (gateway_name : string) (default_setting : list (string * default_value))
    : Exec State unit :=
  let* s := get in
  let setting := load_json (filename gateway_name) (files s) in
  for_each default_setting (λ '(field_name, field_value),
    init_field setting field_name field_value).

(** [ConnectDialog.init_ui].  After the window title it makes the icon
    with [get_icon_path(__file__, "connect.ico")], before anything of the
    form is built; widget.py imports [load_json], [save_json],
    [get_digits] and [ZoneInfo] from the utility module, not
    [get_icon_path]. *)
Definition init_ui (gateway_name : string) (default_setting : list (string * default_value))
    : Exec State unit :=
  Monitor.global_name "get_icon_path" ;;
  init_fields gateway_name default_setting.

(** [ConnectDialog.__init__]: the empty [widgets], then [init_ui]. *)
Definition open_dialog (gateway_name : string) (default_setting : list (string * default_value))
    (fs : gmap string record) : outcome unit * State :=
  init_ui gateway_name default_setting
    {| widgets := []; files := fs; connect_calls := []; accepted := false |}.

(** [line.text()] on the widget at hand: a combo box has no [text]. *)
Definition widget_text (w : widget) : Exec State string :=
  match w with
  | QLineEdit t => ret t
  | QCheckBox _ => ret ""
  | QComboBox _ _ => raise (AttributeError "text")
  end.

(** [combo.currentText()] *)
Definition currentText (w : widget) : Exec State string :=
  match w with
  | QComboBox options ix => ret (default "" (options !! ix))
  | _ => raise (AttributeError "currentText")
  end.

(** A call of [field_type], the second component of a [widgets] entry.
    [init_ui] stores the name of an accessor there, a [str], which is not
    callable. *)
Definition call_field_type (field_type : string) (args : list string) : Exec State jvalue :=
  raise (TypeError "'str' object is not callable").

(** [try: body except ValueError: handler] *)
Definition try_except_ValueError {A} (body handler : Exec State A) : Exec State A :=
  λ s, match body s with
       | (Raise (ValueError _), s') => handler s'
       | r => r
       end.

(** The loop of [connect]; [setting] is the record built so far.  The test
    [field_type is list] compares a [str] with the class [list]. *)
Fixpoint connect_loop (ws : list (string * (widget * string))) (setting : record)
    : Exec State record :=
  match ws with
  | [] => ret setting
  | (field_name, (w, field_type)) :: ws' =>
      let field_type_is_list := false in
      let* field_value :=
        if field_type_is_list then
          let* t := currentText w in ret (JStr t)
        else
          try_except_ValueError
            (let* t := widget_text w in call_field_type field_type [t])
            (call_field_type field_type []) in
      connect_loop ws' (dict_set field_name field_value setting)
  end.

(** [ConnectDialog.connect] *)
Definition connect (gateway_name : string) : Exec State unit :=
  let* s := get in
  let* setting := connect_loop (widgets s) [] in
  save_json (filename gateway_name) setting ;;
  main_engine_connect setting gateway_name ;;
  accept.

(** *** A sample form *)

(** The form of a gateway with a user name, a password and a server list,
    after the user has typed a name. *)
Definition ctp_default_setting : list (string * default_value) :=
  [ ("用户名", DVal (JStr "")); ("密码", DVal (JStr ""));
    ("服务器", DList ["主站"; "备用"]) ].

(** A dialog whose [widgets] holds the entries that the loop of [init_ui]
    stores for these fields, with a name typed: no constructor call gives
    such an object, it is prepared by hand. *)
Definition ctp_dialog_filled : State :=
  {| widgets := [ ("用户名", (QLineEdit "alice", "text"));
                  ("密码", (QLineEdit "", "text"));
                  ("服务器", (QComboBox ["主站"; "备用"] 0, "currentText")) ];
     files := ∅; connect_calls := []; accepted := false |}.

End Connect.

(** ** Reading a number from a text field ([float(text)]) *)

Module PyFloat.

(** The result of [float(text)], given by the decimal numeral it was read
    from: sign, digits and power of ten.  The double is the one nearest
    to that decimal; the rounding itself is not modelled. *)
Inductive pyfloat :=
| FDec (negative : bool) (mantissa : N) (exponent : Z)
| FInf (negative : bool)
| FNan.

(** The number [0] that [send_order] takes for a blank price. *)
Definition zero : pyfloat := FDec false 0 0.

Definition is_digit (c : ascii) : bool :=
  let n := nat_of_ascii c in ((48 <=? n) && (n <=? 57))%nat.
Definition digit_of (c : ascii) : N := N.of_nat (nat_of_ascii c - 48).
Definition is_space (c : ascii) : bool :=
  let n := nat_of_ascii c in ((n =? 32) || ((9 <=? n) && (n <=? 13)))%nat.
Definition is_char (x : nat) (c : ascii) : bool := (nat_of_ascii c =? x)%nat.

Definition starts_with_digit (l : list ascii) : bool :=
  match l with
  | c :: _ => is_digit c
  | [] => false
  end.

(** The digits of a digit part, and what follows it.  An underscore is
    read only between two digits. *)
Fixpoint digits_tail (l : list ascii) : list N * list ascii :=
  match l with
  | [] => ([], [])
  | c :: l' =>
      if is_digit c then
        let '(ds, r) := digits_tail l' in (digit_of c :: ds, r)
      else if is_char 95 c && starts_with_digit l' then digits_tail l'
      else ([], l)
  end.

Definition digitpart (l : list ascii) : option (list N * list ascii) :=
  if starts_with_digit l then Some (digits_tail l) else None.

(** [number ::= [digitpart] "." digitpart | digitpart ["."]]: the integer
    digits, the fraction digits and the rest. *)
Definition number (l : list ascii) : option (list N * list N * list ascii) :=
  match digitpart l with
  | Some (ints, r) =>
      match r with
      | c :: r' =>
          if is_char 46 c then
            match digitpart r' with
            | Some (fracs, r'') => Some (ints, fracs, r'')
            | None => Some (ints, [], r')
            end
          else Some (ints, [], r)
      | [] => Some (ints, [], [])
      end
  | None =>
      match l with
      | c :: r' =>
          if is_char 46 c then
            match digitpart r' with
            | Some (fracs, r'') => Some ([], fracs, r'')
            | None => None
            end
          else None
      | [] => None
      end
  end.

Definition digits_value (ds : list N) : N := foldl (λ acc d, 10 * acc + d)%N 0%N ds.

(** An optional sign. *)
Definition sign (l : list ascii) : bool * list ascii :=
  match l with
  | c :: l' => if is_char 45 c then (true, l')
               else if is_char 43 c then (false, l')
               else (false, l)
  | [] => (false, l)
  end.

(** [exponent ::= ("e" | "E") [sign] digitpart], to the end of the text;
    no exponent at the end of the text counts as 0. *)
Definition exponent (l : list ascii) : option Z :=
  match l with
  | [] => Some 0
  | c :: l' =>
      if is_char 101 c || is_char 69 c then
        let '(neg, l'') := sign l' in
        match digitpart l'' with
        | Some (ds, []) =>
            let e := Z.of_N (digits_value ds) in
            Some (if neg then - e else e)
        | _ => None
        end
      else None
  end.

(** [str.strip] of white space, on the left. *)
Fixpoint strip_left (l : list ascii) : list ascii :=
  match l with
  | c :: l' => if is_space c then strip_left l' else l
  | [] => []
  end.

Definition strip (l : list ascii) : list ascii :=
  reverse (strip_left (reverse (strip_left l))).

Definition lower_text (l : list ascii) : string :=
  lower (String.string_of_list_ascii l).

(** Whether every byte of a text is an ASCII character. *)
Definition is_ascii (text : string) : bool :=
  forallb (λ c, (nat_of_ascii c <? 128)%nat) (String.list_ascii_of_string text).

(** [float(text)] by the grammar of ASCII float literals: the value for a
    text that the grammar accepts, all of whose characters are then ASCII.
    For an ASCII text that it refuses Python raises ValueError.  A text
    with other characters goes through the Unicode database first
    (decimal digits and white space of any script are accepted), which is
    not modelled: a statement that relies on a refusal is made for ASCII
    text only. *)
Definition float_of (text : string) : option pyfloat :=
  let '(neg, body) := sign (strip (String.list_ascii_of_string text)) in
  if String.eqb (lower_text body) "inf" || String.eqb (lower_text body) "infinity"
  then Some (FInf neg)
  else if String.eqb (lower_text body) "nan" then Some FNan
  else
    match number body with
    | Some (ints, fracs, r) =>
        match exponent r with
        | Some e =>
            Some (FDec neg (digits_value (ints ++ fracs)) (e - Z.of_nat (length fracs)))
        | None => None
        end
    | None => None
    end.

End PyFloat.

(** ** The manual trading widget (TradingWidget) *)

Module Trading.
Import PyFloat.

(** The members of the enumerations of vnpy/trader/constant.py, each given
    by its value, the text shown in the combo boxes.  The file is not
    among the sources; the tables are parameters of the widget. *)
Record Enums := {
  Exchange_values : list string;
  Direction_values : list string;
  OrderType_values : list string;
  Offset_values : list string
}.

(** [OrderRequest(...)] as [send_order] builds it; enumerated fields are
    given by value. *)
Record OrderRequest := {
  req_symbol : string;
  req_exchange : string;
  req_direction : string;
  req_type : string;
  req_volume : pyfloat;
  req_price : pyfloat;
  req_offset : string;
  req_reference : string
}.

(** Modelled from the spec: [CancelRequest] of vnpy/trader/object.py
    (section 6: order id, symbol, exchange). *)
Record CancelRequest := {
  cancel_orderid : string;
  cancel_symbol : string;
  cancel_exchange : string
}.

(** What the widget does to the outside: a modal error box, or a command
    handed to the registry with a gateway name. *)
Inductive effect :=
| MessageBox_critical (title text : string)
| Send_order (req : OrderRequest) (gateway_name : string)
| Cancel_order (req : CancelRequest) (gateway_name : string).

(** The current text of each input of the widget. *)
Record Inputs := {
  symbol_line : string;
  volume_line : string;
  price_line : string;
  exchange_combo : string;
  direction_combo : string;
  order_type_combo : string;
  offset_combo : string;
  gateway_combo : string
}.

(** The registry as the widget meets it: the canonical orders it answers
    queries from, and the commands it has been handed. *)
Record World := {
  oms_orders : list Monitor.OrderData;
  effects : list effect
}.

Definition emit (e : effect) : Exec World unit :=
  modify (λ w, {| oms_orders := oms_orders w; effects := effects w ++ [e] |}).

(** [float(text)] *)
Definition float (text : string) : Exec World pyfloat :=
  match float_of text with
  | Some f => ret f
  | None => raise (ValueError text)
  end.

(** [E(text)] for an enumeration with the given values. *)
Definition enum_of (values : list string) (text : string) : Exec World string :=
  if bool_decide (text ∈ values) then ret text else raise (ValueError text).

(** [TradingWidget.send_order] *)
Definition send_order (E : Enums) (i : Inputs) : Exec World unit :=
  let symbol := symbol_line i in
  if String.eqb symbol "" then
    emit (MessageBox_critical "委托失败" "请输入合约代码")
  else
    let volume_text := volume_line i in
    if String.eqb volume_text "" then
      emit (MessageBox_critical "委托失败" "请输入委托数量")
    else
      let* volume := float volume_text in
      let price_text := price_line i in
      let* price := (if String.eqb price_text "" then ret zero else float price_text) in
      let* exchange := enum_of (Exchange_values E) (exchange_combo i) in
      let* direction := enum_of (Direction_values E) (direction_combo i) in
      let* type := enum_of (OrderType_values E) (order_type_combo i) in
      let* offset := enum_of (Offset_values E) (offset_combo i) in
      let req :=
        {| req_symbol := symbol; req_exchange := exchange; req_direction := direction;
           req_type := type; req_volume := volume; req_price := price;
           req_offset := offset; req_reference := "ManualTrading" |} in
      let gateway_name := gateway_combo i in
      emit (Send_order req gateway_name).

(** Modelled from the spec: [MainEngine.get_all_active_orders], a read of
    the canonical orders that are not in a terminal status. *)
Definition get_all_active_orders : Exec World (list Monitor.OrderData) :=
  let* w := get in ret (filter (λ o, Monitor.is_active o = true) (oms_orders w)).

(** Modelled from the spec: [OrderData.create_cancel_request]. *)
Definition create_cancel_request (o : Monitor.OrderData) : CancelRequest :=
  {| cancel_orderid := Monitor.orderid o;
     cancel_symbol := Monitor.symbol o;
     cancel_exchange := Monitor.exchange o |}.

(** [TradingWidget.cancel_all] *)
Definition cancel_all : Exec World unit :=
  let* order_list := get_all_active_orders in
  for_each order_list (λ order,
    let req := create_cancel_request order in
    emit (Cancel_order req (Monitor.gateway_name order))).

(** The order requests among the effects. *)
Definition sent_orders (es : list effect) : list (OrderRequest * string) :=
  omap (λ e, match e with Send_order r g => Some (r, g) | _ => None end) es.

Definition error_boxes (es : list effect) : list (string * string) :=
  omap (λ e, match e with MessageBox_critical t m => Some (t, m) | _ => None end) es.

(** *** Sample inputs *)

Definition sample_enums : Enums :=
  {| Exchange_values := ["SHFE"; "NASDAQ"];
     Direction_values := ["多"; "空"];
     OrderType_values := ["限价"; "市价"];
     Offset_values := [""; "开"; "平"] |}.

Definition sample_inputs (volume price : string) : Inputs :=
  {| symbol_line := "rb2410"; volume_line := volume; price_line := price;
     exchange_combo := "SHFE"; direction_combo := "多"; order_type_combo := "限价";
     offset_combo := "开"; gateway_combo := "CTP" |}.

Definition no_orders : World := {| oms_orders := []; effects := [] |}.

End Trading.

(** ** The event dispatcher *)

Module Dispatcher.

(** Modelled from the spec: the event dispatcher (vnpy.event), which is not
    among the sources; section 4.1 and section 5 of the specification.
    An event has a type and a payload; handlers are named by numbers. *)
Record Event := {
  etype : string;
  payload : nat
}.

#[export] Instance Event_eq_dec : EqDecision Event.
Proof. solve_decision. Defined.

(** A delivery: the channel it came through (the subscription to the
    event's type, or the any-event channel), the handler and the event. *)
Inductive channel := Typed | General.

#[export] Instance channel_eq_dec : EqDecision channel.
Proof. solve_decision. Defined.

(** Modelled from the spec: the dispatcher holds the subscriptions per
    event type, the any-event subscriptions, and the queue of events put
    and not yet delivered; [log] is the sequence of handler invocations
    made by the delivery thread. *)
Record State := {
  handlers : list (string * nat);
  general : list nat;
  queue : list Event;
  log : list (channel * nat * Event)
}.

Definition empty : State :=
  {| handlers := []; general := []; queue := []; log := [] |}.

(** Modelled from the spec: [register] adds the handler to the
    subscribers of the type; registering it again changes nothing. *)
Definition register (event_type : string) (h : nat) (s : State) : State :=
  if bool_decide ((event_type, h) ∈ handlers s) then s
  else {| handlers := handlers s ++ [(event_type, h)]; general := general s;
          queue := queue s; log := log s |}.

(** Modelled from the spec: [unregister] removes the subscription, and
    does nothing when there is none. *)
Definition unregister (event_type : string) (h : nat) (s : State) : State :=
  {| handlers := filter (λ p, p ≠ (event_type, h)) (handlers s); general := general s;
     queue := queue s; log := log s |}.

(** Modelled from the spec: subscription to the any-event channel. *)
Definition register_general (h : nat) (s : State) : State :=
  if bool_decide (h ∈ general s) then s
  else {| handlers := handlers s; general := general s ++ [h];
          queue := queue s; log := log s |}.

(** Modelled from the spec: [put] appends the event to the queue and
    returns. *)
Definition put (e : Event) (s : State) : State :=
  {| handlers := handlers s; general := general s;
     queue := queue s ++ [e]; log := log s |}.

(** Modelled from the spec: one turn of the delivery thread.  It takes the
    oldest queued event and invokes, one after the other, the handlers
    subscribed to its type and then the any-event handlers; a handler
    that fails does not stop the others.  With an empty queue it waits. *)
Definition deliver (s : State) : State :=
  match queue s with
  | [] => s
  | e :: q =>
      {| handlers := handlers s; general := general s; queue := q;
         log := log s
                ++ map (λ p, (Typed, p.2, e)) (filter (λ p, p.1 = etype e) (handlers s))
                ++ map (λ h, (General, h, e)) (general s) |}
  end.

(** What the producer thread and the delivery thread do, interleaved. *)
Inductive action :=
| Put (e : Event)
| Deliver.

Definition step (s : State) (a : action) : State :=
  match a with
  | Put e => put e s
  | Deliver => deliver s
  end.

Definition run (s : State) (acts : list action) : State := foldl step s acts.

(** The events put by the producer, in the order of its calls. *)
Definition puts (acts : list action) : list Event :=
  omap (λ a, match a with Put e => Some e | Deliver => None end) acts.

Definition subscribe_all (regs : list (string * nat)) : State :=
  foldl (λ s p, register p.1 p.2 s) empty regs.

Definition of_type (event_type : string) (es : list Event) : list Event :=
  filter (λ e, etype e = event_type) es.

(** The events of a type that handler [h] has been invoked with through
    its subscription to that type, in the order of the invocations. *)
Definition received (l : list (channel * nat * Event)) (h : nat) (event_type : string)
    : list Event :=
  of_type event_type
    (omap (λ d, match d with
                | (Typed, h', e) => if decide (h' = h) then Some e else None
                | _ => None
                end) l).

(** *** Sample events *)

Definition tick (n : nat) : Event := {| etype := "eTick."; payload := n |}.
Definition order_event (n : nat) : Event := {| etype := "eOrder."; payload := n |}.

End Dispatcher.

(** ** The chart module (vnpy/chart/widget.py) as imported *)

Module Chart.

(** A simple statement, by the names it reads and the names it binds when
    it runs: an import, an expression, an assignment or a function
    definition (which evaluates its annotations and defaults). *)
Inductive simple :=
| Import (module : string) (binds : list string)
| Expr (reads : list string)
| Assign (target : string) (reads : list string)
| Def (name : string) (reads : list string).

(** A statement at module level. *)
Inductive stmt :=
| Simple (st : simple)
| ClassDef (name : string) (bases : list string) (body : list simple).

(** The interpreter the module is imported in: which modules can be
    imported, and the names of the builtins. *)
Record Env := {
  importable : string → bool;
  builtins : list string
}.

(** The first of the names that is bound in none of the scopes. *)
Definition unbound (env : Env) (outer locals : list string) (names : list string)
    : option string :=
  head (filter (λ n, (n ∉ locals) ∧ (n ∉ outer) ∧ (n ∉ builtins env)) names).

(** One simple statement in a scope [locals] enclosed by [outer]: the
    exception it raises, or the scope after it. *)
Definition exec_simple (env : Env) (outer locals : list string) (st : simple)
    : exn + list string :=
  match st with
  | Import m names =>
      if importable env m then inr (locals ++ names) else inl (ImportError m)
  | Expr reads =>
      match unbound env outer locals reads with
      | Some n => inl (NameError n)
      | None => inr locals
      end
  | Assign target reads | Def target reads =>
      match unbound env outer locals reads with
      | Some n => inl (NameError n)
      | None => inr (locals ++ [target])
      end
  end.

(** A class body: its own scope, enclosed by the module's globals. *)
Fixpoint exec_class_body (env : Env) (globals locals : list string) (body : list simple)
    : option exn :=
  match body with
  | [] => None
  | st :: rest =>
      match exec_simple env globals locals st with
      | inl e => Some e
      | inr locals' => exec_class_body env globals locals' rest
      end
  end.

(** The module body, from the given globals: the exception that ends the
    import, if any, and the globals bound by then. *)
Fixpoint exec_module (env : Env) (globals : list string) (body : list stmt)
    : option exn * list string :=
  match body with
  | [] => (None, globals)
  | Simple st :: rest =>
      match exec_simple env [] globals st with
      | inl e => (Some e, globals)
      | inr globals' => exec_module env globals' rest
      end
  | ClassDef name bases cbody :: rest =>
      match unbound env [] globals bases with
      | Some n => (Some (NameError n), globals)
      | None =>
          match exec_class_body env globals [] cbody with
          | Some e => (Some e, globals)
          | None => exec_module env (globals ++ [name]) rest
          end
      end
  end.

(** The names a module starts with. *)
Definition module_dunders : list string :=
  ["__name__"; "__doc__"; "__package__"; "__loader__"; "__spec__"; "__file__";
   "__cached__"; "__builtins__"].

(** vnpy/chart/widget.py, lines 1 to 27: the imports, the call on [pg],
    and the class statement of ChartWidget with its docstring and the
    declaration of [signal_new_bar].  What follows in the class body and
    in the module is left open. *)
Definition chart_widget_module (class_rest : list simple) (module_rest : list stmt)
    : list stmt :=
  [ Simple (Import "datetime" ["datetime"]);
    Simple (Import "sys" ["sys"]);
    Simple (Import "pyqtgraph" ["pg"]);
    Simple (Import "matplotlib.pyplot" ["plt"]);
    Simple (Import "vnpy.trader.ui" ["QtGui"; "QtWidgets"; "QtCore"]);
    Simple (Import "vnpy.trader.object" ["BarData"]);
    Simple (Import "vnpy.chart.manager" ["BarManager"]);
    Simple (Import "vnpy.chart.base"
              ["GREY_COLOR"; "WHITE_COLOR"; "CURSOR_COLOR"; "BLACK_COLOR";
               "to_int"; "NORMAL_FONT"]);
    Simple (Import "vnpy.chart.axis" ["DatetimeAxis"]);
    Simple (Import "vnpy.chart.item" ["ChartItem"]);
    Simple (Expr ["pg"]);
    ClassDef "ChartWidget" ["QtWidgets"]
      (Expr [] :: Assign "signal_new_bar" ["QtCore"; "ObjectDict"] :: class_rest) ]
  ++ module_rest.

(** The modules named by the import statements of lines 1 to 16. *)
Definition chart_widget_imports : list string :=
  ["datetime"; "sys"; "pyqtgraph"; "matplotlib.pyplot"; "vnpy.trader.ui";
   "vnpy.trader.object"; "vnpy.chart.manager"; "vnpy.chart.base";
   "vnpy.chart.axis"; "vnpy.chart.item"].

(** [import vnpy.chart.widget] *)
Definition import_chart_widget (env : Env) (class_rest : list simple)
    (module_rest : list stmt) : option exn * list string :=
  exec_module env module_dunders (chart_widget_module class_rest module_rest).

(** *** The scope at the class statement, and a sample interpreter *)

(** The globals when the class statement of ChartWidget is reached. *)
Definition globals_at_class : list string :=
  module_dunders
  ++ ["datetime"; "sys"; "pg"; "plt"; "QtGui"; "QtWidgets"; "QtCore"; "BarData";
      "BarManager"; "GREY_COLOR"; "WHITE_COLOR"; "CURSOR_COLOR"; "BLACK_COLOR";
      "to_int"; "NORMAL_FONT"; "DatetimeAxis"; "ChartItem"].

(** An interpreter with the third-party packages installed and the usual
    builtins. *)
Definition full_env : Env :=
  {| importable := λ _, true;
     builtins := ["object"; "int"; "str"; "float"; "list"; "dict"; "type"; "len";
                  "range"; "print"; "None"; "True"; "False"; "super"; "isinstance"] |}.

End Chart.

(** ** What a monitor table shows *)

Module Rows.
Import Monitor.

(** The event carries every attribute named by a header. *)
Definition complete (M : MonitorClass) (data : Data) : Prop :=
  Forall (λ h, is_Some (assoc h.1 data)) (headers M).

(** The cell object [insert_new_row] builds for a header. *)
Definition cell_of (data : Data) (h : string * header) : Cell :=
  new_cell (cell h.2) (default VNone (assoc h.1 data)) data.

(** The texts of the row built for an event: [str] of each header
    attribute, in header order. *)
Definition texts (M : MonitorClass) (data : Data) : list string :=
  map (λ h, cell_text (cell_of data h)) (headers M).

(** The texts of the items of a row, column by column; None where the
    table has no item. *)
Definition row_view (M : MonitorClass) (s : State) (r : TableRow) : list (option string) :=
  map (item_text_opt s r) (seq 0 (length (headers M))).

(** The table as shown, top row first. *)
Definition view (M : MonitorClass) (s : State) : list (list (option string)) :=
  map (row_view M s) (rows s).

(** The events that are the first with their key, in order of arrival;
    [seen] are the keys met before. *)
Fixpoint firsts (M : MonitorClass) (seen : gset value) (evs : list Data) : list Data :=
  match evs with
  | [] => []
  | d :: evs' =>
      match assoc (data_key M) d with
      | Some k =>
          if decide (k ∈ seen) then firsts M seen evs'
          else d :: firsts M ({[k]} ∪ seen) evs'
      | None => firsts M seen evs'
      end
  end.

(** Every item of the table is a cell object of the store. *)
Definition items_live (s : State) : Prop :=
  ∀ r c id, r ∈ rows s → items r !! c = Some (Some id) → (id < length (store s))%nat.

(** The first header attribute the event lacks. *)
Fixpoint first_missing (hs : list (string * header)) (data : Data) : option string :=
  match hs with
  | [] => None
  | h :: hs' =>
      match assoc h.1 data with
      | Some _ => first_missing hs' data
      | None => Some h.1
      end
  end.

(** *** Copying a selection *)

(** A selection range of the table. *)
Record SelectionRange := {
  topRow : nat;
  bottomRow : nat;
  leftColumn : nat;
  rightColumn : nat
}.

(** [sep.join(parts)] *)
Fixpoint join (sep : string) (parts : list string) : string :=
  match parts with
  | [] => ""
  | [x] => x
  | x :: parts' => x +:+ sep +:+ join sep parts'
  end.

(** [self.item(r, c).text()], or the empty string when the table has no
    item there. *)
Definition table_text (s : State) (r c : nat) : string :=
  match rows s !! r with
  | Some row => item_text s row c
  | None => ""
  end.

(** The inner loop of [copy_selection] over [range(left, right + 1)],
    given as first column and count. *)
Fixpoint copy_row (s : State) (r c count : nat) (row_data : list string) : list string :=
  match count with
  | O => row_data
  | S n => copy_row s r (S c) n (row_data ++ [table_text s r c])
  end.

(** The outer loop of [copy_selection] over [range(top, bottom + 1)]. *)
Fixpoint copy_rows (s : State) (rg : SelectionRange) (r count : nat) (text : string) : string :=
  match count with
  | O => text
  | S n =>
      let row_data := copy_row s r (leftColumn rg) (S (rightColumn rg) - leftColumn rg) [] in
      copy_rows s rg (S r) n (text +:+ join (String (ascii_of_nat 9) "") row_data
                                   +:+ String (ascii_of_nat 10) "")
  end.

(** [BaseMonitor.copy_selection]: the clipboard after the call, given
    [self.selectedRanges()]. *)
Definition copy_selection (selected : list SelectionRange) (s : State) (clipboard : string)
    : string :=
  match selected with
  | [] => clipboard
  | rg :: _ => copy_rows s rg (topRow rg) (S (bottomRow rg) - topRow rg) ""
  end.

(** *** Sample events *)


Definition tick_of (symbol : string) (last : Z) : Data :=
  [ ("symbol", VStr symbol); ("exchange", VEnum "Exchange" "NASDAQ");
    ("name", VStr symbol); ("last_price", VNum last); ("volume", VNum 1000);
    ("open_price", VNum 99); ("high_price", VNum 102); ("low_price", VNum 98);
    ("bid_price_1", VNum 100); ("bid_volume_1", VNum 7);
    ("ask_price_1", VNum 101); ("ask_volume_1", VNum 9);
    ("datetime", VNone); ("gateway_name", VStr "SIM");
    ("vt_symbol", VStr (symbol +:+ ".NASDAQ")) ].

(** The keys the events carry. *)
Definition keys_of (M : MonitorClass) (evs : list Data) : gset value :=
  list_to_set (omap (assoc (data_key M)) evs).

Definition quote_of (quoteid : string) : Data :=
  [ ("quoteid", VStr quoteid); ("reference", VStr ""); ("symbol", VStr "AAPL");
    ("exchange", VEnum "Exchange" "NASDAQ"); ("bid_offset", VEnum "Offset" "OPEN");
    ("bid_volume", VNum 1); ("bid_price", VNum 100); ("ask_price", VNum 101);
    ("ask_volume", VNum 1); ("ask_offset", VEnum "Offset" "OPEN");
    ("status", VNone); ("datetime", VNone); ("gateway_name", VStr "SIM");
    ("vt_quoteid", VStr ("SIM." +:+ quoteid)) ].

Definition tick_without_name : Data :=
  [ ("symbol", VStr "AAPL"); ("exchange", VEnum "Exchange" "NASDAQ");
    ("vt_symbol", VStr "AAPL.NASDAQ") ].


(** The range that covers the whole table. *)
Definition whole_table (M : MonitorClass) (s : State) : SelectionRange :=
  {| topRow := 0; bottomRow := length (rows s) - 1;
     leftColumn := 0; rightColumn := length (headers M) - 1 |}.

(** The lines of a text, each the fields joined by tabs and ended by a
    line feed. *)
Definition lines (rows_data : list (list string)) : string :=
  foldr (λ row_data text, (join (String (ascii_of_nat 9) "") row_data
                           +:+ String (ascii_of_nat 10) "") +:+ text) "" rows_data.

(** The texts of the rows, column by column. *)
Definition rows_data (M : MonitorClass) (s : State) (rs : list TableRow) : list (list string) :=
  map (λ r, map (item_text s r) (seq 0 (length (headers M)))) rs.

(** The cell has the foreground that the constructor of its class gives:
    the bid or ask colour for a BidCell or an AskCell, none otherwise. *)
Definition constructor_colour (c : Cell) : Prop :=
  cell_fg c = cell_fg (new_cell (cell_cls c) VNone []).

Definition position_of (symbol : string) (volume pnl : Z) : Data :=
  [ ("symbol", VStr symbol); ("exchange", VEnum "Exchange" "SHFE");
    ("direction", VEnum "Direction" "SHORT"); ("volume", VNum volume);
    ("yd_volume", VNum 0); ("frozen", VNum 0); ("price", VNum 3500); ("pnl", VNum pnl);
    ("gateway_name", VStr "CTP"); ("vt_positionid", VStr ("CTP." +:+ symbol +:+ ".SHFE.SHORT")) ].

End Rows.

(** ** The global settings dialog (GlobalDialog) *)

Module Global.
Import Connect PyFloat.

(** [int(text)] by the grammar of ASCII integer literals: the value for a
    text that the grammar accepts.  It is what Python does for an ASCII
    text that is short enough for the limit on the digits of an integer
    text ([sys.get_int_max_str_digits], never applied up to 640 digits)
    not to matter; a text with other characters goes through the Unicode
    database first, which is not modelled. *)
Definition int_of (text : string) : option Z :=
  let '(neg, body) := sign (strip (String.list_ascii_of_string text)) in
  match digitpart body with
  | Some (ds, []) =>
      let n := Z.of_N (digits_value ds) in
      Some (if neg then - n else n)
  | _ => None
  end.

(** The texts on which [int_of] is [int]: ASCII, of at most 640
    characters. *)
Definition short_ascii (text : string) : bool :=
  is_ascii text && (String.length text <=? 640)%nat.

(** [type(field_value)] for the values a settings record holds here:
    strings, booleans and integers. *)
Inductive ftype := Tstr | Tbool | Tint.

Definition type_of (v : jvalue) : ftype :=
  match v with
  | JStr _ => Tstr
  | JBool _ => Tbool
  | JNum _ => Tint
  end.

(** The dialog: the line edit (by its text) and the type kept for each
    field, the settings files, the information boxes shown, and whether
    the dialog was accepted. *)
Record State := {
  widgets : list (string * (string * ftype));
  files : gmap string record;
  boxes : nat;
  accepted : bool
}.

#[export] Instance ftype_eq_dec : EqDecision ftype.
Proof. solve_decision. Defined.

(** [d.update(other)] *)
Definition dict_update (d other : record) : record :=
  foldl (λ acc p, dict_set p.1 p.2 acc) d other.

Section WithSettings.
(** [SETTINGS] and [SETTING_FILENAME] of vnpy/trader/setting.py, which is
    not among the sources. *)
Variable SETTINGS : record.
Variable SETTING_FILENAME : string.

(** The settings the dialog shows: the defaults, updated with the file. *)
Definition shown_settings (fs : gmap string record) : record :=
  dict_update SETTINGS (load_json SETTING_FILENAME fs).

(** [GlobalDialog.init_ui]: one line edit per setting, showing its [str]. *)
Definition init_ui : Exec State unit :=
  let* s := get in
  for_each (shown_settings (files s)) (λ '(field_name, field_value),
    modify (λ s, {| widgets := dict_set field_name (jstr field_value, type_of field_value)
                                        (widgets s);
                    files := files s; boxes := boxes s; accepted := accepted s |})).

Definition open_dialog (fs : gmap string record) : State :=
  (init_ui {| widgets := []; files := fs; boxes := 0; accepted := false |}).2.

(** [field_type(value_text)], with the test for [bool] before it. *)
Definition convert (field_type : ftype) (value_text : string) : Exec State jvalue :=
  match field_type with
  | Tbool => if String.eqb value_text "True" then ret (JBool true) else ret (JBool false)
  | Tstr => ret (JStr value_text)
  | Tint =>
      match int_of value_text with
      | Some z => ret (JNum z)
      | None => raise (ValueError value_text)
      end
  end.

(** The loop of [update_setting]; [settings] is the record built so far. *)
Fixpoint update_loop (ws : list (string * (string * ftype))) (settings : record)
    : Exec State record :=
  match ws with
  | [] => ret settings
  | (field_name, (value_text, field_type)) :: ws' =>
      let* field_value := convert field_type value_text in
      update_loop ws' (dict_set field_name field_value settings)
  end.

(** [GlobalDialog.update_setting] *)
Definition update_setting : Exec State unit :=
  let* s := get in
  let* settings := update_loop (widgets s) [] in
  modify (λ s, {| widgets := widgets s; files := files s;
                  boxes := S (boxes s); accepted := accepted s |}) ;;
  modify (λ s, {| widgets := widgets s; files := <[SETTING_FILENAME := settings]> (files s);
                  boxes := boxes s; accepted := accepted s |}) ;;
  modify (λ s, {| widgets := widgets s; files := files s;
                  boxes := boxes s; accepted := true |}).

(** The user replaces the text of a field. *)
Definition set_text (field_name value_text : string) (s : State) : State :=
  {| widgets := map (λ w, if String.eqb w.1 field_name then (w.1, (value_text, w.2.2)) else w)
                    (widgets s);
     files := files s; boxes := boxes s; accepted := accepted s |}.

End WithSettings.

(** *** Sample settings *)

Definition sample_SETTINGS : record :=
  [ ("font.family", JStr "Arial"); ("font.size", JNum 12); ("log.active", JBool true);
    ("database.port", JNum 0) ].

Definition sample_settings_file : gmap string record :=
  {[ "vt_setting.json" := [("font.size", JNum 14); ("email.port", JNum (-1))] ]}.

End Global.

(** ** The inputs of the trading widget (set_vt_symbol, update_with_cell) *)

Module Form.
Import PyFloat.

(** A [QComboBox] as the widget uses it: the items, and the current index,
    None standing for -1. *)
Record Combo := {
  items : list string;
  currentIndex : option nat
}.

(** [combo.currentText()]: the empty string without a current item. *)
Definition currentText (c : Combo) : string :=
  match currentIndex c with
  | Some i => default "" (items c !! i)
  | None => ""
  end.

(** [combo.findText(text)]: the index of the first item equal to the
    text, or -1. *)
Fixpoint find_text (l : list string) (text : string) : option nat :=
  match l with
  | [] => None
  | item :: l' => if String.eqb item text then Some 0%nat else S <$> find_text l' text
  end.
Definition findText (c : Combo) (text : string) : option nat := find_text (items c) text.

(** [combo.setCurrentIndex(ix)], called with a result of [findText]. *)
Definition setCurrentIndex (ix : option nat) (c : Combo) : Combo :=
  {| items := items c; currentIndex := ix |}.

(** [combo.setCurrentIndex(combo.findText(text))] *)
Definition select (text : string) (c : Combo) : Combo := setCurrentIndex (findText c text) c.

(** [Direction] of vnpy/trader/constant.py, which is not among the
    sources. *)
Inductive Direction := LONG | SHORT | NET.

(** Modelled from the spec: the fields of [ContractData] that the widget
    reads. *)
Record ContractData := {
  name : string;
  gateway_name : string;
  pricetick : pyfloat
}.

(** [SubscribeRequest(symbol=..., exchange=...)], the exchange given by
    value. *)
Record SubscribeRequest := {
  sub_symbol : string;
  sub_exchange : string
}.

(** The fields of [PositionData] that the widget reads. *)
Record PositionData := {
  pos_symbol : string;
  pos_exchange : string;
  direction : Direction;
  volume : pyfloat
}.

(** What [cell.get_data()] gives for a cell of the tick monitor or the
    position monitor: a position, or another object with a symbol and an
    exchange. *)
Inductive cell_data :=
| Position (p : PositionData)
| Other (symbol exchange : string).

Definition data_symbol (data : cell_data) : string :=
  match data with
  | Position p => pos_symbol p
  | Other symbol _ => symbol
  end.
Definition data_exchange (data : cell_data) : string :=
  match data with
  | Position p => pos_exchange p
  | Other _ exchange => exchange
  end.

(** [volume > 0] and [abs(volume)] on floats. *)
Definition positive (f : pyfloat) : bool :=
  match f with
  | FDec negative mantissa _ => negb negative && (0 <? mantissa)%N
  | FInf negative => negb negative
  | FNan => false
  end.
Definition fabs (f : pyfloat) : pyfloat :=
  match f with
  | FDec _ mantissa exponent => FDec false mantissa exponent
  | FInf _ => FInf false
  | FNan => FNan
  end.

(** The widget: its attributes, its inputs, the texts of its depth labels
    by attribute name, and the subscriptions handed to the registry. *)
Record Widget := {
  vt_symbol : string;
  price_digits : Z;
  symbol_line : string;
  name_line : string;
  price_line : string;
  volume_line : string;
  exchange_combo : Combo;
  direction_combo : Combo;
  offset_combo : Combo;
  order_type_combo : Combo;
  gateway_combo : Combo;
  labels : gmap string string;
  subscribed : list (SubscribeRequest * string)
}.

Definition set_vt_symbol_attr (v : string) (w : Widget) : Widget :=
  {| vt_symbol := v; price_digits := price_digits w; symbol_line := symbol_line w;
     name_line := name_line w; price_line := price_line w; volume_line := volume_line w;
     exchange_combo := exchange_combo w; direction_combo := direction_combo w;
     offset_combo := offset_combo w; order_type_combo := order_type_combo w;
     gateway_combo := gateway_combo w; labels := labels w; subscribed := subscribed w |}.
Definition set_price_digits (v : Z) (w : Widget) : Widget :=
  {| vt_symbol := vt_symbol w; price_digits := v; symbol_line := symbol_line w;
     name_line := name_line w; price_line := price_line w; volume_line := volume_line w;
     exchange_combo := exchange_combo w; direction_combo := direction_combo w;
     offset_combo := offset_combo w; order_type_combo := order_type_combo w;
     gateway_combo := gateway_combo w; labels := labels w; subscribed := subscribed w |}.
Definition set_symbol_line (v : string) (w : Widget) : Widget :=
  {| vt_symbol := vt_symbol w; price_digits := price_digits w; symbol_line := v;
     name_line := name_line w; price_line := price_line w; volume_line := volume_line w;
     exchange_combo := exchange_combo w; direction_combo := direction_combo w;
     offset_combo := offset_combo w; order_type_combo := order_type_combo w;
     gateway_combo := gateway_combo w; labels := labels w; subscribed := subscribed w |}.
Definition set_name_line (v : string) (w : Widget) : Widget :=
  {| vt_symbol := vt_symbol w; price_digits := price_digits w; symbol_line := symbol_line w;
     name_line := v; price_line := price_line w; volume_line := volume_line w;
     exchange_combo := exchange_combo w; direction_combo := direction_combo w;
     offset_combo := offset_combo w; order_type_combo := order_type_combo w;
     gateway_combo := gateway_combo w; labels := labels w; subscribed := subscribed w |}.
Definition set_price_line (v : string) (w : Widget) : Widget :=
  {| vt_symbol := vt_symbol w; price_digits := price_digits w; symbol_line := symbol_line w;
     name_line := name_line w; price_line := v; volume_line := volume_line w;
     exchange_combo := exchange_combo w; direction_combo := direction_combo w;
     offset_combo := offset_combo w; order_type_combo := order_type_combo w;
     gateway_combo := gateway_combo w; labels := labels w; subscribed := subscribed w |}.
Definition set_volume_line (v : string) (w : Widget) : Widget :=
  {| vt_symbol := vt_symbol w; price_digits := price_digits w; symbol_line := symbol_line w;
     name_line := name_line w; price_line := price_line w; volume_line := v;
     exchange_combo := exchange_combo w; direction_combo := direction_combo w;
     offset_combo := offset_combo w; order_type_combo := order_type_combo w;
     gateway_combo := gateway_combo w; labels := labels w; subscribed := subscribed w |}.
Definition on_exchange_combo (f : Combo → Combo) (w : Widget) : Widget :=
  {| vt_symbol := vt_symbol w; price_digits := price_digits w; symbol_line := symbol_line w;
     name_line := name_line w; price_line := price_line w; volume_line := volume_line w;
     exchange_combo := f (exchange_combo w); direction_combo := direction_combo w;
     offset_combo := offset_combo w; order_type_combo := order_type_combo w;
     gateway_combo := gateway_combo w; labels := labels w; subscribed := subscribed w |}.
Definition on_direction_combo (f : Combo → Combo) (w : Widget) : Widget :=
  {| vt_symbol := vt_symbol w; price_digits := price_digits w; symbol_line := symbol_line w;
     name_line := name_line w; price_line := price_line w; volume_line := volume_line w;
     exchange_combo := exchange_combo w; direction_combo := f (direction_combo w);
     offset_combo := offset_combo w; order_type_combo := order_type_combo w;
     gateway_combo := gateway_combo w; labels := labels w; subscribed := subscribed w |}.
Definition on_offset_combo (f : Combo → Combo) (w : Widget) : Widget :=
  {| vt_symbol := vt_symbol w; price_digits := price_digits w; symbol_line := symbol_line w;
     name_line := name_line w; price_line := price_line w; volume_line := volume_line w;
     exchange_combo := exchange_combo w; direction_combo := direction_combo w;
     offset_combo := f (offset_combo w); order_type_combo := order_type_combo w;
     gateway_combo := gateway_combo w; labels := labels w; subscribed := subscribed w |}.
Definition on_gateway_combo (f : Combo → Combo) (w : Widget) : Widget :=
  {| vt_symbol := vt_symbol w; price_digits := price_digits w; symbol_line := symbol_line w;
     name_line := name_line w; price_line := price_line w; volume_line := volume_line w;
     exchange_combo := exchange_combo w; direction_combo := direction_combo w;
     offset_combo := offset_combo w; order_type_combo := order_type_combo w;
     gateway_combo := f (gateway_combo w); labels := labels w; subscribed := subscribed w |}.
Definition on_labels (f : gmap string string → gmap string string) (w : Widget) : Widget :=
  {| vt_symbol := vt_symbol w; price_digits := price_digits w; symbol_line := symbol_line w;
     name_line := name_line w; price_line := price_line w; volume_line := volume_line w;
     exchange_combo := exchange_combo w; direction_combo := direction_combo w;
     offset_combo := offset_combo w; order_type_combo := order_type_combo w;
     gateway_combo := gateway_combo w; labels := f (labels w); subscribed := subscribed w |}.

(** [main_engine.subscribe(req, gateway_name)]: the call is recorded. *)
Definition main_engine_subscribe (req : SubscribeRequest) (gateway : string)
    : Exec Widget unit :=
  modify (λ w,
  {| vt_symbol := vt_symbol w; price_digits := price_digits w; symbol_line := symbol_line w;
     name_line := name_line w; price_line := price_line w; volume_line := volume_line w;
     exchange_combo := exchange_combo w; direction_combo := direction_combo w;
     offset_combo := offset_combo w; order_type_combo := order_type_combo w;
     gateway_combo := gateway_combo w; labels := labels w;
     subscribed := subscribed w ++ [(req, gateway)] |}).

(** The labels that [clear_label_text] empties, in its order. *)
Definition label_names : list string :=
  [ "lp_label"; "return_label";
    "bv1_label"; "bv2_label"; "bv3_label"; "bv4_label"; "bv5_label";
    "av1_label"; "av2_label"; "av3_label"; "av4_label"; "av5_label";
    "bp1_label"; "bp2_label"; "bp3_label"; "bp4_label"; "bp5_label";
    "ap1_label"; "ap2_label"; "ap3_label"; "ap4_label"; "ap5_label" ].

(** [TradingWidget.clear_label_text] *)
Definition clear_label_text : Exec Widget unit :=
  for_each label_names (λ label, modify (on_labels <[label := ""]>)).

Section WithEngine.
(** The values of [Exchange], the answers of [main_engine.get_contract],
    [get_digits] of vnpy/trader/utility.py, the values of the members of
    [Direction] and of [Offset.CLOSE], and [str] of a float; none of them
    is among the sources. *)
Variable E : Trading.Enums.
Variable get_contract : string → option ContractData.
Variable get_digits : pyfloat → Z.
Variable Direction_value : Direction → string.
Variable Offset_CLOSE_value : string.
Variable float_str : pyfloat → string.

(** [Exchange(exchange_value)] *)
Definition Exchange (exchange_value : string) : Exec Widget string :=
  if bool_decide (exchange_value ∈ Trading.Exchange_values E) then ret exchange_value
  else raise (ValueError exchange_value).

(** [TradingWidget.set_vt_symbol] *)
Definition set_vt_symbol : Exec Widget unit :=
  let* w := get in
  let symbol := symbol_line w in
  if String.eqb symbol "" then ret tt
  else
    let exchange_value := currentText (exchange_combo w) in
    let vt_symbol' := symbol +:+ "." +:+ exchange_value in
    if String.eqb vt_symbol' (vt_symbol w) then ret tt
    else
      modify (set_vt_symbol_attr vt_symbol') ;;
      let* gateway_name :=
        match get_contract vt_symbol' with
        | None =>
            modify (set_name_line "") ;;
            let* w := get in
            ret (currentText (gateway_combo w))
        | Some contract =>
            modify (set_name_line (name contract)) ;;
            modify (on_gateway_combo (select (gateway_name contract))) ;;
            modify (set_price_digits (get_digits (pricetick contract))) ;;
            ret (gateway_name contract)
        end in
      clear_label_text ;;
      modify (set_volume_line "") ;;
      modify (set_price_line "") ;;
      let* exchange := Exchange exchange_value in
      main_engine_subscribe {| sub_symbol := symbol; sub_exchange := exchange |} gateway_name.

(** The direction of the order that closes a position. *)
Definition closing_direction (p : PositionData) : Direction :=
  match direction p with
  | SHORT => LONG
  | LONG => SHORT
  | NET => if positive (volume p) then SHORT else LONG
  end.

(** [TradingWidget.update_with_cell] *)
Definition update_with_cell (data : cell_data) : Exec Widget unit :=
  modify (set_symbol_line (data_symbol data)) ;;
  modify (on_exchange_combo (select (data_exchange data))) ;;
  set_vt_symbol ;;
  match data with
  | Position p =>
      modify (on_direction_combo (select (Direction_value (closing_direction p)))) ;;
      modify (on_offset_combo (select Offset_CLOSE_value)) ;;
      modify (set_volume_line (float_str (fabs (volume p))))
  | Other _ _ => ret tt
  end.

(** What [send_order] reads from the widget. *)
Definition inputs_of (w : Widget) : Trading.Inputs :=
  {| Trading.symbol_line := symbol_line w;
     Trading.volume_line := volume_line w;
     Trading.price_line := price_line w;
     Trading.exchange_combo := currentText (exchange_combo w);
     Trading.direction_combo := currentText (direction_combo w);
     Trading.order_type_combo := currentText (order_type_combo w);
     Trading.offset_combo := currentText (offset_combo w);
     Trading.gateway_combo := currentText (gateway_combo w) |}.

End WithEngine.

(** *** Sample widget *)

Definition sample_widget : Widget :=
  {| vt_symbol := ""; price_digits := 0; symbol_line := "rb2410"; name_line := "";
     price_line := "3500"; volume_line := "1";
     exchange_combo := {| items := ["SHFE"; "NASDAQ"]; currentIndex := Some 0%nat |};
     direction_combo := {| items := ["多"; "空"]; currentIndex := Some 0%nat |};
     offset_combo := {| items := [""; "开"; "平"]; currentIndex := Some 0%nat |};
     order_type_combo := {| items := ["限价"; "市价"]; currentIndex := Some 0%nat |};
     gateway_combo := {| items := ["CTP"; "SIM"]; currentIndex := Some 0%nat |};
     labels := {[ "lp_label" := "3500" ]}; subscribed := [] |}.

Definition sample_contracts (vt_symbol : string) : option ContractData :=
  if String.eqb vt_symbol "rb2410.SHFE"
  then Some {| name := "螺纹钢2410"; gateway_name := "SIM"; pricetick := FDec false 1 0 |}
  else None.

Definition sample_digits (pricetick : pyfloat) : Z := 0.

Definition sample_Direction_value (d : Direction) : string :=
  match d with
  | LONG => "多"
  | SHORT => "空"
  | NET => "净"
  end.

(** A [str] of floats: whole numbers with one decimal, others in exponent
    form. *)
Definition sample_float_str (f : pyfloat) : string :=
  match f with
  | FDec negative mantissa 0 => (if negative then "-" else "") +:+ pretty mantissa +:+ ".0"
  | FDec negative mantissa exponent =>
      (if negative then "-" else "") +:+ pretty mantissa +:+ "e" +:+ pretty exponent
  | FInf negative => if negative then "-inf" else "inf"
  | FNan => "nan"
  end.

Definition sample_position : PositionData :=
  {| pos_symbol := "ag2412"; pos_exchange := "SHFE"; direction := LONG;
     volume := FDec false 3 0 |}.

End Form.

(** ** Construction of the monitors and of the main window *)

Module Startup.

(** [QtCore.Qt.DockWidgetArea], where the code names it. *)
Inductive area := LeftDockWidgetArea | RightDockWidgetArea | BottomDockWidgetArea.

(** What a constructor does to the outside. *)
Inductive effect :=
| Register (event_type : string)
| AddToolBar
| SetCentralWidget
| AddDockWidget (name widget_class : string) (direction : area)
| TimerStart
| Cancel_quote.

(** An instance as attribute lookup sees it: the names bound on the
    instance, and the effects of its methods so far. *)
Record Obj := {
  attrs : gset string;
  effects : list effect
}.

(** The object handed to [__init__]. *)
Definition new : Obj := {| attrs := ∅; effects := [] |}.

(** [triple P c Q R]: from a state in [P], the command [c] returns [a]
    in a state in [Q a], or raises [e] in a state in [R e]. *)
Definition triple {A} (P : Obj → Prop) (c : Exec Obj A)
    (Q : A → Obj → Prop) (R : exn → Obj → Prop) : Prop :=
  ∀ o, P o →
    match c o with
    | (Return a, o') => Q a o'
    | (Raise e, o') => R e o'
    end.

(** The values that [create_dock] and [init_dock] pass around. *)
Inductive pyobj :=
| QDockWidget (name : string)
| QWidget (widget_class : string)
| PyPair (first second : pyobj).

(** [a, b = value]: only a pair is iterable among these values. *)
Definition unpack2 (value : pyobj) : Exec Obj (pyobj * pyobj) :=
  match value with
  | PyPair a b => ret (a, b)
  | QDockWidget _ => raise (TypeError "cannot unpack non-iterable QDockWidget object")
  | QWidget _ => raise (TypeError "cannot unpack non-iterable QWidget object")
  end.

Definition emit (e : effect) : Exec Obj unit :=
  modify (λ o, {| attrs := attrs o; effects := effects o ++ [e] |}).

(** [self.name = value] *)
Definition self_set (name : string) : Exec Obj unit :=
  modify (λ o, {| attrs := {[ name ]} ∪ attrs o; effects := effects o |}).

(** The names bound in the body of [BaseMonitor] and of [MainWindow]. *)
Definition BaseMonitor_attrs : list string :=
  [ "event_type"; "data_key"; "sorting"; "headers"; "signal"; "__init__"; "init_ui";
    "init_table"; "init_menu"; "copy_selection"; "refresh"; "register_event";
    "process_event"; "insert_new_row"; "update_old_row"; "resize_columns"; "save_csv";
    "contextMenuEvent"; "save_setting"; "load_setting" ].

Definition MainWindow_attrs : list string :=
  [ "__init__"; "init_ui"; "init_central_widget"; "create_action_button"; "init_shortcut";
    "init_dock"; "init_menu"; "init_toolbar"; "add_action"; "create_dock"; "connect_gateway";
    "closeEvent"; "open_widget"; "save_window_setting"; "load_window_setting";
    "restore_window_setting"; "send_test_email"; "open_forum"; "edit_global_setting";
    "update_status" ].

Section WithQt.
(** The attribute names that the Qt base classes of the object provide;
    PySide6 is not among the sources.  Calls into Qt and other libraries
    are taken to return. *)
Variable Qt : string → bool.

(** The exceptional outcome of a failed lookup of [self.name]: the name is
    not one that Qt provides, and the state is as the invariant has it. *)
Definition lookup_failed (I : Obj → Prop) (e : exn) (o : Obj) : Prop :=
  (∃ name, e = AttributeError name ∧ Qt name = false) ∧ I o.

(** The instance has no other attributes than [names]. *)
Definition bound (names : list string) (o : Obj) : Prop :=
  ∀ name, name ∈ attrs o → name ∈ names.

(** The state while a constructor has bound no other names than [names]
    and has had no effect. *)
Definition only (names : list string) (o : Obj) : Prop :=
  bound names o ∧ effects o = [].

Section WithClass.
(** The names bound in the bodies of the classes of the object that are
    in this repository. *)
Variable class_attrs : list string.

(** The evaluation of [self.name]. *)
Definition self_get (name : string) : Exec Obj unit :=
  let* o := get in
  if bool_decide (name ∈ attrs o) || bool_decide (name ∈ class_attrs) || Qt name then ret tt
  else raise (AttributeError name).

End WithClass.

(** *** BaseMonitor *)

Section Monitor.
(** The monitor class: the names bound in its own body and in those of
    its bases below [BaseMonitor], its [sorting] flag, its [event_type],
    and its [init_ui]. *)
Variable own : list string.
Variable M : Monitor.MonitorClass.
Variable event_type : string.
Variable init_ui : Exec Obj unit.

(** [BaseMonitor.init_table] *)
Definition init_table : Exec Obj unit :=
  let self := self_get (own ++ BaseMonitor_attrs) in
  self "setEditTriggers" ;; self "NoEditTriggers" ;;
  self "setAlternatingRowColors" ;;
  self "verticalHeader" ;;
  self "setSelectionBehavior" ;; self "SelectRows" ;;
  self "horizontalHeader" ;;
  self "verticalHeader" ;;
  self "setStyleSheet" ;;
  self "headers" ;;
  self "setColumnCount" ;;
  self "setHorizontalHeaderLabels" ;;
  self "sorting" ;;
  if Monitor.sorting M then
    self "horizontalHeader" ;;
    self "horizontalHeader" ;; self "sorting_change"
  else ret tt.

(** [BaseMonitor.init_menu]: after the four actions it sets their icons
    with [get_icon_path]. *)
Definition init_menu : Exec Obj unit :=
  let self := self_get (own ++ BaseMonitor_attrs) in
  self_set "menu" ;;
  self "resize_columns" ;; self "menu" ;;
  self "save_csv" ;; self "menu" ;;
  self "copy_selection" ;; self "menu" ;;
  self "refresh" ;; self "menu" ;;
  Monitor.global_name "get_icon_path".

(** [BaseMonitor.init_ui] *)
Definition BaseMonitor_init_ui : Exec Obj unit :=
  let self := self_get (own ++ BaseMonitor_attrs) in
  self "init_table" ;; init_table ;;
  self "init_menu" ;; init_menu.

(** [BaseMonitor.register_event] *)
Definition register_event : Exec Obj unit :=
  let self := self_get (own ++ BaseMonitor_attrs) in
  self "event_type" ;;
  if String.eqb event_type "" then ret tt
  else
    self "signal" ;; self "process_event" ;;
    self "event_engine" ;; self "event_type" ;; self "signal" ;;
    emit (Register event_type).

(** [BaseMonitor.__init__], with the [init_ui] of the class. *)
Definition BaseMonitor__init__ : Exec Obj unit :=
  let self := self_get (own ++ BaseMonitor_attrs) in
  self_set "event_engine" ;;
  self_set "cells" ;;
  self_set "rows" ;;
  self_set "handlers" ;;
  self "init_ui" ;; init_ui ;;
  self "register_event" ;; register_event.

(** [QuoteMonitor.cancel_quote] *)
Definition cancel_quote : Exec Obj unit :=
  let self := self_get (own ++ BaseMonitor_attrs) in
  self "main_engine" ;;
  emit Cancel_quote.

End Monitor.

(** The names bound in the body of [QuoteMonitor]. *)
Definition QuoteMonitor_attrs : list string :=
  [ "event_type"; "data_key"; "sorting"; "headers"; "init_ui"; "cancel_quote" ].

(** [QuoteMonitor.init_ui] *)
Definition QuoteMonitor_init_ui : Exec Obj unit :=
  let self := self_get (QuoteMonitor_attrs ++ BaseMonitor_attrs) in
  BaseMonitor_init_ui QuoteMonitor_attrs Monitor.QuoteMonitor ;;
  self "setToolTip" ;;
  self "itemDoubleClicked" ;; self "cancel_quote".

(** *** MainWindow *)

Section Window.
(** The parts of the window's construction that depend on the registry,
    on Qt and on the platform: [init_menu], the construction of a widget
    class by [create_dock], the attribute names that a QDockWidget
    provides, and whether the platform is macOS. *)
Variable MainWindow_init_menu : Exec Obj unit.
Variable construct : string → outcome unit.
Variable QDockWidget_attrs : string → bool.
Variable darwin : bool.

(** The evaluation of [dock.name]. *)
Definition dock_get (name : string) : Exec Obj unit :=
  if QDockWidget_attrs name then ret tt else raise (AttributeError name).

(** The attributes of the dock that [create_dock] looks up, in order:
    [dock.setWidget(widget)], [dock.setObjectName(name)],
    [dock.setFeatures(dock.DockWidgetFloatable | dock.DockWidgetMovable)]
    and [dock.titleBarWidget()]. *)
Definition dock_lookups : list string :=
  [ "setWidget"; "setObjectName"; "setFeatures"; "DockWidgetFloatable";
    "DockWidgetMovable"; "titleBarWidget" ].

Definition self := self_get MainWindow_attrs.

(** [MainWindow.create_action_button] *)
Definition create_action_button : Exec Obj unit := ret tt.

(** [MainWindow.init_central_widget] *)
Definition init_central_widget : Exec Obj unit :=
  self "create_action_button" ;; self "open_connect_dialog" ;; create_action_button ;;
  self "create_action_button" ;; self "open_widget_market" ;; create_action_button ;;
  self "create_action_button" ;; self "open_widget_trading" ;; create_action_button ;;
  self "setCentralWidget" ;;
  emit SetCentralWidget.

(** [MainWindow.init_toolbar] *)
Definition init_toolbar : Exec Obj unit :=
  self_set "toolbar" ;;
  self "toolbar" ;; self "toolbar" ;; self "toolbar" ;;
  self "toolbar" ;;
  self "toolbar" ;;
  self "addToolBar" ;; self "toolbar" ;;
  emit AddToolBar.

(** [MainWindow.create_dock]: it returns the dock alone.  A dock that was
    just made has no title bar widget, so the title bar is not styled. *)
Definition create_dock (widget_class name : string) (direction : option area)
    : Exec Obj pyobj :=
  self "main_engine" ;; self "event_engine" ;;
  match construct widget_class with
  | Raise e => raise e
  | Return _ =>
      for_each dock_lookups dock_get ;;
      self "addDockWidget" ;;
      emit (AddDockWidget name widget_class (default RightDockWidgetArea direction)) ;;
      ret (QDockWidget name)
  end.

(** [a, b = self.create_dock(widget_class, name, direction)] *)
Definition dock_pair (widget_class name : string) (direction : area)
    : Exec Obj (pyobj * pyobj) :=
  self "create_dock" ;;
  let* value := create_dock widget_class name (Some direction) in
  unpack2 value.

(** [MainWindow.init_dock] *)
Definition init_dock : Exec Obj unit :=
  let* '(trading_widget, trading_dock) :=
    dock_pair "TradingWidget" "交易" LeftDockWidgetArea in
  self_set "trading_widget" ;;
  let* '(tick_widget, tick_dock) := dock_pair "TickMonitor" "行情" RightDockWidgetArea in
  let* '(order_widget, order_dock) := dock_pair "OrderMonitor" "委托" RightDockWidgetArea in
  let* '(active_widget, active_dock) :=
    dock_pair "ActiveOrderMonitor" "活动" RightDockWidgetArea in
  let* '(trade_widget, trade_dock) := dock_pair "TradeMonitor" "成交" RightDockWidgetArea in
  let* '(log_widget, log_dock) := dock_pair "LogMonitor" "日志" BottomDockWidgetArea in
  let* '(account_widget, account_dock) :=
    dock_pair "AccountMonitor" "资金" BottomDockWidgetArea in
  let* '(position_widget, position_dock) :=
    dock_pair "PositionMonitor" "持仓" BottomDockWidgetArea in
  self "tabifyDockWidget" ;;
  self "save_window_setting" ;; self "window_title" ;; self "saveState" ;; self "saveGeometry" ;;
  self "trading_widget" ;;
  self "trading_widget".

(** [MainWindow.init_ui] *)
Definition MainWindow_init_ui : Exec Obj unit :=
  self "setWindowTitle" ;; self "window_title" ;;
  self "setWindowIcon" ;;
  self "setStyleSheet" ;;
  self "init_central_widget" ;; init_central_widget ;;
  self "init_toolbar" ;; init_toolbar ;;
  self "init_menu" ;; MainWindow_init_menu ;;
  self "init_dock" ;; init_dock ;;
  self "statusBar" ;;
  self_set "connectStatus" ;;
  self "connectStatus" ;;
  self "connectStatus" ;;
  self "statusBar" ;; self "connectStatus" ;;
  self_set "timeLabel" ;;
  self "statusBar" ;; self "timeLabel" ;;
  self "resize" ;;
  self "setMinimumWidth" ;;
  self "setMinimumHeight" ;;
  (if darwin then self "setUnifiedTitleAndToolBarOnMac" else ret tt) ;;
  self "move" ;; self "width" ;; self "height".

(** [MainWindow.init_shortcut] *)
Definition init_shortcut : Exec Obj unit := ret tt.

(** [MainWindow.__init__] *)
Definition MainWindow__init__ : Exec Obj unit :=
  self_set "main_engine" ;;
  self_set "event_engine" ;;
  self_set "connect_status" ;;
  self_set "window_title" ;;
  self_set "widgets" ;;
  self_set "monitors" ;;
  self "init_ui" ;; MainWindow_init_ui ;;
  self "init_shortcut" ;; init_shortcut ;;
  self_set "statusTimer" ;;
  self "statusTimer" ;; self "update_status" ;;
  self "statusTimer" ;;
  emit TimerStart.

End Window.
End WithQt.

(** *** Sample Qt base class *)

(** A QDockWidget that provides no enumerator under its own name, as in
    PySide6 with the enumerations of Qt 6. *)
Definition sample_QDockWidget (name : string) : bool :=
  negb (bool_decide (name ∈ ["DockWidgetFloatable"; "DockWidgetMovable"])).

(** A Qt that provides every name except the three slots that
    [init_central_widget] asks for, [sorting_change] and [main_engine]. *)
Definition sample_Qt (name : string) : bool :=
  negb (bool_decide (name ∈ ["open_connect_dialog"; "open_widget_market";
                             "open_widget_trading"; "sorting_change"; "main_engine"])).

End Startup.

(** ** The contract query (ContractManager) *)

Module Contracts.
Import Monitor.

(** [ContractManager.headers]: attribute name and display label. *)
Definition headers : list (string * string) :=
  [ ("vt_symbol", "本地代码"); ("symbol", "代码"); ("exchange", "交易所");
    ("name", "名称"); ("product", "合约分类"); ("size", "合约乘数");
    ("pricetick", "价格跳动"); ("min_volume", "最小委托量");
    ("option_portfolio", "期权产品"); ("option_expiry", "期权到期日");
    ("option_strike", "期权行权价"); ("option_type", "期权类型");
    ("gateway_name", "交易接口") ].

(** The contract table: its row count and its items by row and column;
    [init_ui] sets the column count to the number of headers. *)
Record Table := {
  rowCount : nat;
  table_items : gmap (nat * nat) Cell
}.

Definition columnCount : nat := length headers.

(** [table.clearContents()] *)
Definition clearContents (t : Table) : Table :=
  {| rowCount := rowCount t; table_items := ∅ |}.

(** [table.setRowCount(n)]: the items of the rows that go are dropped. *)
Definition setRowCount (n : nat) (t : Table) : Table :=
  {| rowCount := n;
     table_items := filter (λ p, (p.1.1 < n)%nat) (table_items t) |}.

(** [table.setItem(row, column, cell)]: nothing outside the table. *)
Definition setItem (row column : nat) (cell : Cell) (t : Table) : Table :=
  if ((row <? rowCount t) && (column <? columnCount))%nat
  then {| rowCount := rowCount t; table_items := <[(row, column) := cell]> (table_items t) |}
  else t.

(** [table.item(row, column)] *)
Definition item (t : Table) (row column : nat) : option Cell := table_items t !! (row, column).

(** [if value in {None, 0}: value = ""] *)
Definition blank (value : Py.value) : Py.value :=
  match value with
  | VNone => VStr ""
  | VNum 0 => VStr ""
  | _ => value
  end.

(** The cell made for a value: by its type, an EnumCell, a DateCell or a
    BaseCell; the constructors show [str(value)]. *)
Definition cell_of (value : Py.value) (contract : Data) : Cell :=
  match value with
  | VEnum _ _ => new_cell EnumCell value contract
  | VTime _ => new_cell DateCell value contract
  | _ => new_cell BaseCell value contract
  end.

(** [[contract for contract in all_contracts if flt in contract.vt_symbol]] *)
Fixpoint matching (flt : string) (all_contracts : list Data) : Exec Table (list Data) :=
  match all_contracts with
  | [] => ret []
  | contract :: rest =>
      let* vt_symbol := getattr contract "vt_symbol" in
      match vt_symbol with
      | VStr s =>
          let* contracts := matching flt rest in
          ret (if contains flt s then contract :: contracts else contracts)
      | _ => raise (TypeError "in")
      end
  end.

(** The loop over the columns of one row, from [column] on. *)
Fixpoint fill_columns (row column : nat) (names : list string) (contract : Data)
    : Exec Table unit :=
  match names with
  | [] => ret tt
  | name :: names' =>
      let* value := getattr contract name in
      let value := blank value in
      modify (setItem row column (cell_of value contract)) ;;
      fill_columns row (S column) names' contract
  end.

(** The loop over the contracts, from [row] on. *)
Fixpoint fill_rows (row : nat) (contracts : list Data) : Exec Table unit :=
  match contracts with
  | [] => ret tt
  | contract :: contracts' =>
      fill_columns row 0 (map fst headers) contract ;;
      fill_rows (S row) contracts'
  end.

(** [ContractManager.show_contracts], with the text of the filter line
    and the answer of [main_engine.get_all_contracts]. *)
Definition show_contracts (flt : string) (all_contracts : list Data) : Exec Table unit :=
  let* contracts :=
    (if negb (String.eqb flt "") then matching flt all_contracts else ret all_contracts) in
  modify clearContents ;;
  modify (setRowCount (length contracts)) ;;
  fill_rows 0 contracts.

(** A contract object: its vt_symbol is a string and it has every
    attribute of the headers. *)
Definition is_str (value : Py.value) : bool :=
  match value with
  | VStr _ => true
  | _ => false
  end.
Definition is_contract (contract : Data) : Prop :=
  is_str <$> assoc "vt_symbol" contract = Some true
  ∧ Forall (λ name, is_Some (assoc name contract)) (map fst headers).

(** The vt_symbol of a contract object. *)
Definition vt_symbol_of (contract : Data) : string :=
  match assoc "vt_symbol" contract with
  | Some (VStr s) => s
  | _ => ""
  end.

(** The contracts that a filter text selects. *)
Definition selected (flt : string) (all_contracts : list Data) : list Data :=
  filter (λ contract, contains flt (vt_symbol_of contract) = true) all_contracts.

(** *** Sample contracts *)

Definition sample_contract (symbol exchange : string) (pricetick : Z) : Data :=
  [ ("vt_symbol", VStr (symbol +:+ "." +:+ exchange)); ("symbol", VStr symbol);
    ("exchange", VEnum "Exchange" exchange); ("name", VStr symbol);
    ("product", VEnum "Product" "FUTURES"); ("size", VNum 10);
    ("pricetick", VNum pricetick); ("min_volume", VNum 1);
    ("option_portfolio", VStr ""); ("option_expiry", VNone);
    ("option_strike", VNum 0); ("option_type", VNone);
    ("gateway_name", VStr "CTP") ].

Definition sample_contracts : list Data :=
  [ sample_contract "rb2410" "SHFE" 1; sample_contract "IF2409" "CFFEX" 0;
    sample_contract "ag2412" "SHFE" 1 ].

End Contracts.

(** * Properties *)

(** ** Table monitors *)

Module MonitorFacts.
Import Monitor.

(** Unfolding of the monad at a bind. *)
Lemma bind_eq {St A B} (c : Exec St A) (k : A → Exec St B) (s : St) :
  bind c k s = match c s with
               | (Return a, s') => k a s'
               | (Raise e, s') => (Raise e, s')
               end.
Proof. reflexivity. Qed.

Ltac run := rewrite ?bind_eq; cbn [ret raise get modify fst snd].

(** *** Cells *)

Lemma set_content_cls cls content data c r c' :
  set_content cls content data c = (r, c') → cell_cls c' = cell_cls c.
Proof.
  unfold set_content, EnumCell_set_content, TimeCell_set_content, DateCell_set_content.
  destruct cls; run;
    repeat match goal with
           | |- context [if ?b then _ else _] => destruct b
           | |- context [match ?v with VNone => _ | _ => _ end] => destruct v
           end; run; cbn; intros [= <- <-]; reflexivity.
Qed.

Lemma set_content_exn cls content data c e c' :
  set_content cls content data c = (Raise e, c') → ∃ name, e = AttributeError name.
Proof.
  unfold set_content, EnumCell_set_content, TimeCell_set_content, DateCell_set_content.
  destruct cls; run;
    repeat match goal with
           | |- context [if ?b then _ else _] => destruct b
           | |- context [match ?v with VNone => _ | _ => _ end] => destruct v
           end; run; cbn; intros [= <- <-] || intros [=]; eauto.
Qed.

Lemma set_content_undefined cls content data c :
  defines_set_content cls = false →
  set_content cls content data c = (Raise (AttributeError "set_content"), c).
Proof. destruct cls; intros [=]; reflexivity. Qed.

Lemma getattr_run {St} (d : Data) name (s : St) :
  getattr d name s = match assoc name d with
                     | Some v => (Return v, s)
                     | None => (Raise (AttributeError name), s)
                     end.
Proof. unfold getattr. destruct (assoc name d); reflexivity. Qed.

(** *** Growth of the store *)

Lemma grows_refl s : grows s s.
Proof. intros i c Hc. eauto. Qed.

Lemma grows_trans s1 s2 s3 : grows s1 s2 → grows s2 s3 → grows s1 s3.
Proof.
  intros H12 H23 i c Hc.
  destruct (H12 i c Hc) as (c2 & H2 & E2).
  destruct (H23 i c2 H2) as (c3 & H3 & E3).
  exists c3. split; [done | congruence].
Qed.

Lemma grows_same_store s s' : store s' = store s → grows s s'.
Proof. intros E i c Hc. rewrite E. eauto. Qed.

Lemma on_cell_spec id content data s r s' :
  on_cell id (λ cls, set_content cls content data) s = (r, s') →
  grows s s' ∧ rows s' = rows s ∧ cells s' = cells s ∧ sortingEnabled s' = sortingEnabled s
  ∧ length (store s') = length (store s).
Proof.
  unfold on_cell. destruct (store s !! id) as [c|] eqn:Hid.
  - destruct (set_content (cell_cls c) content data c) as [r0 c0] eqn:Hset.
    intros [= <- <-]. unfold with_store. cbn [store rows cells sortingEnabled].
    repeat split; [| by rewrite length_insert].
    intros i c1 Hi. cbn [store]. apply set_content_cls in Hset.
    destruct (decide (i = id)) as [->|Hne].
    + exists c0. split; [| congruence].
      apply list_lookup_insert_eq. by eapply lookup_lt_Some.
    + exists c1. by rewrite list_lookup_insert_ne.
  - intros [= <- <-]. repeat split. apply grows_refl.
Qed.

Lemma update_cells_cons data name id rc s :
  update_cells data ((name, id) :: rc) s =
  match assoc name data with
  | None => (Raise (AttributeError name), s)
  | Some content =>
      match on_cell id (λ cls, set_content cls content data) s with
      | (Return _, s1) => update_cells data rc s1
      | (Raise e, s1) => (Raise e, s1)
      end
  end.
Proof.
  unfold update_cells. cbn [for_each]. rewrite !bind_eq, getattr_run.
  destruct (assoc name data); [| reflexivity].
  destruct (on_cell _ _ s) as [[[]|e] s1]; reflexivity.
Qed.

(** The update loop keeps the table, the key dictionary and every cell
    object's class. *)
Lemma update_cells_spec data rc s r s' :
  update_cells data rc s = (r, s') →
  grows s s' ∧ rows s' = rows s ∧ cells s' = cells s
  ∧ sortingEnabled s' = sortingEnabled s ∧ length (store s') = length (store s).
Proof.
  revert s. induction rc as [|[name id] rc IH]; intros s.
  - intros [= <- <-]. repeat split. apply grows_refl.
  - rewrite update_cells_cons. destruct (assoc name data) as [content|].
    + destruct (on_cell _ _ s) as [[[]|e] s1] eqn:Hon;
        apply on_cell_spec in Hon as (Hg & Hr & Hc & Hs & Hl).
      * intros Hrest. apply IH in Hrest as (Hg' & Hr' & Hc' & Hs' & Hl').
        repeat split; try congruence. by eapply grows_trans.
      * intros [= <- <-]. done.
    + intros [= <- <-]. repeat split. apply grows_refl.
Qed.

(** A row whose updatable cells are all live cell objects, one of them of
    a class without [set_content]: the loop raises AttributeError. *)
Lemma update_cells_raises data rc s :
  Forall (λ e, is_Some (store s !! e.2)) rc →
  Exists (λ e, ∃ c, store s !! e.2 = Some c ∧ defines_set_content (cell_cls c) = false) rc →
  ∃ name s', update_cells data rc s = (Raise (AttributeError name), s').
Proof.
  revert s. induction rc as [|[name id] rc IH]; intros s Hall Hex.
  - inversion Hex.
  - rewrite update_cells_cons. destruct (assoc name data) as [content|]; [| eauto].
    apply Forall_cons in Hall as [[c Hc] Hall]. cbn in Hc.
    destruct (on_cell _ _ s) as [[[]|e] s1] eqn:Hon.
    + pose proof (on_cell_spec _ _ _ _ _ _ Hon) as (Hg & _).
      apply IH.
      * eapply Forall_impl; [exact Hall|]. intros [n i] [c1 Hc1].
        destruct (Hg _ _ Hc1) as (c2 & Hc2 & _). by exists c2.
      * apply Exists_cons in Hex as [(c0 & Hc0 & Hno)|Hex].
        { exfalso. cbn in Hc0. unfold on_cell in Hon. rewrite Hc0 in Hon.
          rewrite (set_content_undefined _ _ _ _ Hno) in Hon. discriminate. }
        eapply Exists_impl; [exact Hex|]. intros [n i] (c1 & Hc1 & Hno).
        destruct (Hg _ _ Hc1) as (c2 & Hc2 & Hcls). exists c2. split; [done|congruence].
    + unfold on_cell in Hon. rewrite Hc in Hon.
      destruct (set_content (cell_cls c) content data c) as [r0 c0] eqn:Hset.
      injection Hon as -> <-. apply set_content_exn in Hset as [n ->]. eauto.
Qed.

(** When the first updatable cell has no [set_content], nothing changes. *)
Lemma update_cells_first data name id rc s c :
  store s !! id = Some c →
  defines_set_content (cell_cls c) = false →
  ∃ e, update_cells data ((name, id) :: rc) s = (Raise (AttributeError e), s).
Proof.
  intros Hc Hno. rewrite update_cells_cons.
  destruct (assoc name data) as [content|]; [| eauto].
  unfold on_cell. rewrite Hc, (set_content_undefined _ _ _ _ Hno).
  exists "set_content". f_equal. destruct s as [st rs cs b]. unfold with_store. cbn in *.
  by rewrite list_insert_id.
Qed.

(** *** Insertion *)

Lemma cell_for_grows s s' h e : grows s s' → cell_for s h e → cell_for s' h e.
Proof.
  intros Hg [Hn (c & Hc & Hcls)]. split; [done|].
  destruct (Hg _ _ Hc) as (c' & Hc' & E). exists c'. split; [done | congruence].
Qed.

Lemma grows_app s s' ext : store s' = store s ++ ext → grows s s'.
Proof.
  intros E i c Hc. exists c. split; [| done].
  rewrite E. by apply lookup_app_l_Some.
Qed.

Lemma fill_row_spec data hs : ∀ column acc s r s',
  fill_row data column hs acc s = (r, s') →
  (∃ ext, store s' = store s ++ ext)
  ∧ cells s' = cells s
  ∧ sortingEnabled s' = sortingEnabled s
  ∧ top_row_items_only (rows s) (rows s')
  ∧ match r with
    | Return rc => ∃ new, rc = acc ++ new ∧ Forall2 (cell_for s') (updatable hs) new
    | Raise e => ∃ name, e = AttributeError name
    end.
Proof.
  induction hs as [|[name setting] hs IH]; intros column acc s r s'.
  - intros [= <- <-]. split; [by exists []; rewrite app_nil_r|].
    repeat split.
    + unfold top_row_items_only. destruct (rows s) as [|[its h] rest]; eauto.
    + exists []. by rewrite app_nil_r.
  - cbn [fill_row]. rewrite bind_eq, getattr_run.
    destruct (assoc name data) as [content|].
    2:{ intros [= <- <-]. split; [by exists []; rewrite app_nil_r|].
        repeat split; [| eauto].
        unfold top_row_items_only. destruct (rows s) as [|[its h] rest]; eauto. }
    rewrite !bind_eq. unfold alloc, setItem0. cbn [ret modify].
    intros Hrec. apply IH in Hrec as ((ext & Hst) & Hc & Hs & Hrows & Hres).
    unfold with_rows, with_store in *. cbn [store rows cells sortingEnabled] in *.
    split; [exists (new_cell (cell setting) content data :: ext); by rewrite Hst, <- app_assoc|].
    repeat split; try done.
    + unfold top_row_items_only in *. destruct (rows s) as [|[its h] rest]; [done|].
      cbn in Hrows. destruct Hrows as [its' ->]. eauto.
    + destruct r as [rc|e]; [| done].
      destruct Hres as (new & -> & Hnew). cbn [updatable snd].
      destruct (update setting).
      * exists ((name, length (store s)) :: new). split; [by rewrite <- app_assoc|].
        constructor; [| done]. split; [done|].
        exists (new_cell (cell setting) content data). split; [| done].
        cbn [snd]. rewrite Hst, <- app_assoc. by apply list_lookup_middle.
      * eauto.
Qed.

Lemma insert_new_row_spec M data s r s' :
  insert_new_row M data s = (r, s') →
  (∃ ext, store s' = store s ++ ext)
  ∧ sortingEnabled s' = sortingEnabled s
  ∧ (∃ its, rows s' = {| items := its; hidden := false |} :: rows s)
  ∧ match r with
    | Return _ =>
        if String.eqb (data_key M) "" then cells s' = cells s
        else ∃ key rc, assoc (data_key M) data = Some key
                       ∧ cells s' = <[key := rc]> (cells s) ∧ row_ok M s' rc
    | Raise e => cells s' = cells s ∧ ∃ name, e = AttributeError name
    end.
Proof.
  unfold insert_new_row, insertRow0. rewrite bind_eq. cbn [modify]. rewrite bind_eq.
  destruct (fill_row _ _ _ _ _) as [[rc|e] s1] eqn:Hfill;
    apply fill_row_spec in Hfill as (Hst & Hc & Hs & Hrows & Hres);
    unfold with_rows in *; cbn [store rows cells sortingEnabled top_row_items_only hidden] in *.
  - destruct Hres as (new & Hrc & Hnew). cbn in Hrc. subst new.
    destruct (String.eqb (data_key M) "") eqn:Hkey.
    + intros [= <- <-]. done.
    + rewrite bind_eq, getattr_run. destruct (assoc (data_key M) data) as [key|].
      * intros [= <- <-]. unfold with_cells. cbn [store rows cells sortingEnabled].
        repeat split; try done. exists key, rc. by rewrite Hc.
      * intros [= <- <-]. repeat split; eauto.
  - intros [= <- <-]. done.
Qed.

(** *** Dispatch in [process_event] *)

Lemma same_table_sort_off M s : same_table s (sort_off M s).
Proof. unfold sort_off. by destruct (sorting M). Qed.

Lemma same_table_sort_on M s : same_table s (sort_on M s).
Proof. unfold sort_on. by destruct (sorting M). Qed.

Lemma process_event_frame M s (body : Exec State unit) :
  ((if sorting M then setSortingEnabled false else ret tt) ;;
   body ;;
   (if sorting M then setSortingEnabled true else ret tt)) s =
  match body (sort_off M s) with
  | (Return _, s1) => (Return tt, sort_on M s1)
  | (Raise e, s1) => (Raise e, s1)
  end.
Proof.
  rewrite bind_eq. unfold sort_off, sort_on, setSortingEnabled.
  destruct (sorting M); cbn [modify ret]; rewrite bind_eq;
    fold (set_sorting false s); destruct (body _) as [[[]|e] s1]; reflexivity.
Qed.

Lemma process_event_seen M data s key rc :
  String.eqb (data_key M) "" = false →
  assoc (data_key M) data = Some key →
  cells s !! key = Some rc →
  process_event M data s =
  match update_cells data rc (sort_off M s) with
  | (Return _, s1) => (Return tt, sort_on M s1)
  | (Raise e, s1) => (Raise e, s1)
  end.
Proof.
  intros Hk Hkey Hrc. unfold process_event. rewrite process_event_frame, Hk.
  destruct (same_table_sort_off M s) as (_ & _ & Hc).
  rewrite bind_eq, getattr_run, Hkey, bind_eq. cbn [get]. rewrite Hc, Hrc.
  unfold update_old_row. rewrite bind_eq, getattr_run, Hkey, bind_eq. cbn [get].
  by rewrite Hc, Hrc.
Qed.

Lemma process_event_new M data s key :
  String.eqb (data_key M) "" = false →
  assoc (data_key M) data = Some key →
  cells s !! key = None →
  process_event M data s =
  match insert_new_row M data (sort_off M s) with
  | (Return _, s1) => (Return tt, sort_on M s1)
  | (Raise e, s1) => (Raise e, s1)
  end.
Proof.
  intros Hk Hkey Hrc. unfold process_event. rewrite process_event_frame, Hk.
  destruct (same_table_sort_off M s) as (_ & _ & Hc).
  rewrite bind_eq, getattr_run, Hkey, bind_eq. cbn [get]. by rewrite Hc, Hrc.
Qed.

Lemma process_event_no_key_attr M data s :
  String.eqb (data_key M) "" = false →
  assoc (data_key M) data = None →
  process_event M data s = (Raise (AttributeError (data_key M)), sort_off M s).
Proof.
  intros Hk Hkey. unfold process_event. rewrite process_event_frame, Hk.
  by rewrite !bind_eq, getattr_run, Hkey.
Qed.

Lemma process_event_unkeyed M data s :
  String.eqb (data_key M) "" = true →
  process_event M data s =
  match insert_new_row M data (sort_off M s) with
  | (Return _, s1) => (Return tt, sort_on M s1)
  | (Raise e, s1) => (Raise e, s1)
  end.
Proof.
  intros Hk. unfold process_event. by rewrite process_event_frame, Hk.
Qed.

(** *** The invariant of the key dictionary *)

Lemma wf_init M : wf M init.
Proof. intros key rc. cbn. by rewrite lookup_empty. Qed.

Lemma wf_grows M s s' : wf M s → grows s s' → cells s' = cells s → wf M s'.
Proof.
  intros Hwf Hg Hc key rc Hrc. rewrite Hc in Hrc.
  eapply Forall2_impl; [exact (Hwf key rc Hrc)|]. intros h e. by apply cell_for_grows.
Qed.

Lemma wf_insert M s s' key rc :
  wf M s → grows s s' → cells s' = <[key := rc]> (cells s) → row_ok M s' rc → wf M s'.
Proof.
  intros Hwf Hg Hc Hok key' rc' Hrc'. rewrite Hc in Hrc'.
  destruct (decide (key = key')) as [<-|Hne].
  - rewrite lookup_insert_eq in Hrc'. by injection Hrc' as <-.
  - rewrite lookup_insert_ne in Hrc' by done.
    eapply Forall2_impl; [exact (Hwf key' rc' Hrc')|]. intros h e. by apply cell_for_grows.
Qed.

Lemma wf_set_sorting M b s : wf M s → wf M (set_sorting b s).
Proof. intros Hwf. exact Hwf. Qed.

Lemma wf_sort_off M s : wf M s → wf M (sort_off M s).
Proof. unfold sort_off. by destruct (sorting M). Qed.

Lemma wf_sort_on M s : wf M s → wf M (sort_on M s).
Proof. unfold sort_on. by destruct (sorting M). Qed.

Lemma insert_new_row_wf M data s r s' :
  wf M s → insert_new_row M data s = (r, s') → wf M s'.
Proof.
  intros Hwf Hins. apply insert_new_row_spec in Hins as ((ext & Hst) & _ & _ & Hres).
  pose proof (grows_app _ _ _ Hst) as Hg.
  destruct r as [[]|e].
  - destruct (String.eqb (data_key M) "").
    + by eapply wf_grows.
    + destruct Hres as (key & rc & _ & Hc & Hok). by eapply wf_insert.
  - destruct Hres as [Hc _]. by eapply wf_grows.
Qed.

Lemma process_event_wf M data s : wf M s → wf M (after_event M s data).
Proof.
  intros Hwf. unfold after_event.
  destruct (String.eqb (data_key M) "") eqn:Hk.
  - rewrite process_event_unkeyed by done.
    destruct (insert_new_row _ _ _) as [[[]|e] s1] eqn:Hins; cbn [snd];
      [apply wf_sort_on|]; (eapply insert_new_row_wf; [| exact Hins]; by apply wf_sort_off).
  - destruct (assoc (data_key M) data) as [key|] eqn:Hkey.
    2:{ rewrite process_event_no_key_attr by done. by apply wf_sort_off. }
    destruct (cells s !! key) as [rc|] eqn:Hrc.
    + rewrite (process_event_seen _ _ _ _ _ Hk Hkey Hrc).
      destruct (update_cells _ _ _) as [[[]|e] s1] eqn:Hup; cbn [snd];
        apply update_cells_spec in Hup as (Hg & _ & Hc & _);
        [apply wf_sort_on|]; (eapply wf_grows; [| exact Hg | exact Hc]; by apply wf_sort_off).
    + rewrite (process_event_new _ _ _ _ Hk Hkey Hrc).
      destruct (insert_new_row _ _ _) as [[[]|e] s1] eqn:Hins; cbn [snd];
        [apply wf_sort_on|]; (eapply insert_new_row_wf; [| exact Hins]; by apply wf_sort_off).
Qed.

Lemma after_events_wf M evs : ∀ s, wf M s → wf M (after_events M s evs).
Proof.
  induction evs as [|d evs IH]; intros s Hwf; [done|].
  cbn. apply IH. by apply process_event_wf.
Qed.

(** *** Events for a key that is already listed *)

(** When the first updatable column has a cell class without
    [set_content], an event for a listed key raises at that cell and
    leaves the table as it was. *)
Lemma seen_key_no_change M s data key rc h hs :
  wf M s →
  updatable (headers M) = h :: hs →
  defines_set_content (cell h.2) = false →
  String.eqb (data_key M) "" = false →
  assoc (data_key M) data = Some key →
  cells s !! key = Some rc →
  ∃ name, process_event M data s = (Raise (AttributeError name), sort_off M s).
Proof.
  intros Hwf Hup Hno Hk Hkey Hrc.
  rewrite (process_event_seen _ _ _ _ _ Hk Hkey Hrc).
  pose proof (wf_sort_off _ _ Hwf) as Hwf0.
  destruct (same_table_sort_off M s) as (_ & _ & Hc).
  assert (Hrc0 : cells (sort_off M s) !! key = Some rc) by by rewrite Hc.
  specialize (Hwf0 _ _ Hrc0). unfold row_ok in Hwf0. rewrite Hup in Hwf0.
  inversion Hwf0 as [|h0 [name id] hs0 rc' [_ (c & Hcell & Hcls)] Hrest]; subst.
  cbn [snd] in Hcell. rewrite <- Hcls in Hno.
  destruct (update_cells_first data name id rc' _ c Hcell Hno) as [e ->]. eauto.
Qed.

(** An event for a listed key, when some updatable column has a cell
    class without [set_content]: AttributeError, inside the update loop. *)
Lemma seen_key_raises M s data key rc :
  wf M s →
  Exists (λ h, update h.2 = true ∧ defines_set_content (cell h.2) = false) (headers M) →
  String.eqb (data_key M) "" = false →
  assoc (data_key M) data = Some key →
  cells s !! key = Some rc →
  ∃ name s', update_old_row M data (sort_off M s) = (Raise (AttributeError name), s')
             ∧ process_event M data s = (Raise (AttributeError name), s').
Proof.
  intros Hwf Hex Hk Hkey Hrc.
  rewrite (process_event_seen _ _ _ _ _ Hk Hkey Hrc).
  pose proof (wf_sort_off _ _ Hwf) as Hwf0.
  destruct (same_table_sort_off M s) as (_ & _ & Hc).
  assert (Hrc0 : cells (sort_off M s) !! key = Some rc) by by rewrite Hc.
  unfold update_old_row. rewrite bind_eq, getattr_run, Hkey, bind_eq. cbn [get].
  rewrite Hrc0. specialize (Hwf0 _ _ Hrc0). unfold row_ok in Hwf0.
  destruct (update_cells_raises data rc (sort_off M s)) as (name & s' & ->); [| | eauto].
  - clear -Hwf0. induction Hwf0 as [|h e hs' rc' [_ (c & Hcell & _)] _ IH]; constructor; eauto.
  - clear -Hwf0 Hex. revert rc Hwf0.
    induction (headers M) as [|h hs IH]; intros rc Hwf0; [inversion Hex|].
    cbn [updatable] in Hwf0. apply Exists_cons in Hex as [[Hu Hno]|Hex].
    + rewrite Hu in Hwf0.
      inversion Hwf0 as [|h0 e hs0 rc' [_ (c & Hcell & Hcls)] Hrest]; subst.
      left. exists c. split; [done | congruence].
    + destruct (update h.2); [| by apply IH].
      inversion Hwf0 as [|h0 e hs0 rc' _ Hrest]; subst. right. by apply IH.
Qed.

(** *** The traded volume shown for an order *)

Lemma OrderMonitor_event_stable s o key v :
  wf OrderMonitor s →
  shown_traded s key = Some v →
  shown_traded (after_event OrderMonitor s (order_obj o)) key = Some v.
Proof.
  intros Hwf Hshown. unfold after_event.
  assert (Hkey : assoc (data_key OrderMonitor) (order_obj o) = Some (VStr (vt_orderid o)))
    by reflexivity.
  destruct (cells s !! VStr (vt_orderid o)) as [rc|] eqn:Hrc.
  - destruct (seen_key_no_change OrderMonitor s (order_obj o) _ rc _ _ Hwf eq_refl eq_refl eq_refl Hkey Hrc)
      as [name ->].
    exact Hshown.
  - rewrite (process_event_new OrderMonitor _ _ _ eq_refl Hkey Hrc).
    destruct (insert_new_row _ _ _) as [[[]|e] s1] eqn:Hins; cbn [snd];
      apply insert_new_row_spec in Hins as ((ext & Hst) & _ & _ & Hres);
      cbn [sort_off sort_on OrderMonitor sorting set_sorting store cells] in *.
    + cbn in Hres. destruct Hres as (key' & rc' & [= <-] & Hc & _).
      unfold shown_traded, set_sorting in *. cbn [cells store]. rewrite Hc.
      destruct (decide (key = vt_orderid o)) as [->|Hne].
      { by rewrite Hrc in Hshown. }
      rewrite lookup_insert_ne by congruence.
      destruct (cells s !! VStr key) as [rc0|]; [|done]. cbn in *.
      destruct (assoc "traded" rc0) as [id|]; [|done]. cbn in *.
      destruct (store s !! id) as [c|] eqn:Hid; [|done]. cbn in *.
      rewrite Hst. by rewrite (lookup_app_l_Some _ _ _ _ Hid).
    + destruct Hres as [Hc _]. unfold shown_traded in *. rewrite Hc.
      destruct (cells s !! VStr key) as [rc0|]; [|done]. cbn in *.
      destruct (assoc "traded" rc0) as [id|]; [|done]. cbn in *.
      destruct (store s !! id) as [c|] eqn:Hid; [|done]. cbn in *.
      rewrite Hst. by rewrite (lookup_app_l_Some _ _ _ _ Hid).
Qed.

Lemma OrderMonitor_events_stable os : ∀ s key v,
  wf OrderMonitor s →
  shown_traded s key = Some v →
  shown_traded (after_events OrderMonitor s (order_events os)) key = Some v.
Proof.
  induction os as [|o os IH]; intros s key v Hwf Hshown; [done|].
  cbn. apply IH; [by apply process_event_wf | by apply OrderMonitor_event_stable].
Qed.

(** *** The claims on monitors *)

(** C1: once an order is listed with traded volume [t], an order event for
    the same key with a smaller traded volume leaves the listed traded
    volume at [t]; and over any further sequence of order events the
    traded volume listed for a key never decreases. *)
Theorem C1_traded_volume_never_regresses (os : list OrderData) (o : OrderData) (t : Z) :
  shown_traded (after_events OrderMonitor init (order_events os)) (vt_orderid o) = Some (VNum t) →
  traded o < t →
  shown_traded (after_events OrderMonitor init (order_events (os ++ [o]))) (vt_orderid o)
    = Some (VNum t)
  ∧ ∀ (key : string) (t1 t2 : Z) (more : list OrderData),
      shown_traded (after_events OrderMonitor init (order_events os)) key = Some (VNum t1) →
      shown_traded (after_events OrderMonitor init (order_events (os ++ more))) key = Some (VNum t2) →
      t1 ≤ t2.
Proof.
  intros Hshown _.
  assert (Hwf : wf OrderMonitor (after_events OrderMonitor init (order_events os)))
    by apply after_events_wf, wf_init.
  assert (Hstable : ∀ key v more,
    shown_traded (after_events OrderMonitor init (order_events os)) key = Some v →
    shown_traded (after_events OrderMonitor init (order_events (os ++ more))) key = Some v).
  { intros key v more Hv. unfold order_events, after_events in *.
    rewrite map_app, foldl_app. by apply OrderMonitor_events_stable. }
  split.
  - by apply Hstable.
  - intros key t1 t2 more H1 H2. rewrite (Hstable _ _ more H1) in H2.
    injection H2 as <-. lia.
Qed.

Lemma C1_traded_volume_never_regresses_witness :
  shown_traded (after_events OrderMonitor init (order_events [order_5_of_10]))
    (vt_orderid (order_with order_5_of_10 3 PARTTRADED)) = Some (VNum 5)
  ∧ shown_traded
      (after_events OrderMonitor init
         (order_events ([order_5_of_10] ++ [order_with order_5_of_10 3 PARTTRADED])))
      (vt_orderid (order_with order_5_of_10 3 PARTTRADED)) = Some (VNum 5).
Proof.
  split; [vm_compute; reflexivity|].
  apply (C1_traded_volume_never_regresses [order_5_of_10] (order_with order_5_of_10 3 PARTTRADED) 5);
    [vm_compute; reflexivity | reflexivity].
Defined.

(** C8: in a keyed monitor with an updatable column whose cell class is
    BaseCell, BidCell or AskCell, an event whose key is already listed
    raises AttributeError inside [update_old_row]; in the tick monitor the
    table and its cells are left as they were. *)
Theorem C8_listed_key_update_raises (M : MonitorClass) (evs : list Data)
    (data : Data) (key : value) :
  data_key M ≠ "" →
  Exists (λ h, update h.2 = true ∧ cell h.2 ∈ [BaseCell; BidCell; AskCell]) (headers M) →
  assoc (data_key M) data = Some key →
  is_Some (cells (after_events M init evs) !! key) →
  ∃ name s',
    update_old_row M data (sort_off M (after_events M init evs))
      = (Raise (AttributeError name), s')
    ∧ process_event M data (after_events M init evs) = (Raise (AttributeError name), s')
    ∧ (M = TickMonitor → same_table (after_events M init evs) s').
Proof.
  intros Hk Hex Hkey [rc Hrc].
  apply String.eqb_neq in Hk.
  assert (Hwf : wf M (after_events M init evs)) by apply after_events_wf, wf_init.
  destruct (seen_key_raises M _ data key rc Hwf) as (name & s' & Hup & Hpe); try done.
  { eapply Exists_impl; [exact Hex|]. intros h [Hu Hcls]. split; [done|].
    repeat (apply elem_of_cons in Hcls as [->|Hcls]; [reflexivity|]).
    by apply elem_of_nil in Hcls. }
  exists name, s'. split; [done|]. split; [done|].
  intros ->.
  destruct (seen_key_no_change TickMonitor _ data key rc _ _ Hwf eq_refl eq_refl eq_refl Hkey Hrc)
    as [name' Hpe'].
  rewrite Hpe in Hpe'. injection Hpe' as _ ->. apply same_table_sort_off.
Qed.

Lemma C8_listed_key_update_raises_witness :
  is_Some (cells (after_events TickMonitor init [tick_at 100]) !! VStr "AAPL.NASDAQ")
  ∧ ∃ name s',
      update_old_row TickMonitor (tick_at 101)
        (sort_off TickMonitor (after_events TickMonitor init [tick_at 100]))
        = (Raise (AttributeError name), s')
      ∧ process_event TickMonitor (tick_at 101) (after_events TickMonitor init [tick_at 100])
        = (Raise (AttributeError name), s')
      ∧ (TickMonitor = TickMonitor → same_table (after_events TickMonitor init [tick_at 100]) s').
Proof.
  assert (Hlisted : is_Some (cells (after_events TickMonitor init [tick_at 100]) !! VStr "AAPL.NASDAQ"))
    by (vm_compute; eauto).
  split; [exact Hlisted|].
  apply (C8_listed_key_update_raises TickMonitor [tick_at 100] (tick_at 101) (VStr "AAPL.NASDAQ")).
  - discriminate.
  - do 2 apply Exists_cons_tl. apply Exists_cons_hd. split; [reflexivity|]. apply elem_of_cons. by left.
  - reflexivity.
  - exact Hlisted.
Defined.

(** C2, on a listed key: the second event for an order raises at the
    "traded" cell; the row count stays at one, and the row still shows the
    traded volume and status of the first event. *)
Theorem C2_listed_order_row_not_updated :
  let first := order_with order_5_of_10 0 NOTTRADED in
  let s1 := after_event OrderMonitor init (order_obj first) in
  let s2 := after_event OrderMonitor s1 (order_obj order_5_of_10) in
  process_event OrderMonitor (order_obj order_5_of_10) s1
    = (Raise (AttributeError "set_content"), sort_off OrderMonitor s1)
  ∧ length (rows s2) = 1%nat
  ∧ map (λ r, (item_text s2 r 8, item_text s2 r 9)) (rows s2) = [("0", "Status.NOTTRADED")].
Proof. vm_compute. done. Qed.

(** An event with an unlisted key puts exactly one new, visible row on top
    of the table. *)
Lemma unlisted_key_inserts_top_row M s data key :
  data_key M ≠ "" →
  assoc (data_key M) data = Some key →
  cells s !! key = None →
  ∃ its, rows (after_event M s data) = {| items := its; hidden := false |} :: rows s.
Proof.
  intros Hk Hkey Hrc. apply String.eqb_neq in Hk. unfold after_event.
  rewrite (process_event_new _ _ _ _ Hk Hkey Hrc).
  destruct (same_table_sort_off M s) as (_ & Hr & _).
  destruct (insert_new_row _ _ _) as [[[]|e] s1] eqn:Hins; cbn [snd];
    apply insert_new_row_spec in Hins as (_ & _ & [its Hrows] & _);
    exists its; rewrite <- Hr, <- Hrows; [|done].
  unfold sort_on. by destruct (sorting M).
Qed.

(** C3, on a rejected order: the active-order monitor inserts the row and
    then fails on [row_cells["volume"]], a column that is not updatable;
    the row of the inactive order stays visible. *)
Theorem C3_rejected_order_row_stays_visible :
  let o := order_with order_5_of_10 0 REJECTED in
  is_active o = false
  ∧ fst (ActiveOrderMonitor_process_event o init) = Raise (KeyError "volume")
  ∧ map hidden (rows (active_after_event init o)) = [false].
Proof. vm_compute. done. Qed.

(** The active-order monitor never reaches [showRow] or [hideRow]: after
    any sequence of order events every row is visible. *)
Lemma active_monitor_never_hides os :
  Forall (λ r, hidden r = false) (rows (foldl active_after_event init os)).
Proof.
  assert (Hgen : ∀ s, wf OrderMonitor s → Forall (λ r, hidden r = false) (rows s) →
    wf OrderMonitor (foldl active_after_event s os)
    ∧ Forall (λ r, hidden r = false) (rows (foldl active_after_event s os))).
  2:{ apply Hgen; [apply wf_init | constructor]. }
  induction os as [|o os IH]; intros s Hwf Hvis; [done|].
  cbn [foldl]. apply IH; clear IH.
  - unfold active_after_event, ActiveOrderMonitor_process_event. rewrite bind_eq.
    pose proof (process_event_wf OrderMonitor (order_obj o) s Hwf) as Hwf'.
    unfold after_event in Hwf'.
    destruct (process_event OrderMonitor (order_obj o) s) as [[[]|e] s1]; cbn [snd] in *; [|done].
    rewrite bind_eq. cbn [get].
    destruct (cells s1 !! VStr (vt_orderid o)) as [rc|] eqn:Hrc; [|done].
    pose proof (Hwf' _ _ Hrc) as Hrow. unfold row_ok in Hrow. cbn in Hrow.
    repeat (inversion Hrow as [|?h [?n ?i] ?hs ?rc' [?Hn _] Hrest]; clear Hrow; subst;
            rename Hrest into Hrow; cbn in *).
    inversion Hrow; subst. by cbn.
  - unfold active_after_event, ActiveOrderMonitor_process_event. rewrite bind_eq.
    assert (Hrows : Forall (λ r, hidden r = false) (rows (after_event OrderMonitor s (order_obj o)))).
    { unfold after_event.
      destruct (cells s !! VStr (vt_orderid o)) as [rc|] eqn:Hrc.
      - destruct (seen_key_no_change OrderMonitor s (order_obj o) _ rc _ _ Hwf
                    eq_refl eq_refl eq_refl eq_refl Hrc) as [name ->].
        exact Hvis.
      - destruct (unlisted_key_inserts_top_row OrderMonitor s (order_obj o) _
                    ltac:(discriminate) eq_refl Hrc) as [its Hr].
        unfold after_event in Hr. rewrite Hr. by constructor. }
    pose proof (process_event_wf OrderMonitor (order_obj o) s Hwf) as Hwf'.
    unfold after_event in Hwf', Hrows.
    destruct (process_event OrderMonitor (order_obj o) s) as [[[]|e] s1]; cbn [snd] in *; [|done].
    rewrite bind_eq. cbn [get].
    destruct (cells s1 !! VStr (vt_orderid o)) as [rc|] eqn:Hrc; [|done].
    pose proof (Hwf' _ _ Hrc) as Hrow. unfold row_ok in Hrow. cbn in Hrow.
    repeat (inversion Hrow as [|?h [?n ?i] ?hs ?rc' [?Hn _] Hrest]; clear Hrow; subst;
            rename Hrest into Hrow; cbn in *).
    inversion Hrow; subst. by cbn.
Qed.

(** *** Export *)

Lemma row_data_seq s r : ∀ ncols column,
  row_data s r column ncols = map (item_text s r) (seq column ncols).
Proof.
  induction ncols as [|n IH]; intros column; [done|].
  cbn. by rewrite IH.
Qed.

Lemma write_rows_filter s ncols rs : ∀ out,
  write_rows s ncols rs out =
  out ++ map (λ r, map (item_text s r) (seq 0 ncols)) (filter (λ r, hidden r = false) rs).
Proof.
  induction rs as [|r rs IH]; intros out; cbn [write_rows].
  - by rewrite app_nil_r.
  - destruct (hidden r) eqn:Hh.
    + rewrite filter_cons_False by congruence. apply IH.
    + rewrite filter_cons_True by done. rewrite IH, row_data_seq, <- app_assoc. done.
Qed.

(** C9: with a path chosen, [save_csv] writes one row of display labels
    and then, in table order, the texts of each row that is not hidden;
    hidden rows are left out. *)
Theorem C9_save_csv_writes_visible_rows (M : MonitorClass) (path : string) (s : State)
    (fs : gmap string (list (list string))) :
  path ≠ "" →
  save_csv M path s fs !! path =
  Some (map (λ h, display h.2) (headers M)
        :: map (λ r, map (item_text s r) (seq 0 (length (headers M))))
               (filter (λ r, hidden r = false) (rows s))).
Proof.
  intros Hpath. apply String.eqb_neq in Hpath. unfold save_csv. rewrite Hpath.
  by rewrite lookup_insert_eq, write_rows_filter.
Qed.

(** A dismissed file dialog writes nothing. *)
Lemma save_csv_no_path M s fs : save_csv M "" s fs = fs.
Proof. reflexivity. Qed.

Lemma C9_save_csv_writes_visible_rows_witness :
  map hidden (rows two_orders_filtered) = [true; false]
  ∧ save_csv OrderMonitor "orders.csv" two_orders_filtered ∅ !! "orders.csv" =
    Some (map (λ h, display h.2) (headers OrderMonitor)
          :: map (λ r, map (item_text two_orders_filtered r) (seq 0 (length (headers OrderMonitor))))
                 (filter (λ r, hidden r = false) (rows two_orders_filtered))).
Proof.
  split; [vm_compute; reflexivity|].
  apply (C9_save_csv_writes_visible_rows OrderMonitor "orders.csv" two_orders_filtered ∅).
  discriminate.
Defined.

End MonitorFacts.

(** ** The connection dialog *)

Module ConnectFacts.
Import Connect.
Import MonitorFacts.

(** With any widget in the form, the loop of [connect] raises at the first
    one and changes nothing: TypeError from calling a [str], or
    AttributeError from [text()] on a combo box. *)
Lemma connect_loop_raises name w field_type ws setting s :
  connect_loop ((name, (w, field_type)) :: ws) setting s =
  (Raise (match w with
          | QComboBox _ _ => AttributeError "text"
          | _ => TypeError "'str' object is not callable"
          end), s).
Proof. destruct w; reflexivity. Qed.

Lemma connect_with_widgets gateway_name s :
  widgets s ≠ [] →
  ∃ e, connect gateway_name s = (Raise e, s).
Proof.
  intros Hw. unfold connect. rewrite bind_eq. cbn [get]. rewrite bind_eq.
  destruct (widgets s) as [|[name [w ft]] ws]; [done|].
  rewrite connect_loop_raises. eauto.
Qed.

(** Only a form without widgets gets as far as saving: the empty record. *)
Lemma connect_without_widgets gateway_name s :
  widgets s = [] →
  connect gateway_name s =
  (Return tt, {| widgets := []; files := <[filename gateway_name := []]> (files s);
                 connect_calls := connect_calls s ++ [([], gateway_name)];
                 accepted := true |}).
Proof.
  intros Hw. unfold connect. rewrite bind_eq. cbn [get]. rewrite bind_eq, Hw.
  cbn. by rewrite Hw.
Qed.

(** The constructor never gets to the form: [init_ui] raises NameError
    at [get_icon_path], with no widget made and no file read. *)
Lemma open_dialog_raises gateway_name default_setting fs :
  open_dialog gateway_name default_setting fs
  = (Raise (NameError "get_icon_path"),
     {| widgets := []; files := fs; connect_calls := []; accepted := false |}).
Proof.
  unfold open_dialog, init_ui. rewrite bind_eq. unfold Monitor.global_name.
  rewrite bool_decide_eq_false_2; [done|].
  apply (bool_decide_unpack _). vm_compute. exact I.
Qed.

(** C4: the dialog cannot be opened, its constructor raises NameError
    with no widget made; and on a dialog prepared with the entries that
    the loop of [init_ui] stores, confirming raises TypeError at the first
    field: no settings file is written and the registry's connect
    operation is not called. *)
Theorem C4_connect_saves_nothing :
  open_dialog "CTP" ctp_default_setting ∅
  = (Raise (NameError "get_icon_path"),
     {| widgets := []; files := ∅; connect_calls := []; accepted := false |})
  ∧ map fst (widgets ctp_dialog_filled) = ["用户名"; "密码"; "服务器"]
  ∧ connect "CTP" ctp_dialog_filled
    = (Raise (TypeError "'str' object is not callable"), ctp_dialog_filled)
  ∧ files (connect "CTP" ctp_dialog_filled).2 !! "connect_ctp.json" = None
  ∧ connect_calls (connect "CTP" ctp_dialog_filled).2 = [].
Proof. split; [apply open_dialog_raises|]. vm_compute. done. Qed.

Lemma dict_set_fresh {A} name (w : A) d :
  name ∉ map fst d → dict_set name w d = d ++ [(name, w)].
Proof.
  induction d as [|[n e] d IH]; intros Hfresh; [done|].
  cbn in *. apply not_elem_of_cons in Hfresh as [Hne Hfresh].
  destruct (String.eqb n name) eqn:Heq; [by apply String.eqb_eq in Heq|].
  by rewrite IH.
Qed.

Lemma assoc_lookup {A} name (w : A) d :
  NoDup (map fst d) → (name, w) ∈ d → assoc name d = Some w.
Proof.
  induction d as [|[n e] d IH]; intros Hnd Hin; [by apply elem_of_nil in Hin|].
  cbn in *. apply NoDup_cons in Hnd as [Hfresh Hnd].
  apply elem_of_cons in Hin as [[= <- <-]|Hin].
  - by rewrite String.eqb_refl.
  - destruct (String.eqb n name) eqn:Heq; [|by apply IH].
    apply String.eqb_eq in Heq as ->. destruct Hfresh.
    apply list_elem_of_fmap. by exists (name, w).
Qed.

(** X12: the connection dialog cannot be constructed: for every gateway,
    every [default_setting] and every content of the settings files,
    [init_ui] raises NameError at [get_icon_path] before the settings
    file is read or any field is looked at.  The dialog is left without
    widgets, nothing is written, and [connect] is not called; a second
    attempt does the same. *)
Theorem X12_connect_dialog_is_never_constructed (gateway_name : string)
    (default_setting : list (string * default_value)) (fs : gmap string record) :
  let r := open_dialog gateway_name default_setting fs in
  r.1 = Raise (NameError "get_icon_path")
  ∧ widgets r.2 = []
  ∧ files r.2 = fs
  ∧ connect_calls r.2 = []
  ∧ accepted r.2 = false
  ∧ open_dialog gateway_name default_setting (files r.2) = r.
Proof. intros r. subst r. by rewrite !open_dialog_raises. Qed.

(** X13: on any dialog object whose [widgets] is not empty, [connect]
    raises at the first entry, TypeError from calling the accessor name
    (a [str]) for a line edit or a check box, AttributeError from
    [text()] for a combo box, and leaves everything as it was: no
    settings file is written, the registry's connect operation is not
    called, the dialog is not accepted. *)
Theorem X13_connect_never_persists (gateway_name : string) (s : State) :
  widgets s ≠ [] →
  ∃ e, connect gateway_name s = (Raise e, s)
       ∧ (e = TypeError "'str' object is not callable" ∨ e = AttributeError "text").
Proof.
  intros Hw. unfold connect. rewrite bind_eq. cbn [get]. rewrite bind_eq.
  destruct (widgets s) as [|[name [w ft]] ws]; [done|].
  rewrite connect_loop_raises. destruct w; eauto.
Qed.

Lemma X13_connect_never_persists_witness :
  ∃ e, connect "IB" {| widgets := [("服务器", (QComboBox ["主站"; "备用"] 1, "currentText"))];
                       files := ∅; connect_calls := []; accepted := false |}
       = (Raise e, {| widgets := [("服务器", (QComboBox ["主站"; "备用"] 1, "currentText"))];
                      files := ∅; connect_calls := []; accepted := false |})
       ∧ (e = TypeError "'str' object is not callable" ∨ e = AttributeError "text").
Proof.
  apply (X13_connect_never_persists "IB"
           {| widgets := [("服务器", (QComboBox ["主站"; "备用"] 1, "currentText"))];
              files := ∅; connect_calls := []; accepted := false |}).
  discriminate.
Defined.

End ConnectFacts.

(** ** The manual trading widget *)

Module TradingFacts.
Import Trading PyFloat.
Import MonitorFacts.

(** C5 as stated fails: with a symbol and the volume text ".", which the
    field's validator lets through as an unfinished number, both fields
    are non-empty, [float] raises ValueError, and no order request is
    forwarded. *)
Lemma C5_counterexample :
  symbol_line (sample_inputs "." "") ≠ ""
  ∧ volume_line (sample_inputs "." "") ≠ ""
  ∧ send_order sample_enums (sample_inputs "." "") no_orders = (Raise (ValueError "."), no_orders)
  ∧ sent_orders (effects (send_order sample_enums (sample_inputs "." "") no_orders).2) = [].
Proof. repeat split; try discriminate; vm_compute; done. Qed.

Lemma float_run text f (w : World) : float_of text = Some f → float text w = (Return f, w).
Proof. intros H. unfold float. by rewrite H. Qed.

Lemma enum_of_run values text (w : World) :
  text ∈ values → enum_of values text w = (Return text, w).
Proof. intros H. unfold enum_of. by rewrite bool_decide_eq_true_2. Qed.

(** C5, amended: with an empty symbol or an empty volume field the action
    shows an error box and forwards nothing; with both non-empty, a volume
    text that reads as a number, a price text that is blank (price 0) or
    reads as a number, and combo texts that are values of their
    enumerations, exactly one order request with the entered fields is
    forwarded, to the selected gateway name; otherwise, for volume and
    price texts in ASCII, [float] or an enumeration constructor raises
    ValueError and nothing is forwarded. *)
Theorem C5_send_order_validated (E : Enums) (i : Inputs) (w : World) :
  (symbol_line i = "" ∨ volume_line i = "" →
   ∃ title text,
     send_order E i w
     = (Return tt, {| oms_orders := oms_orders w;
                      effects := effects w ++ [MessageBox_critical title text] |}))
  ∧ (∀ volume price,
       symbol_line i ≠ "" →
       volume_line i ≠ "" →
       float_of (volume_line i) = Some volume →
       (if String.eqb (price_line i) "" then price = zero
        else float_of (price_line i) = Some price) →
       exchange_combo i ∈ Exchange_values E →
       direction_combo i ∈ Direction_values E →
       order_type_combo i ∈ OrderType_values E →
       offset_combo i ∈ Offset_values E →
       send_order E i w
       = (Return tt,
          {| oms_orders := oms_orders w;
             effects := effects w ++
               [Send_order
                  {| req_symbol := symbol_line i; req_exchange := exchange_combo i;
                     req_direction := direction_combo i; req_type := order_type_combo i;
                     req_volume := volume; req_price := price;
                     req_offset := offset_combo i; req_reference := "ManualTrading" |}
                  (gateway_combo i)] |}))
  ∧ (symbol_line i ≠ "" →
     volume_line i ≠ "" →
     is_ascii (volume_line i) = true →
     is_ascii (price_line i) = true →
     ¬ (is_Some (float_of (volume_line i))
        ∧ (price_line i = "" ∨ is_Some (float_of (price_line i)))
        ∧ exchange_combo i ∈ Exchange_values E
        ∧ direction_combo i ∈ Direction_values E
        ∧ order_type_combo i ∈ OrderType_values E
        ∧ offset_combo i ∈ Offset_values E) →
     ∃ what, send_order E i w = (Raise (ValueError what), w)).
Proof.
  split; [|split].
  - intros Hempty. unfold send_order.
    destruct (String.eqb (symbol_line i) "") eqn:Hs; [eauto|].
    destruct (String.eqb (volume_line i) "") eqn:Hv; [eauto|].
    apply String.eqb_neq in Hs, Hv. by destruct Hempty.
  - intros volume price Hs Hv Hvol Hprice Hex Hdir Hty Hoff. unfold send_order.
    apply String.eqb_neq in Hs, Hv. rewrite Hs, Hv.
    rewrite bind_eq, (float_run _ _ _ Hvol), bind_eq.
    assert (Hp : (if String.eqb (price_line i) "" then ret zero else float (price_line i)) w
                 = (Return price, w)).
    { destruct (String.eqb (price_line i) ""); [by subst | by apply float_run]. }
    rewrite Hp, bind_eq, (enum_of_run _ _ _ Hex), bind_eq, (enum_of_run _ _ _ Hdir),
      bind_eq, (enum_of_run _ _ _ Hty), bind_eq, (enum_of_run _ _ _ Hoff).
    reflexivity.
  - intros Hs Hv _ _ Hbad. unfold send_order.
    apply String.eqb_neq in Hs, Hv. rewrite Hs, Hv.
    rewrite bind_eq. unfold float at 1.
    destruct (float_of (volume_line i)) as [volume|] eqn:Hvol; [|cbn; eauto].
    cbn [ret]. rewrite bind_eq.
    assert ((∃ price, (if String.eqb (price_line i) "" then ret zero
                       else float (price_line i)) w = (Return price, w)
                      ∧ (price_line i = "" ∨ is_Some (float_of (price_line i))))
            ∨ ∃ what, (if String.eqb (price_line i) "" then ret zero
                       else float (price_line i)) w = (Raise (ValueError what), w))
      as Hcases.
    { destruct (String.eqb (price_line i) "") eqn:Hp.
      - apply String.eqb_eq in Hp. left. exists zero. auto.
      - unfold float. destruct (float_of (price_line i)) as [price|]; [|right; eauto].
        left. exists price. split; [done|]. right. by eexists. }
    destruct Hcases as [(price & Hrun & Hprice)|[what Hrun]]; rewrite Hrun; [|eauto].
    unfold enum_of.
    destruct (decide (exchange_combo i ∈ Exchange_values E)) as [Hex|Hex];
      [|rewrite bind_eq, bool_decide_eq_false_2 by done; cbn; eauto].
    rewrite bind_eq, bool_decide_eq_true_2 by done. cbn [ret].
    destruct (decide (direction_combo i ∈ Direction_values E)) as [Hdir|Hdir];
      [|rewrite bind_eq, bool_decide_eq_false_2 by done; cbn; eauto].
    rewrite bind_eq, bool_decide_eq_true_2 by done. cbn [ret].
    destruct (decide (order_type_combo i ∈ OrderType_values E)) as [Hty|Hty];
      [|rewrite bind_eq, bool_decide_eq_false_2 by done; cbn; eauto].
    rewrite bind_eq, bool_decide_eq_true_2 by done. cbn [ret].
    destruct (decide (offset_combo i ∈ Offset_values E)) as [Hoff|Hoff];
      [|rewrite bind_eq, bool_decide_eq_false_2 by done; cbn; eauto].
    destruct Hbad. by repeat split.
Qed.

Lemma C5_send_order_validated_witness :
  sent_orders (effects (send_order sample_enums (sample_inputs "10" "") no_orders).2)
  = [({| req_symbol := "rb2410"; req_exchange := "SHFE"; req_direction := "多";
         req_type := "限价"; req_volume := FDec false 10 0; req_price := zero;
         req_offset := "开"; req_reference := "ManualTrading" |}, "CTP")]
  ∧ ∃ what, send_order sample_enums (sample_inputs "1e" "") no_orders
            = (Raise (ValueError what), no_orders).
Proof.
  split.
  - rewrite (proj1 (proj2 (C5_send_order_validated sample_enums (sample_inputs "10" "")
                             no_orders)) (FDec false 10 0) zero);
      [reflexivity | discriminate | discriminate | reflexivity | reflexivity
       | by apply (bool_decide_unpack _) .. ].
  - apply (proj2 (proj2 (C5_send_order_validated sample_enums (sample_inputs "1e" "")
                           no_orders)));
      [discriminate | discriminate | reflexivity | reflexivity |].
    intros [[f Hf] _]. vm_compute in Hf. discriminate.
Defined.

(** C6: [cancel_all] hands the registry exactly one cancel request for each
    order its active-orders query returns, in the order returned, each
    with the gateway name of that order, and leaves the canonical orders
    as they are. *)
Theorem C6_cancel_all_one_request_per_active_order (w : World) :
  ∃ order_list,
    get_all_active_orders w = (Return order_list, w)
    ∧ cancel_all w
      = (Return tt,
         {| oms_orders := oms_orders w;
            effects := effects w ++
              map (λ o, Cancel_order (create_cancel_request o) (Monitor.gateway_name o))
                  order_list |}).
Proof.
  exists (filter (λ o, Monitor.is_active o = true) (oms_orders w)).
  split; [reflexivity|].
  unfold cancel_all. rewrite bind_eq. cbn.
  generalize (filter (λ o, Monitor.is_active o = true) (oms_orders w)) as l.
  destruct w as [os es]. cbn. intros l. revert es.
  induction l as [|o l IH]; intros es.
  - cbn. by rewrite app_nil_r.
  - cbn [for_each map]. rewrite bind_eq. unfold emit at 1. cbn [modify oms_orders effects].
    rewrite IH. by rewrite <- app_assoc.
Qed.

End TradingFacts.

(** ** The event dispatcher *)

Module DispatcherFacts.
Import Dispatcher.

Lemma received_app l1 l2 h T : received (l1 ++ l2) h T = received l1 h T ++ received l2 h T.
Proof. unfold received, of_type. by rewrite omap_app, filter_app. Qed.

(** Through the any-event channel nothing counts as received by type. *)
Lemma received_general hs e h T : received (map (λ h', (General, h', e)) hs) h T = [].
Proof. induction hs as [|h' hs IH]; [done|]. exact IH. Qed.

Lemma received_cons d l h T : received (d :: l) h T = received [d] h T ++ received l h T.
Proof. change (d :: l) with ([d] ++ l). apply received_app. Qed.

(** One invocation of handler [h'] with [e]. *)
Lemma received_one h' e h T :
  received [(Typed, h', e)] h T = if decide (h' = h ∧ etype e = T) then [e] else [].
Proof.
  unfold received, of_type. cbn [omap list_omap].
  destruct (decide (h' = h)) as [->|Hh].
  - destruct (decide (etype e = T)) as [HT|HT].
    + rewrite filter_cons_True by done. rewrite decide_True by done. done.
    + rewrite filter_cons_False by done. rewrite decide_False by tauto. done.
  - rewrite decide_False by tauto. done.
Qed.

Lemma received_typed_absent (subs : list (string * nat)) e h T :
  (T, h) ∉ subs →
  received (map (λ p, (Typed, p.2, e)) (filter (λ p, p.1 = etype e) subs)) h T = [].
Proof.
  induction subs as [|[T' h'] subs IH]; intros Hnot; [done|].
  apply not_elem_of_cons in Hnot as [Hne Hnot].
  destruct (decide (T' = etype e)) as [->|HT].
  - rewrite filter_cons_True by done. cbn [map snd].
    rewrite received_cons, received_one, IH by done.
    rewrite decide_False; [done|]. intros [-> <-]. done.
  - rewrite filter_cons_False by done. by apply IH.
Qed.

(** One delivery of [e]: a handler subscribed once to type [T] is invoked
    with it exactly once if [e] has type [T], and not at all otherwise. *)
Lemma received_typed_once (subs : list (string * nat)) e h T :
  NoDup subs →
  (T, h) ∈ subs →
  received (map (λ p, (Typed, p.2, e)) (filter (λ p, p.1 = etype e) subs)) h T
  = of_type T [e].
Proof.
  induction subs as [|[T' h'] subs IH]; intros Hnd Hin; [by apply elem_of_nil in Hin|].
  apply NoDup_cons in Hnd as [Hfresh Hnd].
  apply elem_of_cons in Hin as [[= <- <-]|Hin].
  - destruct (decide (T = etype e)) as [->|HT].
    + rewrite filter_cons_True by done. cbn [map snd].
      rewrite received_cons, received_one, received_typed_absent by done.
      rewrite decide_True by done. unfold of_type. by rewrite filter_cons_True.
    + rewrite filter_cons_False by done. rewrite received_typed_absent by done.
      unfold of_type. rewrite filter_cons_False; [done|]. congruence.
  - destruct (decide (T' = etype e)) as [->|HT].
    + rewrite filter_cons_True by done. cbn [map snd].
      rewrite received_cons, received_one, IH by done.
      rewrite decide_False; [done|]. intros [-> <-]. done.
    + rewrite filter_cons_False by done. by apply IH.
Qed.

Lemma step_handlers s a : handlers (step s a) = handlers s.
Proof. destruct a; cbn; [done|]. unfold deliver. by destruct (queue s). Qed.

Lemma of_type_app T l1 l2 : of_type T (l1 ++ l2) = of_type T l1 ++ of_type T l2.
Proof. apply filter_app. Qed.

Lemma of_type_cons T e l : of_type T (e :: l) = of_type T [e] ++ of_type T l.
Proof. change (e :: l) with ([e] ++ l). apply of_type_app. Qed.

(** What has been received and what is still queued, together, grow by
    exactly the events put. *)
Lemma run_fifo acts : ∀ s h T,
  NoDup (handlers s) →
  (T, h) ∈ handlers s →
  received (log (run s acts)) h T ++ of_type T (queue (run s acts))
  = received (log s) h T ++ of_type T (queue s) ++ of_type T (puts acts).
Proof.
  induction acts as [|a acts IH]; intros s h T Hnd Hin.
  - cbn. by rewrite !app_nil_r.
  - change (run s (a :: acts)) with (run (step s a) acts).
    rewrite IH by (by rewrite step_handlers).
    destruct a as [e|].
    + change (puts (Put e :: acts)) with (e :: puts acts).
      change (log (step s (Put e))) with (log s).
      change (queue (step s (Put e))) with (queue s ++ [e]).
      by rewrite of_type_app, (of_type_cons T e (puts acts)), <- !app_assoc.
    + change (puts (Deliver :: acts)) with (puts acts).
      change (step s Deliver) with (deliver s). unfold deliver.
      destruct (queue s) as [|e q] eqn:Hq; [by rewrite Hq|].
      cbn [log queue].
      rewrite !received_app, received_general, app_nil_r.
      rewrite (received_typed_once _ _ _ _ Hnd Hin).
      by rewrite (of_type_cons T e q), <- !app_assoc.
Qed.

Lemma register_handlers T h s :
  NoDup (handlers s) →
  NoDup (handlers (register T h s))
  ∧ (T, h) ∈ handlers (register T h s)
  ∧ ∀ p, p ∈ handlers s → p ∈ handlers (register T h s).
Proof.
  intros Hnd. unfold register. case_bool_decide as Hin; cbn.
  - done.
  - split; [|split].
    + apply NoDup_app. split; [done|]. split; [|apply NoDup_singleton].
      intros p Hp Hp'. apply list_elem_of_singleton in Hp' as ->. done.
    + apply elem_of_app. right. apply elem_of_cons. by left.
    + intros p Hp. apply elem_of_app. by left.
Qed.

Lemma subscribe_all_handlers regs :
  NoDup (handlers (subscribe_all regs))
  ∧ ∀ p, p ∈ regs → p ∈ handlers (subscribe_all regs).
Proof.
  unfold subscribe_all.
  assert (Hgen : ∀ s, NoDup (handlers s) →
    NoDup (handlers (foldl (λ s p, register p.1 p.2 s) s regs))
    ∧ (∀ p, p ∈ handlers s → p ∈ handlers (foldl (λ s p, register p.1 p.2 s) s regs))
    ∧ (∀ p, p ∈ regs → p ∈ handlers (foldl (λ s p, register p.1 p.2 s) s regs))).
  { induction regs as [|[T h] regs IH]; intros s Hnd.
    - split; [done|]. split; [done|]. intros p Hp. by apply elem_of_nil in Hp.
    - cbn [foldl fst snd]. destruct (register_handlers T h s Hnd) as (Hnd' & Hin' & Hkeep).
      destruct (IH _ Hnd') as (H1 & H2 & H3). split; [done|]. split.
      + intros p Hp. by apply H2, Hkeep.
      + intros p Hp. apply elem_of_cons in Hp as [->|Hp]; [by apply H2 | by apply H3]. }
  destruct (Hgen empty) as (H1 & _ & H3); [apply NoDup_nil_2|]. done.
Qed.

Lemma subscribe_all_fresh regs :
  queue (subscribe_all regs) = [] ∧ log (subscribe_all regs) = [].
Proof.
  unfold subscribe_all.
  assert (Hgen : ∀ s, queue (foldl (λ s p, register p.1 p.2 s) s regs) = queue s
                      ∧ log (foldl (λ s p, register p.1 p.2 s) s regs) = log s).
  { induction regs as [|[T h] regs IH]; intros s; [done|].
    cbn [foldl fst snd]. destruct (IH (register T h s)) as [-> ->].
    unfold register. by case_bool_decide. }
  apply Hgen.
Qed.

(** C7: with a single producer calling [put], whatever the interleaving
    with the delivery thread, the events of a type that a subscriber of
    that type has received, followed by those of the type still queued,
    are the events of the type in the order they were put; once the queue
    is drained the subscriber has received exactly them, in that order. *)
Theorem C7_per_type_fifo_delivery (regs : list (string * nat)) (acts : list action)
    (h : nat) (event_type : string) :
  (event_type, h) ∈ regs →
  received (log (run (subscribe_all regs) acts)) h event_type
    ++ of_type event_type (queue (run (subscribe_all regs) acts))
  = of_type event_type (puts acts)
  ∧ (queue (run (subscribe_all regs) acts) = [] →
     received (log (run (subscribe_all regs) acts)) h event_type
     = of_type event_type (puts acts)).
Proof.
  intros Hin.
  destruct (subscribe_all_handlers regs) as [Hnd Hall].
  destruct (subscribe_all_fresh regs) as [Hq Hl].
  pose proof (run_fifo acts _ h event_type Hnd (Hall _ Hin)) as Hfifo.
  rewrite Hq, Hl in Hfifo. cbn in Hfifo.
  split; [exact Hfifo|].
  intros Hempty. rewrite Hempty in Hfifo. unfold of_type at 1 in Hfifo.
  by rewrite filter_nil, app_nil_r in Hfifo.
Qed.

Lemma C7_per_type_fifo_delivery_witness :
  received
    (log (run (subscribe_all [("eTick.", 1%nat); ("eOrder.", 2%nat); ("eTick.", 1%nat)])
            [Put (tick 1); Put (order_event 7); Deliver; Put (tick 2); Deliver; Deliver]))
    1%nat "eTick."
  = [tick 1; tick 2].
Proof.
  rewrite (proj2 (C7_per_type_fifo_delivery
                    [("eTick.", 1%nat); ("eOrder.", 2%nat); ("eTick.", 1%nat)]
                    [Put (tick 1); Put (order_event 7); Deliver; Put (tick 2); Deliver; Deliver]
                    1%nat "eTick." ltac:(apply elem_of_cons; by left)) ltac:(reflexivity)).
  reflexivity.
Defined.

End DispatcherFacts.

(** ** The chart module *)

Module ChartFacts.
Import Chart.

Lemma unbound_nil env outer locals : unbound env outer locals [] = None.
Proof. reflexivity. Qed.

(** A name bound in the scope or the enclosing one is skipped. *)
Lemma unbound_bound env outer locals n names :
  n ∈ locals ∨ n ∈ outer →
  unbound env outer locals (n :: names) = unbound env outer locals names.
Proof.
  intros Hb. unfold unbound. rewrite filter_cons_False; [done|]. tauto.
Qed.

Lemma unbound_here env outer locals n names :
  n ∉ locals → n ∉ outer → n ∉ builtins env →
  unbound env outer locals (n :: names) = Some n.
Proof.
  intros H1 H2 H3. unfold unbound. by rewrite filter_cons_True.
Qed.

Ltac bound := (left + right); apply (bool_decide_unpack _); exact I.
Ltac not_bound := apply (bool_decide_unpack _); exact I.

(** C10: in an interpreter where the imports of the module resolve and
    [ObjectDict] is no builtin, importing the chart widget module raises
    NameError for [ObjectDict], in the class body of ChartWidget; the
    name ChartWidget is never bound, so there is no class to
    instantiate. *)
Theorem C10_chart_import_raises_NameError (env : Env) (class_rest : list simple)
    (module_rest : list stmt) :
  Forall (λ m, importable env m = true) chart_widget_imports →
  "ObjectDict" ∉ builtins env →
  import_chart_widget env class_rest module_rest
  = (Some (NameError "ObjectDict"), globals_at_class)
  ∧ "ChartWidget" ∉ (import_chart_widget env class_rest module_rest).2.
Proof.
  intros Himp Hno.
  assert (Heq : import_chart_widget env class_rest module_rest
                = (Some (NameError "ObjectDict"), globals_at_class)).
  { unfold import_chart_widget, chart_widget_module, chart_widget_imports in *.
    repeat (apply Forall_cons in Himp as [?Hm Himp]).
    cbn [exec_module app exec_simple].
    repeat match goal with H : importable env _ = true |- _ => rewrite H; clear H end.
    cbn [exec_module app exec_simple].
    rewrite unbound_bound by bound. rewrite unbound_nil.
    cbn [exec_module exec_simple].
    rewrite unbound_bound by bound. rewrite unbound_nil.
    cbn [exec_class_body exec_simple]. rewrite unbound_nil.
    cbn [exec_class_body exec_simple].
    rewrite unbound_bound by bound.
    rewrite unbound_here; [reflexivity | not_bound | not_bound | exact Hno]. }
  split; [exact Heq|]. rewrite Heq. not_bound.
Qed.

Lemma C10_chart_import_raises_NameError_witness :
  (import_chart_widget full_env [] []).1 = Some (NameError "ObjectDict").
Proof.
  rewrite (proj1 (C10_chart_import_raises_NameError full_env [] []
                    ltac:(repeat constructor) ltac:(not_bound))).
  reflexivity.
Defined.

(** With [ObjectDict] no builtin, the import completes in no interpreter:
    it ends in ImportError at a missing dependency, or in the NameError. *)
Lemma chart_import_never_completes env class_rest module_rest :
  "ObjectDict" ∉ builtins env →
  (import_chart_widget env class_rest module_rest).1 ≠ None.
Proof.
  intros Hno.
  unfold import_chart_widget, chart_widget_module.
  cbn [exec_module app exec_simple].
  repeat (destruct (importable env _); [|done]; cbn [exec_module app exec_simple]).
  rewrite unbound_bound by bound. rewrite unbound_nil.
  cbn [exec_module exec_simple].
  rewrite unbound_bound by bound. rewrite unbound_nil.
  cbn [exec_class_body exec_simple]. rewrite unbound_nil.
  cbn [exec_class_body exec_simple].
  rewrite unbound_bound by bound.
  rewrite unbound_here; [done | not_bound | not_bound | exact Hno].
Qed.

End ChartFacts.

(** ** What a monitor table shows *)

Module RowsFacts.
Import Monitor Rows MonitorFacts.


(** The loop of [insert_new_row] on an event that has every attribute:
    one new cell object per header, placed in the top row from [column]
    on. *)
Lemma fill_row_complete data hs : ∀ column acc s r0 rest,
  rows s = r0 :: rest →
  Forall (λ h, is_Some (assoc h.1 data)) hs →
  (column + length hs ≤ length (items r0))%nat →
  ∃ its rc s',
    fill_row data column hs acc s = (Return rc, s')
    ∧ store s' = store s ++ map (cell_of data) hs
    ∧ rows s' = {| items := its; hidden := hidden r0 |} :: rest
    ∧ cells s' = cells s
    ∧ sortingEnabled s' = sortingEnabled s
    ∧ length its = length (items r0)
    ∧ (∀ i, (i < length hs)%nat →
            its !! (column + i)%nat = Some (Some (length (store s) + i)%nat))
    ∧ (∀ j, (j < column)%nat → its !! j = items r0 !! j).
Proof.
  induction hs as [|[name setting] hs IH]; intros column acc s r0 rest Hrows Hall Hlen.
  - exists (items r0), acc, s. cbn. rewrite app_nil_r. repeat split; try done.
    + rewrite Hrows. by destruct r0.
    + intros i Hi. lia.
  - apply Forall_cons in Hall as [[content Hcontent] Hall]. cbn [fst] in Hcontent.
    cbn [length] in Hlen.
    cbn [fill_row]. rewrite bind_eq, getattr_run, Hcontent, bind_eq.
    unfold alloc. rewrite bind_eq. unfold setItem0. cbn [modify].
    set (s2 := with_rows _ (with_store _ s)).
    assert (Hrows2 : rows s2 = set_item column (length (store s)) r0 :: rest).
    { unfold s2, with_rows, with_store. cbn. by rewrite Hrows. }
    assert (Hlen2 : (S column + length hs ≤ length (items (set_item column (length (store s)) r0)))%nat).
    { cbn. rewrite length_insert. lia. }
    destruct (IH (S column)
                 (if update setting then acc ++ [(name, length (store s))] else acc)
                 s2 _ _ Hrows2 Hall Hlen2)
      as (its & rc & s' & Hrun & Hst & Hr & Hc & Hs & Hl & Hnew & Hold).
    exists its, rc, s'. split; [exact Hrun|].
    unfold s2, with_rows, with_store in Hst, Hc, Hs. cbn in Hst, Hc, Hs, Hr, Hl, Hold.
    rewrite length_insert in Hl.
    repeat split; try done.
    + rewrite Hst, <- app_assoc. cbn. unfold cell_of at 2. cbn. by rewrite Hcontent.
    + intros [|i] Hi.
      * rewrite Nat.add_0_r. rewrite Hold by lia.
        rewrite Nat.add_0_r. apply list_lookup_insert_eq. lia.
      * replace (column + S i)%nat with (S column + i)%nat by lia.
        rewrite Hnew by (cbn in Hi; lia).
        unfold s2, with_rows, with_store. cbn. rewrite length_app. cbn.
        do 2 f_equal. lia.
    + intros j Hj. rewrite Hold by lia. apply list_lookup_insert_ne. lia.
Qed.

(** [insert_new_row] on an event that has every attribute (and the key,
    in a keyed monitor): the new cell objects, and a visible top row that
    holds them. *)
Lemma insert_complete M data s :
  complete M data →
  (String.eqb (data_key M) "" = false → is_Some (assoc (data_key M) data)) →
  ∃ s', insert_new_row M data s = (Return tt, s')
    ∧ store s' = store s ++ map (cell_of data) (headers M)
    ∧ rows s' = {| items := map Some (seq (length (store s)) (length (headers M)));
                   hidden := false |} :: rows s
    ∧ sortingEnabled s' = sortingEnabled s
    ∧ (if String.eqb (data_key M) "" then cells s' = cells s
       else ∃ key rc, assoc (data_key M) data = Some key ∧ cells s' = <[key := rc]> (cells s)).
Proof.
  intros Hcomplete Hkey. unfold insert_new_row, insertRow0. rewrite bind_eq. cbn [modify].
  set (s1 := with_rows _ s).
  assert (Hrows1 : rows s1 = {| items := replicate (length (headers M)) None; hidden := false |}
                             :: rows s) by reflexivity.
  destruct (fill_row_complete data (headers M) 0 [] s1 _ _ Hrows1 Hcomplete)
    as (its & rc & s2 & Hrun & Hst & Hr & Hc & Hs & Hl & Hnew & _).
  { cbn. by rewrite length_replicate. }
  rewrite bind_eq, Hrun. cbn in Hl, Hr. rewrite length_replicate in Hl.
  assert (Hits : its = map Some (seq (length (store s)) (length (headers M)))).
  { apply list_eq. intros i. destruct (decide (i < length (headers M))%nat) as [Hi|Hi].
    - specialize (Hnew i Hi). cbn in Hnew. rewrite Hnew. symmetry.
      rewrite list_lookup_fmap, lookup_seq_lt by done. done.
    - rewrite !lookup_ge_None_2; [done| |lia]. rewrite length_map, length_seq. lia. }
  subst its.
  destruct (String.eqb (data_key M) "") eqn:Hk.
  - exists s2. repeat split; try done.
  - destruct (Hkey eq_refl) as [key Hk']. rewrite bind_eq, getattr_run, Hk'. cbn [modify].
    eexists. split; [reflexivity|]. unfold with_cells. cbn [store rows cells sortingEnabled].
    repeat split; try done. exists key, rc. by rewrite Hc.
Qed.

(** A cell object of the store shows the same text after the store has
    grown at its end. *)
Lemma item_text_opt_app s s' r c ext :
  store s' = store s ++ ext →
  (∀ id, items r !! c = Some (Some id) → (id < length (store s))%nat) →
  item_text_opt s' r c = item_text_opt s r c.
Proof.
  intros Hst Hlive. unfold item_text_opt.
  destruct (items r !! c) as [[id|]|]; [|done..].
  rewrite Hst, lookup_app_l by (by apply Hlive). done.
Qed.

Lemma row_view_app M s s' r ext :
  store s' = store s ++ ext →
  (∀ c id, items r !! c = Some (Some id) → (id < length (store s))%nat) →
  row_view M s' r = row_view M s r.
Proof.
  intros Hst Hlive. unfold row_view. apply map_ext. intros c.
  eapply item_text_opt_app; [done|]. intros id. apply Hlive.
Qed.

(** The view of the row that [insert_new_row] has just built. *)
Lemma new_row_view M data st ext :
  row_view M {| store := st ++ map (cell_of data) (headers M) ++ ext; rows := [];
                cells := ∅; sortingEnabled := false |}
           {| items := map Some (seq (length st) (length (headers M))); hidden := false |}
  = map Some (texts M data).
Proof.
  unfold row_view, texts. rewrite <- list_fmap_compose.
  apply list_eq. intros i. rewrite !list_lookup_fmap.
  destruct (decide (i < length (headers M))%nat) as [Hi|Hi].
  - rewrite lookup_seq_lt by done. cbn.
    destruct (lookup_lt_is_Some_2 (headers M) i Hi) as [h Hh]. rewrite Hh. cbn.
    unfold item_text_opt. cbn. rewrite list_lookup_fmap, lookup_seq_lt by done. cbn.
    rewrite lookup_app_r by lia. rewrite Nat.add_comm, Nat.add_sub.
    rewrite lookup_app_l by (by rewrite length_map).
    by rewrite list_lookup_fmap, Hh.
  - rewrite lookup_seq_ge by lia. cbn. by rewrite lookup_ge_None_2 by lia.
Qed.

Lemma row_view_store M s s' r : store s' = store s → row_view M s' r = row_view M s r.
Proof.
  intros Hst. unfold row_view. apply map_ext. intros c.
  unfold item_text_opt. by rewrite Hst.
Qed.

Lemma view_same_table M s s' : same_table s s' → view M s' = view M s.
Proof.
  intros (Hst & Hr & _). unfold view. rewrite Hr. apply map_ext. intros r.
  by apply row_view_store.
Qed.

Lemma items_live_same_table s s' : same_table s s' → items_live s → items_live s'.
Proof. intros (Hst & Hr & _) Hlive r c id. rewrite Hr, Hst. apply Hlive. Qed.

Lemma items_live_init : items_live init.
Proof. intros r c id Hr. by apply elem_of_nil in Hr. Qed.

(** What [insert_new_row] leaves, seen as a table: the new row on top of
    the rows there were, which show what they showed. *)
Lemma insert_complete_view M data s :
  items_live s →
  complete M data →
  (String.eqb (data_key M) "" = false → is_Some (assoc (data_key M) data)) →
  ∃ s', insert_new_row M data s = (Return tt, s')
    ∧ view M s' = map Some (texts M data) :: view M s
    ∧ map hidden (rows s') = false :: map hidden (rows s)
    ∧ items_live s'
    ∧ sortingEnabled s' = sortingEnabled s
    ∧ (if String.eqb (data_key M) "" then cells s' = cells s
       else ∃ key rc, assoc (data_key M) data = Some key ∧ cells s' = <[key := rc]> (cells s)).
Proof.
  intros Hlive Hcomplete Hkey.
  destruct (insert_complete M data s Hcomplete Hkey) as (s' & Hrun & Hst & Hr & Hs & Hc).
  exists s'. split; [exact Hrun|]. repeat split; try done.
  - unfold view. rewrite Hr. cbn [map]. f_equal.
    + rewrite <- (new_row_view M data (store s) []).
      apply row_view_store. cbn. by rewrite app_nil_r.
    + apply map_ext_in. intros r Hin. eapply row_view_app; [exact Hst|].
      intros c id. apply Hlive. by apply list_elem_of_In.
  - by rewrite Hr.
  - intros r c id Hin Hit. rewrite Hr in Hin. rewrite Hst, length_app, length_map.
    apply elem_of_cons in Hin as [->|Hin].
    + cbn in Hit. rewrite list_lookup_fmap in Hit.
      destruct (seq _ _ !! c) as [id'|] eqn:Hseq; [|done]. cbn in Hit.
      injection Hit as <-. apply lookup_seq in Hseq. lia.
    + specialize (Hlive r c id Hin Hit). lia.
Qed.

(** One event with an unlisted key (or in a monitor without key), having
    every attribute: the table gains its row on top. *)
Lemma after_event_insert M data s :
  items_live s →
  complete M data →
  (String.eqb (data_key M) "" = false →
   ∃ key, assoc (data_key M) data = Some key ∧ cells s !! key = None) →
  process_event M data s = (Return tt, after_event M s data)
  ∧ view M (after_event M s data) = map Some (texts M data) :: view M s
  ∧ map hidden (rows (after_event M s data)) = false :: map hidden (rows s)
  ∧ items_live (after_event M s data)
  ∧ (if String.eqb (data_key M) "" then cells (after_event M s data) = cells s
     else ∃ key rc, assoc (data_key M) data = Some key
                    ∧ cells (after_event M s data) = <[key := rc]> (cells s)).
Proof.
  intros Hlive Hcomplete Hkey. unfold after_event.
  assert (Hrun : process_event M data s =
                 match insert_new_row M data (sort_off M s) with
                 | (Return _, s1) => (Return tt, sort_on M s1)
                 | (Raise e, s1) => (Raise e, s1)
                 end).
  { destruct (String.eqb (data_key M) "") eqn:Hk.
    - by apply process_event_unkeyed.
    - destruct (Hkey eq_refl) as (key & Hk' & Hnone). by eapply process_event_new. }
  rewrite Hrun.
  destruct (insert_complete_view M data (sort_off M s)) as (s1 & -> & Hv & Hh & Hl & _ & Hc).
  { eapply items_live_same_table; [apply same_table_sort_off | done]. }
  { done. }
  { intros Hk. destruct (Hkey Hk) as (key & -> & _). eauto. }
  cbn [snd]. split; [done|].
  pose proof (same_table_sort_off M s) as Hoff.
  pose proof (same_table_sort_on M s1) as Hon.
  rewrite (view_same_table _ _ _ Hon), Hv, (view_same_table _ _ _ Hoff).
  destruct Hon as (Hon1 & Hon2 & Hon3). destruct Hoff as (Hoff1 & Hoff2 & Hoff3).
  rewrite Hon2, Hh, Hoff2, Hon3. rewrite Hoff3 in Hc.
  repeat split; try done.
  eapply items_live_same_table; [|exact Hl]. by repeat split.
Qed.



Lemma replicate_shift {A} (x : A) n l : replicate (S n) x ++ l = replicate n x ++ x :: l.
Proof. induction n as [|n IH]; [done|]. cbn in *. by rewrite IH. Qed.

Lemma firsts_subset M evs : ∀ seen d, d ∈ firsts M seen evs → d ∈ evs.
Proof.
  induction evs as [|e evs IH]; intros seen d Hd; [done|].
  cbn in Hd. destruct (assoc (data_key M) e) as [k|].
  - destruct (decide (k ∈ seen)).
    + apply elem_of_cons. right. by eapply IH.
    + apply elem_of_cons in Hd as [->|Hd]; apply elem_of_cons; [by left|right; by eapply IH].
  - apply elem_of_cons. right. by eapply IH.
Qed.

(** In a keyed monitor whose first updatable column has a cell class
    without [set_content], the table only ever gains the row of the first
    event of each key. *)
Lemma keyed_frozen_gen M h hs evs :
  String.eqb (data_key M) "" = false →
  updatable (headers M) = h :: hs →
  defines_set_content (cell h.2) = false →
  Forall (λ d, complete M d ∧ is_Some (assoc (data_key M) d)) evs →
  ∀ s, wf M s → items_live s →
    view M (after_events M s evs)
    = map (λ d, map Some (texts M d)) (reverse (firsts M (dom (cells s)) evs)) ++ view M s
    ∧ map hidden (rows (after_events M s evs))
      = replicate (length (firsts M (dom (cells s)) evs)) false ++ map hidden (rows s).
Proof.
  intros Hk Hup Hno Hall.
  induction Hall as [|d evs [Hd [k Hkey]] Hall IH]; intros s Hwf Hlive; [done|].
  cbn [after_events foldl]. fold (after_events M (after_event M s d) evs).
  cbn [firsts]. rewrite Hkey.
  destruct (decide (k ∈ dom (cells s))) as [Hin|Hin].
  - apply elem_of_dom in Hin as [rc Hrc].
    destruct (seen_key_no_change M s d k rc h hs Hwf Hup Hno Hk Hkey Hrc) as [name Hrun].
    unfold after_event. rewrite Hrun. cbn [snd].
    pose proof (same_table_sort_off M s) as Hoff.
    destruct (IH (sort_off M s)) as [Hv Hh].
    { by apply wf_sort_off. }
    { by eapply items_live_same_table. }
    rewrite Hv, Hh, (view_same_table _ _ _ Hoff).
    destruct Hoff as (_ & -> & ->). done.
  - apply not_elem_of_dom in Hin.
    destruct (after_event_insert M d s Hlive Hd) as (_ & Hv & Hh & Hl & Hc).
    { intros _. eauto. }
    rewrite Hk in Hc. destruct Hc as (k' & rc & Hk' & Hc).
    rewrite Hkey in Hk'. injection Hk' as <-.
    destruct (IH (after_event M s d)) as [Hv' Hh'].
    { by apply process_event_wf. }
    { done. }
    rewrite Hv', Hh', Hv, Hh, Hc, dom_insert_L.
    rewrite reverse_cons, map_app. cbn. rewrite <- !app_assoc. split; [done|].
    symmetry. apply (replicate_shift false).
Qed.



Lemma keys_of_cons M d evs k :
  assoc (data_key M) d = Some k → keys_of M (d :: evs) = {[k]} ∪ keys_of M evs.
Proof. intros Hk. unfold keys_of. cbn. by rewrite Hk. Qed.

(** In a keyed monitor the rows count the entries of the key dictionary,
    and its keys are the keys of the events. *)
Lemma keyed_rows_and_keys M evs :
  String.eqb (data_key M) "" = false →
  Forall (λ d, complete M d ∧ is_Some (assoc (data_key M) d)) evs →
  length (rows (after_events M init evs)) = size (cells (after_events M init evs))
  ∧ dom (cells (after_events M init evs)) = keys_of M evs.
Proof.
  intros Hk Hall.
  assert (Hgen : ∀ s, length (rows s) = size (cells s) →
    length (rows (after_events M s evs)) = size (cells (after_events M s evs))
    ∧ dom (cells (after_events M s evs)) = keys_of M evs ∪ dom (cells s)).
  2:{ destruct (Hgen init) as [H1 H2]; [done|]. split; [done|].
      rewrite H2. cbn. rewrite dom_empty_L. set_solver. }
  induction Hall as [|d evs [Hd [k Hkey]] Hall IH]; intros s Hinv.
  { split; [done|]. unfold keys_of. cbn. set_solver. }
  cbn [after_events foldl]. fold (after_events M (after_event M s d) evs).
  rewrite (keys_of_cons _ _ _ _ Hkey).
  pose proof (same_table_sort_off M s) as (Hoff1 & Hoff2 & Hoff3).
  destruct (cells s !! k) as [rc|] eqn:Hrc.
  - assert (Hsame : rows (after_event M s d) = rows s ∧ cells (after_event M s d) = cells s).
    { unfold after_event. rewrite (process_event_seen _ _ _ _ _ Hk Hkey Hrc).
      destruct (update_cells d rc (sort_off M s)) as [[[]|e] s1] eqn:Hup;
        apply update_cells_spec in Hup as (_ & Hr & Hc & _); cbn [snd].
      - destruct (same_table_sort_on M s1) as (_ & -> & ->). split; congruence.
      - split; congruence. }
    destruct Hsame as [Hr Hc].
    destruct (IH (after_event M s d)) as [H1 H2]; [congruence|].
    split; [done|]. rewrite H2, Hc.
    assert (k ∈ dom (cells s)) by (apply elem_of_dom; eauto). set_solver.
  - assert (Hgrow : length (rows (after_event M s d)) = S (length (rows s))
                    ∧ ∃ rc, cells (after_event M s d) = <[k := rc]> (cells s)).
    { unfold after_event. rewrite (process_event_new _ _ _ _ Hk Hkey Hrc).
      destruct (insert_complete M d (sort_off M s) Hd) as (s1 & -> & _ & Hr & _ & Hc); [eauto|].
      cbn [snd]. rewrite Hk in Hc. destruct Hc as (k' & rc & Hk' & Hc).
      rewrite Hkey in Hk'. injection Hk' as <-.
      destruct (same_table_sort_on M s1) as (_ & -> & ->).
      rewrite Hr, Hc, Hoff2, Hoff3. split; [done | eauto]. }
    destruct Hgrow as [Hr [rc Hc]].
    destruct (IH (after_event M s d)) as [H1 H2].
    { rewrite Hr, Hc, map_size_insert_None by done. congruence. }
    split; [done|]. rewrite H2, Hc, dom_insert_L. set_solver.
Qed.

(** X3: in every keyed monitor, after events that each carry the key and
    every header attribute, the table has exactly one row per key met: as
    many rows as entries of the key dictionary, whose keys are the keys of
    the events. *)
Theorem X3_keyed_monitor_one_row_per_key (M : MonitorClass) (evs : list Data) :
  data_key M ≠ "" →
  Forall (λ d, complete M d ∧ is_Some (assoc (data_key M) d)) evs →
  length (rows (after_events M init evs)) = size (cells (after_events M init evs))
  ∧ dom (cells (after_events M init evs)) = keys_of M evs.
Proof.
  intros Hk Hall. apply String.eqb_neq in Hk. by apply keyed_rows_and_keys.
Qed.

Lemma X3_keyed_monitor_one_row_per_key_witness :
  length (rows (after_events QuoteMonitor init [quote_of "1"; quote_of "2"; quote_of "1"]))
  = size (cells (after_events QuoteMonitor init [quote_of "1"; quote_of "2"; quote_of "1"])).
Proof.
  apply (X3_keyed_monitor_one_row_per_key QuoteMonitor [quote_of "1"; quote_of "2"; quote_of "1"]).
  - discriminate.
  - repeat constructor; by eexists.
Defined.

Lemma fill_row_missing data hs name : ∀ column acc s,
  first_missing hs data = Some name →
  ∃ s', fill_row data column hs acc s = (Raise (AttributeError name), s').
Proof.
  induction hs as [|[n setting] hs IH]; intros column acc s Hmiss; [done|].
  cbn [fill_row first_missing fst] in *. rewrite bind_eq, getattr_run.
  destruct (assoc n data) as [content|].
  - rewrite bind_eq. unfold alloc. rewrite bind_eq. unfold setItem0. cbn [modify].
    by apply IH.
  - injection Hmiss as <-. eauto.
Qed.

(** An event that lacks a header attribute, when its key is not listed (or
    the monitor has no key): the slot raises AttributeError for the first
    missing attribute after the new row has been put on top, and before
    the key is listed. *)
Lemma missing_attribute_step M data s name :
  first_missing (headers M) data = Some name →
  (data_key M ≠ "" → ∃ key, assoc (data_key M) data = Some key ∧ cells s !! key = None) →
  process_event M data s = (Raise (AttributeError name), after_event M s data)
  ∧ (∃ its, rows (after_event M s data) = {| items := its; hidden := false |} :: rows s)
  ∧ cells (after_event M s data) = cells s.
Proof.
  intros Hmiss Hkey. unfold after_event.
  assert (Hrun : process_event M data s =
                 match insert_new_row M data (sort_off M s) with
                 | (Return _, s1) => (Return tt, sort_on M s1)
                 | (Raise e, s1) => (Raise e, s1)
                 end).
  { destruct (String.eqb (data_key M) "") eqn:Hk.
    - by apply process_event_unkeyed.
    - destruct Hkey as (key & Hk' & Hnone); [by apply String.eqb_neq|].
      by eapply process_event_new. }
  rewrite Hrun.
  assert (Hins : ∃ s1, insert_new_row M data (sort_off M s) = (Raise (AttributeError name), s1)).
  { unfold insert_new_row, insertRow0. rewrite bind_eq. cbn [modify]. rewrite bind_eq.
    destruct (fill_row_missing data (headers M) name 0 []
                (with_rows (λ rs, {| items := replicate (length (headers M)) None;
                                     hidden := false |} :: rs) (sort_off M s)) Hmiss)
      as [s1 ->]. eauto. }
  destruct Hins as [s1 Hins]. rewrite Hins. cbn [snd].
  apply insert_new_row_spec in Hins as (_ & _ & [its Hr] & [Hc _]).
  destruct (same_table_sort_off M s) as (_ & Hoff2 & Hoff3).
  split; [done|]. split; [exists its|]; congruence.
Qed.

(** X4: an event that lacks a header attribute, with an unlisted key (or in
    a monitor without key), raises AttributeError for the first missing
    attribute; by then a new row is on top of the table while the key
    dictionary is unchanged, so the same event sent again adds a second
    row. *)
Theorem X4_missing_attribute_leaves_unlisted_row (M : MonitorClass) (data : Data)
    (s : State) (name : string) :
  first_missing (headers M) data = Some name →
  (data_key M ≠ "" → ∃ key, assoc (data_key M) data = Some key ∧ cells s !! key = None) →
  process_event M data s = (Raise (AttributeError name), after_event M s data)
  ∧ length (rows (after_event M s data)) = S (length (rows s))
  ∧ cells (after_event M s data) = cells s
  ∧ length (rows (after_events M s [data; data])) = S (S (length (rows s))).
Proof.
  intros Hmiss Hkey.
  destruct (missing_attribute_step M data s name Hmiss Hkey) as (Hrun & [its Hr] & Hc).
  split; [done|]. split; [by rewrite Hr|]. split; [done|].
  cbn [after_events foldl].
  destruct (missing_attribute_step M data (after_event M s data) name Hmiss) as (_ & [its' Hr'] & _).
  { rewrite Hc. exact Hkey. }
  by rewrite Hr', Hr.
Qed.

Lemma X4_missing_attribute_leaves_unlisted_row_witness :
  length (rows (after_events TickMonitor init [tick_without_name; tick_without_name])) = 2%nat.
Proof.
  apply (X4_missing_attribute_leaves_unlisted_row TickMonitor tick_without_name init "name").
  - reflexivity.
  - intros _. exists (VStr "AAPL.NASDAQ"). split; reflexivity.
Defined.

(** X5: in a monitor with sorting, the slot switches sorting off first and
    back on last; when it raises in between, sorting stays off. *)
Theorem X5_sorting_stays_off_after_failure (M : MonitorClass) (data : Data) (s : State) :
  sorting M = true →
  sortingEnabled (after_event M s data)
  = match (process_event M data s).1 with
    | Return _ => true
    | Raise _ => false
    end.
Proof.
  intros Hsort. unfold after_event.
  assert (Hoff : sortingEnabled (sort_off M s) = false) by (unfold sort_off; by rewrite Hsort).
  assert (Hon : ∀ s1, sortingEnabled (sort_on M s1) = true) by (intros; unfold sort_on; by rewrite Hsort).
  assert (Hins : ∀ r s1, insert_new_row M data (sort_off M s) = (r, s1) →
                         sortingEnabled s1 = false).
  { intros r s1 Hrun. apply insert_new_row_spec in Hrun as (_ & Hs & _). congruence. }
  destruct (String.eqb (data_key M) "") eqn:Hk.
  - rewrite process_event_unkeyed by done.
    destruct (insert_new_row _ _ _) as [[[]|e] s1] eqn:Hrun; cbn; eauto.
  - destruct (assoc (data_key M) data) as [key|] eqn:Hkey.
    2:{ by rewrite process_event_no_key_attr. }
    destruct (cells s !! key) as [rc|] eqn:Hrc.
    + rewrite (process_event_seen _ _ _ _ _ Hk Hkey Hrc).
      destruct (update_cells _ _ _) as [[[]|e] s1] eqn:Hrun; cbn; [eauto|].
      apply update_cells_spec in Hrun as (_ & _ & _ & Hs & _). congruence.
    + rewrite (process_event_new _ _ _ _ Hk Hkey Hrc).
      destruct (insert_new_row _ _ _) as [[[]|e] s1] eqn:Hrun; cbn; eauto.
Qed.

Lemma X5_sorting_stays_off_after_failure_witness :
  sortingEnabled (after_events TickMonitor init [tick_of "AAPL" 100]) = true
  ∧ sortingEnabled (after_events TickMonitor init [tick_of "AAPL" 100; tick_of "AAPL" 101]) = false.
Proof.
  split; [reflexivity|].
  change (after_events TickMonitor init [tick_of "AAPL" 100; tick_of "AAPL" 101])
    with (after_event TickMonitor (after_events TickMonitor init [tick_of "AAPL" 100])
            (tick_of "AAPL" 101)).
  rewrite (X5_sorting_stays_off_after_failure TickMonitor (tick_of "AAPL" 101) _ eq_refl).
  vm_compute. reflexivity.
Defined.

(** One event in the active-order monitor: the slot raises, and leaves
    what the order monitor's slot leaves. *)
Lemma active_step s o :
  wf OrderMonitor s →
  active_after_event s o = after_event OrderMonitor s (order_obj o)
  ∧ ∃ e, (ActiveOrderMonitor_process_event o s).1 = Raise e.
Proof.
  intros Hwf. unfold active_after_event, ActiveOrderMonitor_process_event. rewrite bind_eq.
  pose proof (process_event_wf OrderMonitor (order_obj o) s Hwf) as Hwf'.
  unfold after_event in *.
  destruct (process_event OrderMonitor (order_obj o) s) as [[[]|e] s1]; cbn [snd fst] in *;
    [|eauto].
  rewrite bind_eq. cbn [get].
  destruct (cells s1 !! VStr (vt_orderid o)) as [rc|] eqn:Hrc; [|cbn; eauto].
  pose proof (Hwf' _ _ Hrc) as Hrow. unfold row_ok in Hrow. cbn in Hrow.
  repeat (inversion Hrow as [|?h [?n ?i] ?hs ?rc' [?Hn _] Hrest]; clear Hrow; subst;
          rename Hrest into Hrow; cbn in *).
  inversion Hrow; subst. cbn. eauto.
Qed.

(** X6: the active-order monitor never gets to show or hide a row: on
    every order event its slot raises (AttributeError from the update of a
    listed order, KeyError for the "volume" cell otherwise), and after any
    sequence of order events it is in the state of the plain order
    monitor, every order listed, none hidden. *)
Theorem X6_active_monitor_is_the_order_monitor (os : list OrderData) (o : OrderData) :
  foldl active_after_event init os = after_events OrderMonitor init (order_events os)
  ∧ (∃ e, (ActiveOrderMonitor_process_event o (foldl active_after_event init os)).1 = Raise e)
  ∧ Forall (λ r, hidden r = false) (rows (foldl active_after_event init os)).
Proof.
  assert (Hgen : ∀ s, wf OrderMonitor s →
    foldl active_after_event s os = after_events OrderMonitor s (order_events os)).
  { induction os as [|o' os IH]; intros s Hwf; [done|].
    cbn. destruct (active_step s o' Hwf) as [-> _]. apply IH. by apply process_event_wf. }
  split; [apply Hgen, wf_init|]. split.
  - apply active_step. rewrite Hgen by apply wf_init. apply after_events_wf, wf_init.
  - rewrite Hgen by apply wf_init.
    destruct (keyed_frozen_gen OrderMonitor _ _ (order_events os) eq_refl eq_refl eq_refl)
      with (s := init) as [_ Hh].
    + unfold order_events. apply Forall_fmap, Forall_forall. intros o' _. split.
      * repeat constructor; by eexists.
      * by eexists.
    + apply wf_init.
    + apply items_live_init.
    + apply Forall_forall. intros r Hr.
      assert (Hin : hidden r ∈ map hidden (rows (after_events OrderMonitor init (order_events os))))
        by (by apply list_elem_of_fmap_2).
      rewrite Hh in Hin. cbn in Hin. rewrite app_nil_r in Hin.
      by apply elem_of_replicate in Hin as [-> _].
Qed.





(** The status cell of an order row shows [str] of the status member. *)
Lemma order_status_text o :
  texts OrderMonitor (order_obj o) !! 9%nat = Some ("Status." +:+ status_name (status o)).
Proof. reflexivity. Qed.

Lemma order_rows_view os r :
  r ∈ rows (after_events OrderMonitor init (order_events os)) →
  ∃ o, row_view OrderMonitor (after_events OrderMonitor init (order_events os)) r
       = map Some (texts OrderMonitor (order_obj o)).
Proof.
  intros Hr.
  assert (Hall : Forall (λ d, complete OrderMonitor d ∧ is_Some (assoc (data_key OrderMonitor) d))
                        (order_events os)).
  { unfold order_events. apply Forall_fmap, Forall_forall. intros o' _. split.
    - repeat constructor; by eexists.
    - by eexists. }
  pose proof (X2_helper := keyed_frozen_gen OrderMonitor _ _ (order_events os)
                             eq_refl eq_refl eq_refl Hall init (wf_init _) items_live_init).
  destruct X2_helper as [Hv _]. cbn in Hv. rewrite app_nil_r in Hv.
  assert (Hin : row_view OrderMonitor (after_events OrderMonitor init (order_events os)) r
                ∈ view OrderMonitor (after_events OrderMonitor init (order_events os)))
    by (by apply list_elem_of_fmap_2).
  rewrite Hv in Hin. apply list_elem_of_fmap in Hin as (d & Hd & Hin).
  apply elem_of_reverse, firsts_subset in Hin.
  apply list_elem_of_fmap in Hin as (o & -> & _). exists o. exact Hd.
Qed.

(** X8: the order table shows [str(order.status)], such as
    "Status.NOTTRADED", while the status filter compares the cell text
    with the label chosen in the combo box; so choosing any status label
    of the filter hides every order row, whatever the search text. *)
Theorem X8_status_filter_hides_every_order (os : list OrderData)
    (filter_status search_edit : string) :
  filter_status ∈ ["未成交"; "部分成交"; "已成交"; "已撤销"; "拒单"] →
  Forall (λ r, hidden r = true)
         (rows (filter_orders filter_status search_edit
                  (after_events OrderMonitor init (order_events os)))).
Proof.
  intros Hf. unfold filter_orders, with_rows. cbn [rows].
  apply Forall_fmap, Forall_forall. intros r Hr. cbn.
  destruct (order_rows_view os r Hr) as [o Hview].
  assert (Hst : item_text_opt (after_events OrderMonitor init (order_events os)) r 9
                = Some ("Status." +:+ status_name (status o))).
  { assert (H9 : row_view OrderMonitor (after_events OrderMonitor init (order_events os)) r !! 9%nat
                 = Some (item_text_opt (after_events OrderMonitor init (order_events os)) r 9))
      by reflexivity.
    rewrite Hview, list_lookup_fmap, order_status_text in H9. by injection H9 as <-. }
  unfold show_row. change (index_of "status" (headers OrderMonitor)) with (Some 9%nat).
  cbn [mbind option_bind]. rewrite Hst.
  assert (Hshow : String.eqb filter_status "全部" = false
                  ∧ String.eqb ("Status." +:+ status_name (status o)) filter_status = false).
  { repeat (apply elem_of_cons in Hf as [->|Hf]; [by destruct (status o)|]).
    by apply elem_of_nil in Hf. }
  destruct Hshow as [-> ->]. by rewrite andb_false_r.
Qed.

Lemma X8_status_filter_hides_every_order_witness :
  Forall (λ r, hidden r = true)
         (rows (filter_orders "部分成交" ""
                  (after_events OrderMonitor init (order_events [order_5_of_10; order_msft])))).
Proof.
  apply (X8_status_filter_hides_every_order [order_5_of_10; order_msft] "部分成交" "").
  apply elem_of_cons. right. apply elem_of_cons. by left.
Defined.

Lemma show_row_set_hidden s s' f t b r :
  store s' = store s → show_row s' f t (set_hidden b r) = show_row s f t r.
Proof.
  intros Hst. unfold show_row.
  assert (Hit : ∀ c, item_text_opt s' (set_hidden b r) c = item_text_opt s r c).
  { intros c. unfold item_text_opt. cbn. by rewrite Hst. }
  destruct (index_of "status" (headers OrderMonitor)) as [c1|];
    destruct (index_of "symbol" (headers OrderMonitor)) as [c2|]; cbn; by rewrite ?Hit.
Qed.

(** X9: the order filter sets the hidden flag of every row from the cell
    texts alone: a filter applied after another gives what it gives on the
    unfiltered table (filters do not add up), and the filter with the
    label for all statuses and an empty search text shows every row. *)
Theorem X9_order_filter_last_one_wins (s : State) (f f' t t' : string) :
  filter_orders f t (filter_orders f' t' s) = filter_orders f t s
  ∧ Forall (λ r, hidden r = false) (rows (filter_orders "全部" "" (filter_orders f' t' s))).
Proof.
  split.
  - unfold filter_orders, with_rows. cbn [store rows cells sortingEnabled]. f_equal.
    rewrite <- list_fmap_compose. apply map_ext. intros r. cbn.
    by rewrite (show_row_set_hidden s) by reflexivity.
  - unfold filter_orders at 1. unfold with_rows. cbn [rows].
    apply Forall_fmap, Forall_forall. intros r _. reflexivity.
Qed.



(** *** Copying *)

Lemma append_assoc (a b c : string) : (a +:+ b) +:+ c = a +:+ b +:+ c.
Proof.
  induction a as [|x a IH]; [done|].
  change (String x ((a +:+ b) +:+ c) = String x (a +:+ b +:+ c)). by rewrite IH.
Qed.

Lemma append_nil_r (a : string) : a +:+ "" = a.
Proof.
  induction a as [|x a IH]; [done|].
  change (String x (a +:+ "") = String x a). by rewrite IH.
Qed.

Lemma copy_row_seq s r : ∀ count c row_data,
  copy_row s r c count row_data = row_data ++ map (table_text s r) (seq c count).
Proof.
  induction count as [|n IH]; intros c row_data; cbn.
  - by rewrite app_nil_r.
  - by rewrite IH, <- app_assoc.
Qed.

Lemma copy_rows_lines s rg : ∀ count r text,
  copy_rows s rg r count text
  = text +:+ lines (map (λ r', map (table_text s r')
                                   (seq (leftColumn rg) (S (rightColumn rg) - leftColumn rg)))
                        (seq r count)).
Proof.
  induction count as [|n IH]; intros r text; cbn [copy_rows seq map lines foldr].
  - by rewrite append_nil_r.
  - rewrite IH, copy_row_seq. cbn [app]. by rewrite !append_assoc.
Qed.

Lemma table_rows_seq {A} (s : State) (f : nat → A) (g : TableRow → A) :
  (∀ i r, rows s !! i = Some r → f i = g r) →
  map f (seq 0 (length (rows s))) = map g (rows s).
Proof.
  intros Hfg. apply list_eq. intros i. rewrite !list_lookup_fmap.
  destruct (rows s !! i) as [r|] eqn:Hr.
  - rewrite lookup_seq_lt by (by eapply lookup_lt_Some). cbn. f_equal. by apply Hfg.
  - rewrite lookup_seq_ge; [done|]. by apply lookup_ge_None.
Qed.

(** X11: copying with the whole table selected puts one line per table
    row on the clipboard, hidden rows included, each the cell texts joined
    by tabs; the export of the same table writes the same texts but only
    for the rows that are not hidden.  Copying without a selection leaves
    the clipboard as it is. *)
Theorem X11_copy_includes_hidden_rows (M : MonitorClass) (s : State)
    (clipboard path : string) (fs : gmap string (list (list string))) :
  rows s ≠ [] →
  headers M ≠ [] →
  path ≠ "" →
  copy_selection [whole_table M s] s clipboard = lines (rows_data M s (rows s))
  ∧ save_csv M path s fs !! path
    = Some (map (λ h, display h.2) (headers M)
            :: rows_data M s (filter (λ r, hidden r = false) (rows s)))
  ∧ copy_selection [] s clipboard = clipboard.
Proof.
  intros Hrows Hheaders Hpath. split; [|split; [|done]].
  - unfold copy_selection, whole_table. cbn [topRow bottomRow].
    rewrite copy_rows_lines. cbn [leftColumn rightColumn].
    replace (S (length (rows s) - 1) - 0)%nat with (length (rows s))
      by (destruct (rows s); [done | cbn; lia]).
    replace (S (length (headers M) - 1) - 0)%nat with (length (headers M))
      by (destruct (headers M); [done | cbn; lia]).
    unfold rows_data. change ("" +:+ ?x) with x. f_equal.
    apply table_rows_seq. intros i r Hr.
    apply map_ext. intros c. unfold table_text. by rewrite Hr.
  - apply String.eqb_neq in Hpath. unfold save_csv. rewrite Hpath.
    by rewrite lookup_insert_eq, write_rows_filter.
Qed.

Lemma X11_copy_includes_hidden_rows_witness :
  copy_selection [whole_table OrderMonitor two_orders_filtered] two_orders_filtered ""
  = lines (rows_data OrderMonitor two_orders_filtered (rows two_orders_filtered))
  ∧ length (rows_data OrderMonitor two_orders_filtered (rows two_orders_filtered)) = 2%nat
  ∧ length (rows_data OrderMonitor two_orders_filtered
              (filter (λ r, hidden r = false) (rows two_orders_filtered))) = 1%nat.
Proof.
  split; [|split; vm_compute; reflexivity].
  apply (X11_copy_includes_hidden_rows OrderMonitor two_orders_filtered "" "orders.csv" ∅);
    discriminate.
Defined.

End RowsFacts.

(** ** Reading integers *)

Module DigitFacts.
Import PyFloat Global.

Lemma digit_not_special c :
  is_digit c = true → is_space c = false ∧ is_char 45 c = false ∧ is_char 43 c = false.
Proof. by destruct c as [[] [] [] [] [] [] [] []]. Qed.

Lemma pretty_N_char_digit d :
  (d < 10)%N → is_digit (pretty_N_char d) = true ∧ digit_of (pretty_N_char d) = d.
Proof.
  intros Hd.
  assert (d = 0 ∨ d = 1 ∨ d = 2 ∨ d = 3 ∨ d = 4 ∨ d = 5 ∨ d = 6 ∨ d = 7 ∨ d = 8 ∨ d = 9)%N
    as Hcases by lia.
  destruct_or!; subst; done.
Qed.

(** The decimal digits that [pretty] writes in front of [s]. *)
Lemma pretty_N_go_digits x : ∀ s, ∃ cs,
  String.list_ascii_of_string (pretty_N_go x s) = cs ++ String.list_ascii_of_string s
  ∧ Forall (λ c, is_digit c = true) cs
  ∧ (∀ acc, foldl (λ acc d, 10 * acc + d)%N acc (map digit_of cs)
            = (acc * 10 ^ N.of_nat (length cs) + x)%N)
  ∧ ((0 < x)%N → cs ≠ []).
Proof.
  induction (N.lt_wf_0 x) as [x _ IH]; intros s.
  assert (x = 0 ∨ 0 < x)%N as [->|Hpos] by lia.
  - exists []. rewrite pretty_N_go_0. repeat split; [constructor|intros; cbn; lia|lia].
  - rewrite pretty_N_go_step by done.
    destruct (IH (x `div` 10)%N (N.div_lt x 10 Hpos eq_refl)
                (String (pretty_N_char (x `mod` 10)) s)) as (cs & Hcs & Hds & Hval & _).
    destruct (pretty_N_char_digit (x `mod` 10)%N) as [Hdig Hof]; [by apply N.mod_lt|].
    exists (cs ++ [pretty_N_char (x `mod` 10)]). repeat split.
    + rewrite Hcs. cbn. by rewrite <- app_assoc.
    + apply Forall_app. split; [done|]. by constructor.
    + intros acc. rewrite map_app, foldl_app, Hval. cbn [map foldl]. rewrite Hof.
      rewrite length_app, Nat2N.inj_add, N.pow_add_r. cbn [length].
      change (10 ^ N.of_nat 1)%N with 10%N.
      pose proof (N.div_mod x 10). lia.
    + by destruct cs.
Qed.

Lemma digits_tail_digits cs :
  Forall (λ c, is_digit c = true) cs → digits_tail cs = (map digit_of cs, []).
Proof.
  induction 1 as [|c cs Hc _ IH]; [done|]. cbn. by rewrite Hc, IH.
Qed.

Lemma strip_no_space l : Forall (λ c, is_space c = false) l → strip l = l.
Proof.
  intros Hl. unfold strip.
  assert (∀ l, Forall (λ c, is_space c = false) l → strip_left l = l) as Hleft.
  { intros l' Hl'. destruct Hl' as [|c l' Hc _]; [done|]. cbn. by rewrite Hc. }
  rewrite (Hleft l Hl), Hleft by by apply Forall_reverse.
  apply reverse_involutive.
Qed.

(** [int(str(z))] gives [z] back. *)
Lemma int_of_pretty z : int_of (pretty z) = Some z.
Proof.
  assert (∀ p, ∃ cs, String.list_ascii_of_string (pretty (Npos p)) = cs
    ∧ Forall (λ c, is_digit c = true) cs ∧ cs ≠ []
    ∧ digits_value (map digit_of cs) = Npos p) as Hpos.
  { intros p. unfold pretty, pretty_N. rewrite decide_False by done.
    destruct (pretty_N_go_digits (Npos p) "") as (cs & Hcs & Hds & Hval & Hne).
    exists cs. cbn in Hcs. rewrite app_nil_r in Hcs. repeat split; [done..|by apply Hne|].
    unfold digits_value. rewrite Hval. lia. }
  assert (∀ cs, Forall (λ c, is_digit c = true) cs → Forall (λ c, is_space c = false) cs)
    as Hns.
  { intros cs Hcs. eapply Forall_impl; [exact Hcs|]. intros c Hc. by apply digit_not_special. }
  destruct z as [|p|p]; [done|..].
  - destruct (Hpos p) as (cs & Hcs & Hds & Hne & Hval).
    unfold int_of. change (pretty (Z.pos p)) with (pretty (Npos p)).
    rewrite Hcs, strip_no_space by by apply Hns.
    destruct Hds as [|c cs Hc Hds]; [done|].
    destruct (digit_not_special c Hc) as (_ & Hm & Hp).
    unfold sign. rewrite Hm, Hp. unfold digitpart. cbn [starts_with_digit]. rewrite Hc.
    rewrite digits_tail_digits by by constructor.
    rewrite Hval. done.
  - destruct (Hpos p) as (cs & Hcs & Hds & Hne & Hval).
    unfold int_of. change (pretty (Z.neg p)) with (String "-" (pretty (Npos p))).
    cbn [String.list_ascii_of_string]. rewrite Hcs.
    rewrite strip_no_space by (constructor; [done|by apply Hns]).
    cbn [sign]. change (is_char 45 "-") with true. cbv iota.
    destruct Hds as [|c cs Hc Hds]; [done|].
    unfold digitpart. cbn [starts_with_digit]. rewrite Hc.
    rewrite digits_tail_digits by by constructor.
    rewrite Hval. done.
Qed.

End DigitFacts.

(** ** The global settings dialog *)

Module GlobalFacts.
Import Connect Global MonitorFacts ConnectFacts DigitFacts.

(** *** Records as insertion-ordered dictionaries *)

Lemma dict_set_keys {A} k (v : A) d :
  map fst (dict_set k v d)
  = if bool_decide (k ∈ map fst d) then map fst d else map fst d ++ [k].
Proof.
  induction d as [|[n e] d IH]; [done|]. cbn.
  destruct (String.eqb n k) eqn:Heq.
  - apply String.eqb_eq in Heq as ->. rewrite bool_decide_eq_true_2 by left. done.
  - apply String.eqb_neq in Heq. cbn. rewrite IH.
    destruct (decide (k ∈ map fst d)) as [Hin|Hin].
    + rewrite !bool_decide_eq_true_2; [done| |done]. by right.
    + rewrite !bool_decide_eq_false_2; [done| |done].
      intros [->|?]%elem_of_cons; done.
Qed.

Lemma dict_set_mid {A} k (v old : A) pre b :
  k ∉ map fst pre → dict_set k v (pre ++ (k, old) :: b) = pre ++ (k, v) :: b.
Proof.
  induction pre as [|[n e] pre IH]; intros Hk; cbn.
  - by rewrite String.eqb_refl.
  - cbn in Hk. apply not_elem_of_cons in Hk as [Hne Hk].
    destruct (String.eqb n k) eqn:Heq; [by apply String.eqb_eq in Heq|].
    by rewrite IH.
Qed.

(** Entries with new keys are appended in order. *)
Lemma dict_fold_fresh {A} (m acc : list (string * A)) :
  NoDup (map fst (acc ++ m)) →
  foldl (λ d p, dict_set p.1 p.2 d) acc m = acc ++ m.
Proof.
  revert acc. induction m as [|[k v] m IH]; intros acc Hnd; cbn.
  - by rewrite app_nil_r.
  - rewrite dict_set_fresh.
    + rewrite IH; rewrite <- app_assoc; done.
    + rewrite map_app in Hnd. apply NoDup_app in Hnd as (_ & Hdis & _).
      intros Hin. apply (Hdis k Hin). left.
Qed.

(** Entries with the keys of the dictionary, in its order, replace it. *)
Lemma dict_fold_over {A} (m pre b : list (string * A)) :
  map fst m = map fst b → NoDup (map fst pre ++ map fst m) →
  foldl (λ d p, dict_set p.1 p.2 d) (pre ++ b) m = pre ++ m.
Proof.
  revert pre b. induction m as [|[k v] m IH]; intros pre b Hkeys Hnd.
  - destruct b; [done|discriminate].
  - destruct b as [|[k' old] b]; [discriminate|]. cbn in Hkeys.
    injection Hkeys as <- Hkeys. cbn [foldl fst snd].
    rewrite dict_set_mid.
    + rewrite (cons_middle _ pre b), app_assoc, IH; [by rewrite <- app_assoc|done|].
      rewrite map_app, <- app_assoc. done.
    + apply NoDup_app in Hnd as (_ & Hdis & _). intros Hin. apply (Hdis k Hin). left.
Qed.

Lemma dict_update_keys (other base : record) :
  ∃ ext, map fst (dict_update base other) = map fst base ++ ext
         ∧ (NoDup (map fst base) → NoDup (map fst base ++ ext)).
Proof.
  unfold dict_update. revert base. induction other as [|[k v] other IH]; intros base.
  - exists []. rewrite app_nil_r. done.
  - cbn [foldl fst snd]. destruct (IH (dict_set k v base)) as (ext & Hkeys & Hnd).
    rewrite dict_set_keys in Hkeys, Hnd.
    destruct (decide (k ∈ map fst base)) as [Hin|Hin].
    + rewrite bool_decide_eq_true_2 in Hkeys, Hnd by done. by exists ext.
    + rewrite bool_decide_eq_false_2 in Hkeys, Hnd by done.
      exists (k :: ext). rewrite (cons_middle k), app_assoc. split; [done|].
      intros Hb. apply Hnd. apply NoDup_app. repeat split; [done| |apply NoDup_singleton].
      intros x Hx ->%list_elem_of_singleton. done.
Qed.

(** Overlaying the same defaults a second time changes nothing. *)
Lemma dict_update_absorb (base other : record) :
  NoDup (map fst base) →
  dict_update base (dict_update base other) = dict_update base other.
Proof.
  intros Hb. destruct (dict_update_keys other base) as (ext & Hkeys & Hnd).
  specialize (Hnd Hb). set (m := dict_update base other) in *.
  rewrite <- (take_drop (length base) m) at 1 2.
  assert (map fst (take (length base) m) = map fst base) as Htake.
  { change (map fst ?l) with (fst <$> l). rewrite fmap_take.
    change (fst <$> ?l) with (map fst l). rewrite Hkeys.
    rewrite take_app_length'; [done|by rewrite length_map]. }
  assert (NoDup (map fst (take (length base) m ++ drop (length base) m))) as Hm.
  { rewrite take_drop, Hkeys. done. }
  unfold dict_update at 1. rewrite foldl_app.
  pose proof (dict_fold_over _ [] base Htake) as Hover. cbn [app map] in Hover.
  rewrite Hover.
  - by apply dict_fold_fresh.
  - rewrite map_app in Hm. by apply NoDup_app in Hm as (? & _).
Qed.

Lemma dict_update_NoDup (base other : record) :
  NoDup (map fst base) → NoDup (map fst (dict_update base other)).
Proof.
  intros Hb. destruct (dict_update_keys other base) as (ext & -> & Hnd). auto.
Qed.

(** *** The settings form *)

Lemma init_loop_run (m : record) : ∀ s : Global.State,
  for_each m (λ '(field_name, field_value),
    modify (λ s, {| Global.widgets := dict_set field_name (jstr field_value, type_of field_value)
                                               (Global.widgets s);
                    Global.files := Global.files s; boxes := boxes s;
                    Global.accepted := Global.accepted s |})) s
  = (Return tt,
     {| Global.widgets := foldl (λ d p, dict_set p.1 p.2 d) (Global.widgets s)
                            (map (λ p, (p.1, (jstr p.2, type_of p.2))) m);
        Global.files := Global.files s; boxes := boxes s;
        Global.accepted := Global.accepted s |}).
Proof.
  induction m as [|[k v] m IH]; intros s; [by destruct s|].
  cbn [for_each]. rewrite bind_eq. cbn [modify]. rewrite IH. done.
Qed.

Lemma global_dialog_widgets SETTINGS F fs :
  NoDup (map fst SETTINGS) →
  Global.open_dialog SETTINGS F fs
  = {| Global.widgets := map (λ p, (p.1, (jstr p.2, type_of p.2))) (shown_settings SETTINGS F fs);
       Global.files := fs; boxes := 0; Global.accepted := false |}.
Proof.
  intros Hnd. unfold Global.open_dialog, Global.init_ui. rewrite bind_eq. cbn [get].
  rewrite init_loop_run. cbn [snd Global.widgets Global.files boxes Global.accepted].
  f_equal. rewrite dict_fold_fresh; [done|]. cbn [app].
  rewrite map_map. cbn [fst]. by apply dict_update_NoDup.
Qed.

Lemma convert_round v (s : Global.State) : convert (type_of v) (jstr v) s = (Return v, s).
Proof.
  destruct v as [t|[]|z]; cbn; try done. by rewrite int_of_pretty.
Qed.

Lemma update_loop_round (m : record) : ∀ acc (s : Global.State),
  update_loop (map (λ p, (p.1, (jstr p.2, type_of p.2))) m) acc s
  = (Return (dict_update acc m), s).
Proof.
  induction m as [|[k v] m IH]; intros acc s; [done|].
  cbn [map update_loop fst snd]. rewrite bind_eq, convert_round. by rewrite IH.
Qed.

(** The first integer field that does not read as an integer stops the
    loop. *)
Lemma update_loop_raises ws : ∀ acc (s : Global.State),
  Exists (λ w, w.2.2 = Tint ∧ int_of w.2.1 = None) ws →
  ∃ w, w ∈ ws ∧ w.2.2 = Tint ∧ int_of w.2.1 = None
       ∧ update_loop ws acc s = (Raise (ValueError w.2.1), s).
Proof.
  induction ws as [|[name [text t]] ws IH]; intros acc s Hex; [by apply Exists_nil in Hex|].
  cbn [update_loop]. rewrite bind_eq.
  destruct t; cbn [convert].
  - apply Exists_cons in Hex as [[? _]|Hex]; [done|].
    destruct (IH (dict_set name (JStr text) acc) s Hex) as (w & Hin & ? & ? & Hrun).
    exists w. repeat split; [by right|done..].
  - apply Exists_cons in Hex as [[? _]|Hex]; [done|].
    destruct (String.eqb text "True");
      [destruct (IH (dict_set name (JBool true) acc) s Hex) as (w & Hin & ? & ? & Hrun)
      |destruct (IH (dict_set name (JBool false) acc) s Hex) as (w & Hin & ? & ? & Hrun)];
      exists w; (repeat split; [by right|done..]).
  - destruct (int_of text) as [z|] eqn:Hint.
    + apply Exists_cons in Hex as [[_ Hbad]|Hex]; [cbn in Hbad; congruence|].
      destruct (IH (dict_set name (JNum z) acc) s Hex) as (w & Hin & ? & ? & Hrun).
      exists w. repeat split; [by right|done..].
    + exists (name, (text, Tint)). repeat split; [left|done].
Qed.

(** With every integer field readable, the loop gives one entry per
    field, in the order of the form. *)
Lemma update_loop_saved ws : ∀ acc (s : Global.State),
  NoDup (map fst acc ++ map fst ws) →
  Forall (λ w, w.2.2 = Tint → is_Some (int_of w.2.1)) ws →
  ∃ r, update_loop ws acc s = (Return (acc ++ r), s)
       ∧ map fst r = map fst ws
       ∧ ∀ name text,
           ((name, (text, Tbool)) ∈ ws → (name, JBool (String.eqb text "True")) ∈ r)
           ∧ ((name, (text, Tstr)) ∈ ws → (name, JStr text) ∈ r)
           ∧ ((name, (text, Tint)) ∈ ws → ∃ z, int_of text = Some z ∧ (name, JNum z) ∈ r).
Proof.
  induction ws as [|[name [text t]] ws IH]; intros acc s Hnd Hok.
  - exists []. rewrite app_nil_r. repeat split; by intros ?%elem_of_nil.
  - apply Forall_cons in Hok as [Hhead Hok]. cbn [fst snd] in Hhead.
    assert (name ∉ map fst acc) as Hfresh.
    { apply NoDup_app in Hnd as (_ & Hdis & _). intros Hin. apply (Hdis _ Hin). left. }
    assert (∀ v, NoDup (map fst (acc ++ [(name, v : jvalue)]) ++ map fst ws)) as Hnd'.
    { intros v. rewrite map_app, <- app_assoc. done. }
    assert (∃ v, convert t text s = (Return v, s)
      ∧ match t with
        | Tbool => v = JBool (String.eqb text "True")
        | Tstr => v = JStr text
        | Tint => ∃ z, int_of text = Some z ∧ v = JNum z
        end) as (v & Hconv & Hv).
    { destruct t; cbn [convert].
      - by eexists.
      - destruct (String.eqb text "True"); by eexists.
      - destruct (Hhead eq_refl) as [z Hz]. rewrite Hz. exists (JNum z). split; [done|eauto]. }
    cbn [update_loop]. rewrite bind_eq, Hconv, dict_set_fresh by done.
    destruct (IH (acc ++ [(name, v)]) s (Hnd' v) Hok) as (r & Hrun & Hkeys & Hr).
    exists ((name, v) :: r). rewrite Hrun, <- app_assoc. split; [done|].
    split; [cbn; by rewrite Hkeys|].
    intros name' text'. destruct (Hr name' text') as (Hb & Hs & Hi).
    repeat split; intros [[= -> -> Ht]|Hin]%elem_of_cons.
    + subst t. subst v. left.
    + right. auto.
    + subst t. subst v. left.
    + right. auto.
    + subst t. destruct Hv as (z & Hz & ->). exists z. split; [done|left].
    + destruct (Hi Hin) as (z & Hz & Hin'). exists z. split; [done|by right].
Qed.

Lemma update_setting_run F (s : Global.State) r :
  update_loop (Global.widgets s) [] s = (Return r, s) →
  update_setting F s
  = (Return tt, {| Global.widgets := Global.widgets s; Global.files := <[F := r]> (Global.files s);
                   boxes := S (boxes s); Global.accepted := true |}).
Proof.
  intros Hrun. unfold update_setting. rewrite bind_eq. cbn [get]. rewrite bind_eq, Hrun. done.
Qed.

(** X14: confirming the global settings dialog without editing it writes
    the settings it showed, the defaults overlaid by the settings file,
    with one information box, and accepts the dialog; a dialog opened
    afterwards shows the same form. *)
Theorem X14_unedited_settings_round_trip SETTINGS F fs :
  NoDup (map fst SETTINGS) →
  let s := Global.open_dialog SETTINGS F fs in
  let r := update_setting F s in
  r.1 = Return tt
  ∧ load_json F (Global.files r.2) = shown_settings SETTINGS F fs
  ∧ boxes r.2 = 1%nat
  ∧ Global.accepted r.2 = true
  ∧ Global.widgets (Global.open_dialog SETTINGS F (Global.files r.2)) = Global.widgets s.
Proof.
  intros Hnd s r. subst s r. rewrite (global_dialog_widgets _ _ _ Hnd).
  erewrite update_setting_run by apply update_loop_round.
  cbn [fst snd Global.files Global.widgets boxes Global.accepted].
  assert (load_json F (<[F := dict_update [] (shown_settings SETTINGS F fs)]> fs)
          = shown_settings SETTINGS F fs) as Hload.
  { unfold load_json. rewrite lookup_insert_eq. cbn [default].
    unfold dict_update at 1. apply (dict_fold_fresh _ []). cbn [app].
    by apply dict_update_NoDup. }
  repeat split; [done|].
  rewrite (global_dialog_widgets _ _ _ Hnd). cbn [Global.widgets]. f_equal.
  unfold shown_settings at 1. rewrite Hload. by apply dict_update_absorb.
Qed.

Lemma X14_unedited_settings_round_trip_witness :
  let s := Global.open_dialog sample_SETTINGS "vt_setting.json" sample_settings_file in
  let r := update_setting "vt_setting.json" s in
  r.1 = Return tt
  ∧ load_json "vt_setting.json" (Global.files r.2)
    = shown_settings sample_SETTINGS "vt_setting.json" sample_settings_file
  ∧ boxes r.2 = 1%nat
  ∧ Global.accepted r.2 = true
  ∧ Global.widgets (Global.open_dialog sample_SETTINGS "vt_setting.json" (Global.files r.2))
    = Global.widgets s.
Proof.
  apply (X14_unedited_settings_round_trip sample_SETTINGS "vt_setting.json"
           sample_settings_file).
  apply (bool_decide_unpack _). vm_compute. exact I.
Defined.

(** X15: when the integer settings hold short ASCII texts and one of them
    does not read as an integer, confirming the dialog raises ValueError
    for the first such field and leaves everything as it was: no
    information box, nothing written, the dialog not accepted. *)
Theorem X15_unreadable_integer_saves_nothing F (s : Global.State) :
  Forall (λ w, w.2.2 = Tint → short_ascii w.2.1 = true) (Global.widgets s) →
  Exists (λ w, w.2.2 = Tint ∧ int_of w.2.1 = None) (Global.widgets s) →
  ∃ w, w ∈ Global.widgets s ∧ w.2.2 = Tint ∧ int_of w.2.1 = None
       ∧ update_setting F s = (Raise (ValueError w.2.1), s).
Proof.
  intros _ Hex. destruct (update_loop_raises _ [] s Hex) as (w & Hin & Ht & Hbad & Hrun).
  exists w. repeat split; [done..|].
  unfold update_setting. rewrite bind_eq. cbn [get]. by rewrite bind_eq, Hrun.
Qed.

Lemma X15_unreadable_integer_saves_nothing_witness :
  let s := Global.set_text "font.size" "12.5"
             (Global.open_dialog sample_SETTINGS "vt_setting.json" sample_settings_file) in
  ∃ w, w ∈ Global.widgets s ∧ w.2.2 = Tint ∧ int_of w.2.1 = None
       ∧ update_setting "vt_setting.json" s = (Raise (ValueError w.2.1), s).
Proof.
  apply (X15_unreadable_integer_saves_nothing "vt_setting.json").
  - apply (bool_decide_unpack _). vm_compute. exact I.
  - apply (bool_decide_unpack _). vm_compute. exact I.
Defined.

(** X16: with every integer field holding a short ASCII text that reads
    as an integer, confirming the dialog writes one entry per field, in
    the order of the form: a boolean setting is saved as True exactly
    when its text is [True], and as False for any other text; a string
    setting is saved as typed; an integer setting as the integer read. *)
Theorem X16_saved_value_of_each_field F (s : Global.State) :
  NoDup (map fst (Global.widgets s)) →
  Forall (λ w, w.2.2 = Tint → short_ascii w.2.1 = true ∧ is_Some (int_of w.2.1))
         (Global.widgets s) →
  ∃ r, update_setting F s
       = (Return tt, {| Global.widgets := Global.widgets s;
                        Global.files := <[F := r]> (Global.files s);
                        boxes := S (boxes s); Global.accepted := true |})
       ∧ map fst r = map fst (Global.widgets s)
       ∧ ∀ name text,
           ((name, (text, Tbool)) ∈ Global.widgets s →
              assoc name r = Some (JBool (String.eqb text "True")))
           ∧ ((name, (text, Tstr)) ∈ Global.widgets s → assoc name r = Some (JStr text))
           ∧ ((name, (text, Tint)) ∈ Global.widgets s →
              JNum <$> int_of text = assoc name r).
Proof.
  intros Hnd Hok.
  assert (Forall (λ w, w.2.2 = Tint → is_Some (int_of w.2.1)) (Global.widgets s)) as Hok'.
  { eapply Forall_impl; [exact Hok|]. intros w Hw Ht. by apply Hw. }
  destruct (update_loop_saved _ [] s Hnd Hok') as (r & Hrun & Hkeys & Hr).
  exists r. split; [by apply update_setting_run|]. split; [done|].
  assert (NoDup (map fst r)) as Hndr by by rewrite Hkeys.
  intros name text. destruct (Hr name text) as (Hb & Hs & Hi).
  repeat split; intros Hin.
  - by apply assoc_lookup, Hb.
  - by apply assoc_lookup, Hs.
  - destruct (Hi Hin) as (z & -> & Hin'). symmetry. by apply assoc_lookup.
Qed.

Lemma X16_saved_value_of_each_field_witness :
  let s := Global.set_text "log.active" "true"
             (Global.open_dialog sample_SETTINGS "vt_setting.json" sample_settings_file) in
  ∃ r, update_setting "vt_setting.json" s
       = (Return tt, {| Global.widgets := Global.widgets s;
                        Global.files := <["vt_setting.json" := r]> (Global.files s);
                        boxes := S (boxes s); Global.accepted := true |})
       ∧ map fst r = map fst (Global.widgets s)
       ∧ ∀ name text,
           ((name, (text, Tbool)) ∈ Global.widgets s →
              assoc name r = Some (JBool (String.eqb text "True")))
           ∧ ((name, (text, Tstr)) ∈ Global.widgets s → assoc name r = Some (JStr text))
           ∧ ((name, (text, Tint)) ∈ Global.widgets s →
              JNum <$> int_of text = assoc name r).
Proof.
  apply (X16_saved_value_of_each_field "vt_setting.json").
  - apply (bool_decide_unpack _). vm_compute. exact I.
  - apply (bool_decide_unpack _). vm_compute. exact I.
Defined.

End GlobalFacts.

(** ** The inputs of the trading widget *)

Module FormFacts.
Import PyFloat Form MonitorFacts.

(** *** Combo boxes *)

Lemma find_text_Some l text i : find_text l text = Some i → l !! i = Some text.
Proof.
  revert i. induction l as [|item l IH]; intros i; [done|]. cbn.
  destruct (String.eqb item text) eqn:Heq.
  - intros [= <-]. by apply String.eqb_eq in Heq as ->.
  - destruct (find_text l text) as [j|]; [|done]. intros [= <-]. by apply IH.
Qed.

Lemma find_text_None l text : find_text l text = None ↔ text ∉ l.
Proof.
  induction l as [|item l IH]; cbn.
  - split; [intros _ ?%elem_of_nil; done|done].
  - destruct (String.eqb item text) eqn:Heq.
    + apply String.eqb_eq in Heq as ->. split; [done|]. intros []. left.
    + apply String.eqb_neq in Heq. rewrite not_elem_of_cons, <- IH.
      destruct (find_text l text); cbn; naive_solver.
Qed.

(** Selecting a text shows it when it is an item, and nothing otherwise. *)
Lemma currentText_select text c :
  currentText (select text c) = if bool_decide (text ∈ items c) then text else "".
Proof.
  unfold select, currentText, setCurrentIndex, findText. cbn.
  destruct (find_text (items c) text) as [i|] eqn:Hfind.
  - rewrite (find_text_Some _ _ _ Hfind). cbn.
    rewrite bool_decide_eq_true_2; [done|]. eapply list_elem_of_lookup_2, find_text_Some, Hfind.
  - rewrite bool_decide_eq_false_2; [done|]. by apply find_text_None.
Qed.

(** *** The depth labels *)

Lemma for_each_modify {St A} (h : A → St → St) (l : list A) : ∀ s : St,
  for_each l (λ x, modify (h x)) s = (Return tt, foldl (λ s x, h x s) s l).
Proof.
  induction l as [|x l IH]; intros s; [done|].
  cbn [for_each]. rewrite bind_eq. cbn [modify]. by rewrite IH.
Qed.

Lemma on_labels_fold (l : list string) : ∀ w,
  foldl (λ w x, on_labels <[x := ""]> w) w l
  = on_labels (λ m, foldl (λ m x, <[x := ""]> m) m l) w.
Proof.
  induction l as [|x l IH]; intros w; [by destruct w|].
  cbn [foldl]. by rewrite IH.
Qed.

Lemma clear_label_text_run w :
  clear_label_text w
  = (Return tt, on_labels (λ m, foldl (λ m x, <[x := ""]> m) m label_names) w).
Proof. unfold clear_label_text. by rewrite for_each_modify, on_labels_fold. Qed.

Lemma cleared_labels (l : list string) (m : gmap string string) x :
  x ∈ l → foldl (λ m x, <[x := ""]> m) m l !! x = Some "".
Proof.
  revert m. induction l as [|y l IH]; intros m Hin; [by apply elem_of_nil in Hin|].
  cbn [foldl]. destruct (decide (x ∈ l)) as [Hl|Hl]; [by apply IH|].
  apply elem_of_cons in Hin as [->|?]; [|done].
  clear IH. revert m. induction l as [|z l IH]; intros m; cbn [foldl].
  - by rewrite lookup_insert_eq.
  - apply not_elem_of_cons in Hl as [Hne Hl]. rewrite insert_insert_ne by done. by apply IH.
Qed.

Section WithEngine.
Variable E : Trading.Enums.
Variable get_contract : string → option ContractData.
Variable get_digits : pyfloat → Z.

(** The widget after [set_vt_symbol] met a new symbol, up to the
    subscription. *)
Lemma set_vt_symbol_changed w :
  symbol_line w ≠ "" →
  symbol_line w +:+ "." +:+ currentText (exchange_combo w) ≠ vt_symbol w →
  ∃ w', set_vt_symbol E get_contract get_digits w
        = (if bool_decide (currentText (exchange_combo w) ∈ Trading.Exchange_values E)
           then Return tt else Raise (ValueError (currentText (exchange_combo w))), w')
    ∧ vt_symbol w' = symbol_line w +:+ "." +:+ currentText (exchange_combo w)
    ∧ symbol_line w' = symbol_line w
    ∧ exchange_combo w' = exchange_combo w
    ∧ direction_combo w' = direction_combo w
    ∧ offset_combo w' = offset_combo w
    ∧ order_type_combo w' = order_type_combo w
    ∧ volume_line w' = ""
    ∧ price_line w' = ""
    ∧ labels w' = foldl (λ m x, <[x := ""]> m) (labels w) label_names
    ∧ name_line w'
      = match get_contract (symbol_line w +:+ "." +:+ currentText (exchange_combo w)) with
        | Some contract => name contract
        | None => ""
        end
    ∧ gateway_combo w'
      = match get_contract (symbol_line w +:+ "." +:+ currentText (exchange_combo w)) with
        | Some contract => select (gateway_name contract) (gateway_combo w)
        | None => gateway_combo w
        end
    ∧ subscribed w'
      = subscribed w ++
        (if bool_decide (currentText (exchange_combo w) ∈ Trading.Exchange_values E)
         then [({| sub_symbol := symbol_line w;
                   sub_exchange := currentText (exchange_combo w) |},
                match get_contract (symbol_line w +:+ "." +:+ currentText (exchange_combo w)) with
                | Some contract => gateway_name contract
                | None => currentText (gateway_combo w)
                end)]
         else []).
Proof.
  intros Hsym Hvt. apply String.eqb_neq in Hsym, Hvt.
  unfold set_vt_symbol. rewrite bind_eq. cbn [get]. rewrite Hsym, Hvt.
  rewrite bind_eq. cbn [modify].
  destruct (get_contract _) as [contract|];
    repeat (rewrite bind_eq; cbn [modify get ret]);
    rewrite clear_label_text_run;
    repeat (rewrite bind_eq; cbn [modify get ret]);
    unfold Exchange;
    (destruct (bool_decide (currentText (exchange_combo w) ∈ Trading.Exchange_values E));
     cbn [ret raise main_engine_subscribe modify]);
    eexists; (split; [reflexivity|]); cbn [vt_symbol symbol_line exchange_combo direction_combo
      offset_combo order_type_combo volume_line price_line labels name_line gateway_combo
      subscribed set_price_line set_volume_line on_labels set_price_digits on_gateway_combo
      set_name_line set_vt_symbol_attr]; rewrite ?app_nil_r; done.
Qed.

(** X17: entering the same symbol and exchange again does nothing: the
    second call of [set_vt_symbol] returns at once and leaves the widget
    as it is.  This also holds after a call that raised ValueError for the
    exchange: the call had already stored the new vt_symbol, so the
    subscription it did not make is not made by trying again. *)
Theorem X17_symbol_entered_again_is_ignored (w : Widget) :
  let r := set_vt_symbol E get_contract get_digits w in
  set_vt_symbol E get_contract get_digits r.2 = (Return tt, r.2)
  ∧ (∀ e, r.1 = Raise e → subscribed r.2 = subscribed w).
Proof.
  intros r. subst r.
  destruct (String.eqb (symbol_line w) "") eqn:Hsym.
  { assert (set_vt_symbol E get_contract get_digits w = (Return tt, w)) as Hrun.
    { unfold set_vt_symbol. rewrite bind_eq. cbn [get]. by rewrite Hsym. }
    rewrite Hrun. cbn [fst snd]. rewrite Hrun. done. }
  destruct (String.eqb (symbol_line w +:+ "." +:+ currentText (exchange_combo w))
              (vt_symbol w)) eqn:Hvt.
  { assert (set_vt_symbol E get_contract get_digits w = (Return tt, w)) as Hrun.
    { unfold set_vt_symbol. rewrite bind_eq. cbn [get]. by rewrite Hsym, Hvt. }
    rewrite Hrun. cbn [fst snd]. rewrite Hrun. done. }
  apply String.eqb_neq in Hsym, Hvt.
  destruct (set_vt_symbol_changed w Hsym Hvt)
    as (w' & Hrun & Hvt' & Hsym' & Hex' & _ & _ & _ & _ & _ & _ & _ & _ & Hsub).
  rewrite Hrun. cbn [fst snd]. split.
  - unfold set_vt_symbol. rewrite bind_eq. cbn [get].
    rewrite Hsym', Hex', Hvt', String.eqb_refl.
    apply String.eqb_neq in Hsym. by rewrite Hsym.
  - intros e He. destruct (bool_decide _); [done|]. by rewrite app_nil_r in Hsub.
Qed.

Variable Direction_value : Direction → string.
Variable Offset_CLOSE_value : string.
Variable float_str : pyfloat → string.

(** X18: when [set_vt_symbol] meets a symbol that is not empty, with an
    exchange text that is a member of Exchange and a vt_symbol other than
    the current one, it subscribes exactly once, with the symbol and the
    exchange, at the gateway of the contract the registry knows under the
    vt_symbol, and at the gateway shown in the combo box when there is no
    such contract.  The gateway combo box then shows the contract's
    gateway if it is one of its items and nothing otherwise; the price and
    volume fields and every depth label are emptied. *)
Theorem X18_new_symbol_subscribes_once (w : Widget) :
  symbol_line w ≠ "" →
  symbol_line w +:+ "." +:+ currentText (exchange_combo w) ≠ vt_symbol w →
  currentText (exchange_combo w) ∈ Trading.Exchange_values E →
  let contract := get_contract (symbol_line w +:+ "." +:+ currentText (exchange_combo w)) in
  let r := set_vt_symbol E get_contract get_digits w in
  r.1 = Return tt
  ∧ subscribed r.2
    = subscribed w ++
      [({| sub_symbol := symbol_line w; sub_exchange := currentText (exchange_combo w) |},
        match contract with
        | Some c => gateway_name c
        | None => currentText (gateway_combo w)
        end)]
  ∧ currentText (gateway_combo r.2)
    = match contract with
      | Some c => if bool_decide (gateway_name c ∈ items (gateway_combo w))
                  then gateway_name c else ""
      | None => currentText (gateway_combo w)
      end
  ∧ name_line r.2 = match contract with Some c => name c | None => "" end
  ∧ price_line r.2 = ""
  ∧ volume_line r.2 = ""
  ∧ ∀ label, label ∈ label_names → labels r.2 !! label = Some "".
Proof.
  intros Hsym Hvt Hex contract r. subst r contract.
  destruct (set_vt_symbol_changed w Hsym Hvt)
    as (w' & Hrun & _ & _ & _ & _ & _ & _ & Hvol & Hprice & Hlab & Hname & Hgw & Hsub).
  rewrite Hrun. cbn [fst snd]. rewrite bool_decide_eq_true_2 in Hsub |- * by done.
  repeat split; try done.
  - rewrite Hgw. destruct (get_contract _); [apply currentText_select|done].
  - intros label Hin. rewrite Hlab. by apply cleared_labels.
Qed.

Lemma send_order_runs (i : Trading.Inputs) (world : Trading.World) volume :
  Trading.symbol_line i ≠ "" →
  PyFloat.float_of (Trading.volume_line i) = Some volume →
  Trading.price_line i = "" →
  Trading.exchange_combo i ∈ Trading.Exchange_values E →
  Trading.direction_combo i ∈ Trading.Direction_values E →
  Trading.order_type_combo i ∈ Trading.OrderType_values E →
  Trading.offset_combo i ∈ Trading.Offset_values E →
  Trading.send_order E i world
  = (Return tt,
     {| Trading.oms_orders := Trading.oms_orders world;
        Trading.effects := Trading.effects world ++
          [Trading.Send_order
             {| Trading.req_symbol := Trading.symbol_line i;
                Trading.req_exchange := Trading.exchange_combo i;
                Trading.req_direction := Trading.direction_combo i;
                Trading.req_type := Trading.order_type_combo i;
                Trading.req_volume := volume; Trading.req_price := zero;
                Trading.req_offset := Trading.offset_combo i;
                Trading.req_reference := "ManualTrading" |}
             (Trading.gateway_combo i)] |}).
Proof.
  intros Hs Hvol Hprice Hex Hdir Hty Hoff. unfold Trading.send_order.
  assert (Trading.volume_line i ≠ "") as Hv by (by intros Hv; rewrite Hv in Hvol).
  apply String.eqb_neq in Hs, Hv. rewrite Hs, Hv, Hprice. cbn [String.eqb].
  unfold Trading.float. rewrite Hvol. unfold Trading.enum_of.
  rewrite !bool_decide_eq_true_2 by done. reflexivity.
Qed.

(** X19: a double click on a position of another contract than the one
    in the widget, followed by the send button, sends the order that
    closes the position: the position's symbol and exchange, the opposite
    direction (for a net position: short when the volume is positive,
    long otherwise), offset CLOSE and the absolute volume as [float] reads
    it back from its [str].  The price is 0, the price field having been
    emptied, and the order type is the one the combo box showed before. *)
Theorem X19_position_click_then_send_closes_it (w : Widget) (p : PositionData)
    (world : Trading.World) (f : pyfloat) :
  pos_symbol p ≠ "" →
  pos_symbol p +:+ "." +:+ pos_exchange p ≠ vt_symbol w →
  pos_exchange p ∈ items (exchange_combo w) →
  pos_exchange p ∈ Trading.Exchange_values E →
  Direction_value (closing_direction p) ∈ items (direction_combo w) →
  Direction_value (closing_direction p) ∈ Trading.Direction_values E →
  Offset_CLOSE_value ∈ items (offset_combo w) →
  Offset_CLOSE_value ∈ Trading.Offset_values E →
  currentText (order_type_combo w) ∈ Trading.OrderType_values E →
  float_of (float_str (fabs (volume p))) = Some f →
  let r := update_with_cell E get_contract get_digits Direction_value Offset_CLOSE_value
      float_str (Position p) w in
  r.1 = Return tt
  ∧ Trading.send_order E (inputs_of r.2) world
    = (Return tt,
       {| Trading.oms_orders := Trading.oms_orders world;
          Trading.effects := Trading.effects world ++
            [Trading.Send_order
               {| Trading.req_symbol := pos_symbol p;
                  Trading.req_exchange := pos_exchange p;
                  Trading.req_direction := Direction_value (closing_direction p);
                  Trading.req_type := currentText (order_type_combo w);
                  Trading.req_volume := f; Trading.req_price := zero;
                  Trading.req_offset := Offset_CLOSE_value;
                  Trading.req_reference := "ManualTrading" |}
               match get_contract (pos_symbol p +:+ "." +:+ pos_exchange p) with
               | Some c => if bool_decide (gateway_name c ∈ items (gateway_combo w))
                           then gateway_name c else ""
               | None => currentText (gateway_combo w)
               end] |}).
Proof.
  intros Hsym Hvt Hexi Hexv Hdiri Hdirv Hoffi Hoffv Hty Hvol r. subst r.
  set (w1 := on_exchange_combo (select (pos_exchange p)) (set_symbol_line (pos_symbol p) w)).
  assert (currentText (exchange_combo w1) = pos_exchange p) as Hex1.
  { subst w1. cbn [exchange_combo on_exchange_combo set_symbol_line].
    by rewrite currentText_select, bool_decide_eq_true_2. }
  destruct (set_vt_symbol_changed w1) as (w' & Hrun & _ & Hsym' & Hex' & Hdir' & Hoff'
      & Hty' & _ & Hprice' & _ & _ & Hgw' & _); [done|by rewrite Hex1|].
  rewrite Hex1, bool_decide_eq_true_2 in Hrun by done.
  assert (currentText (gateway_combo w')
          = match get_contract (pos_symbol p +:+ "." +:+ pos_exchange p) with
            | Some c => if bool_decide (gateway_name c ∈ items (gateway_combo w))
                        then gateway_name c else ""
            | None => currentText (gateway_combo w)
            end) as Hgwt.
  { rewrite Hgw', Hex1. subst w1.
    cbn [symbol_line gateway_combo on_exchange_combo set_symbol_line].
    destruct (get_contract (pos_symbol p +:+ "." +:+ pos_exchange p));
      [apply currentText_select|done]. }
  assert (update_with_cell E get_contract get_digits Direction_value Offset_CLOSE_value
      float_str (Position p) w
          = (Return tt, set_volume_line (float_str (fabs (volume p)))
                          (on_offset_combo (select Offset_CLOSE_value)
                             (on_direction_combo
                                (select (Direction_value (closing_direction p))) w')))) as Hcell.
  { unfold update_with_cell.
    repeat (rewrite bind_eq; cbn [modify data_symbol data_exchange]).
    change (on_exchange_combo _ (set_symbol_line _ w)) with w1.
    rewrite Hrun. by repeat (rewrite bind_eq; cbn [modify]). }
  rewrite Hcell. cbn [fst snd]. split; [done|].
  rewrite (send_order_runs _ world f); cbn [inputs_of Trading.symbol_line Trading.volume_line
    Trading.price_line Trading.exchange_combo Trading.direction_combo Trading.order_type_combo
    Trading.offset_combo Trading.gateway_combo symbol_line volume_line price_line
    exchange_combo direction_combo offset_combo order_type_combo gateway_combo
    set_volume_line on_offset_combo on_direction_combo];
    rewrite ?Hgwt, ?Hsym', ?Hex', ?Hex1, ?Hdir', ?Hoff', ?Hty', ?currentText_select,
      ?bool_decide_eq_true_2 by done; done.
Qed.

End WithEngine.

Lemma X18_new_symbol_subscribes_once_witness :
  let w := sample_widget in
  let contract := sample_contracts (symbol_line w +:+ "." +:+ currentText (exchange_combo w)) in
  let r := Form.set_vt_symbol Trading.sample_enums sample_contracts sample_digits w in
  r.1 = Return tt
  ∧ subscribed r.2
    = subscribed w ++
      [({| sub_symbol := symbol_line w; sub_exchange := currentText (exchange_combo w) |},
        match contract with
        | Some c => gateway_name c
        | None => currentText (gateway_combo w)
        end)]
  ∧ currentText (gateway_combo r.2)
    = match contract with
      | Some c => if bool_decide (gateway_name c ∈ items (gateway_combo w))
                  then gateway_name c else ""
      | None => currentText (gateway_combo w)
      end
  ∧ name_line r.2 = match contract with Some c => name c | None => "" end
  ∧ price_line r.2 = ""
  ∧ volume_line r.2 = ""
  ∧ ∀ label, label ∈ label_names → labels r.2 !! label = Some "".
Proof.
  apply (X18_new_symbol_subscribes_once Trading.sample_enums sample_contracts sample_digits
           sample_widget).
  - discriminate.
  - discriminate.
  - apply (bool_decide_unpack _). vm_compute. exact I.
Defined.

Lemma X19_position_click_then_send_closes_it_witness :
  let r := Form.update_with_cell Trading.sample_enums sample_contracts sample_digits
             sample_Direction_value "平" sample_float_str (Position sample_position)
             sample_widget in
  r.1 = Return tt
  ∧ Trading.send_order Trading.sample_enums (inputs_of r.2) Trading.no_orders
    = (Return tt,
       {| Trading.oms_orders := [];
          Trading.effects :=
            [Trading.Send_order
               {| Trading.req_symbol := "ag2412"; Trading.req_exchange := "SHFE";
                  Trading.req_direction := "空"; Trading.req_type := "限价";
                  Trading.req_volume := FDec false 30 (-1); Trading.req_price := zero;
                  Trading.req_offset := "平"; Trading.req_reference := "ManualTrading" |}
               "CTP"] |}).
Proof.
  apply (X19_position_click_then_send_closes_it Trading.sample_enums sample_contracts
           sample_digits sample_Direction_value "平" sample_float_str sample_widget
           sample_position Trading.no_orders (FDec false 30 (-1))).
  - discriminate.
  - discriminate.
  - apply (bool_decide_unpack _). vm_compute. exact I.
  - apply (bool_decide_unpack _). vm_compute. exact I.
  - apply (bool_decide_unpack _). vm_compute. exact I.
  - apply (bool_decide_unpack _). vm_compute. exact I.
  - apply (bool_decide_unpack _). vm_compute. exact I.
  - apply (bool_decide_unpack _). vm_compute. exact I.
  - apply (bool_decide_unpack _). vm_compute. exact I.
  - reflexivity.
Defined.

End FormFacts.

(** ** Construction of the monitors and of the main window *)

Module StartupFacts.
Import Startup MonitorFacts.

(** *** Rules *)

Lemma triple_bind {A B} P (c : Exec Obj A) (k : A → Exec Obj B) Q' Q R :
  triple P c Q' R → (∀ a, triple (Q' a) (k a) Q R) → triple P (bind c k) Q R.
Proof.
  intros Hc Hk o Ho. rewrite bind_eq. specialize (Hc o Ho).
  destruct (c o) as [[a|e] o']; [by apply Hk|done].
Qed.

Lemma triple_false {A} (c : Exec Obj A) Q R : triple (λ _, False) c Q R.
Proof. by intros o []. Qed.

Lemma triple_ret {A} (a : A) (P : Obj → Prop) R : triple P (ret a) (λ _, P) R.
Proof. by intros o Ho. Qed.

Section WithQt.
Variable Qt : string → bool.

Lemma triple_get cls name (I : Obj → Prop) :
  triple I (self_get Qt cls name) (λ _, I) (lookup_failed Qt I).
Proof.
  intros o Ho. unfold self_get. rewrite bind_eq. cbn [get].
  destruct (bool_decide (name ∈ attrs o) || bool_decide (name ∈ cls)) eqn:Hin;
    cbn [orb]; [done|].
  destruct (Qt name) eqn:HQt; [done|]. split; [eauto|done].
Qed.

Lemma triple_get_missing cls name (I : Obj → Prop) :
  (∀ o, I o → name ∉ attrs o) → name ∉ cls → Qt name = false →
  triple I (self_get Qt cls name) (λ _ _, False) (lookup_failed Qt I).
Proof.
  intros Hattrs Hcls HQt o Ho. unfold self_get. rewrite bind_eq. cbn [get].
  rewrite HQt, !bool_decide_eq_false_2 by auto. cbn. split; [eauto|done].
Qed.

Lemma triple_set name (I : Obj → Prop) R :
  (∀ o, I o → I {| attrs := {[ name ]} ∪ attrs o; effects := effects o |}) →
  triple I (self_set name) (λ _, I) R.
Proof. intros Hset o Ho. by apply Hset. Qed.

Lemma only_set names name o :
  name ∈ names → only names o →
  only names {| attrs := {[ name ]} ∪ attrs o; effects := effects o |}.
Proof.
  intros Hin [Hattrs Heff]. split; [|done]. cbn. intros n [->%elem_of_singleton|?]%elem_of_union; auto.
Qed.

Lemma only_new names : only names new.
Proof. split; [|done]. intros n Hin. cbn in Hin. set_solver. Qed.

Ltac tget := eapply triple_bind; [apply triple_get|intros ?; cbv beta].
Ltac tset := eapply triple_bind;
  [apply triple_set; intros ?; apply only_set; apply (bool_decide_unpack _); vm_compute; exact I
  |intros ?; cbv beta].

(** *** Monitors *)

Lemma init_table_sorting_fails own (M : Monitor.MonitorClass) names :
  Monitor.sorting M = true →
  Qt "sorting_change" = false →
  "sorting_change" ∉ own →
  "sorting_change" ∉ names →
  triple (only names) (init_table Qt own M) (λ _ _, False) (lookup_failed Qt (only names)).
Proof.
  intros Hsort HQt Hown Hnames. unfold init_table. cbv zeta. rewrite Hsort.
  do 15 tget.
  apply triple_get_missing; [| |done].
  - intros o [Hattrs _] Hin. apply Hnames, Hattrs, Hin.
  - intros [?|Hin]%elem_of_app; [done|].
    revert Hin. apply (bool_decide_unpack _). vm_compute. exact I.
Qed.

(** X20: a monitor class with [sorting] set cannot be constructed: while
    Qt provides no attribute [sorting_change] and the class defines none,
    [BaseMonitor.__init__] raises AttributeError in [init_table], for a
    name that Qt does not provide.  By then the instance has at most the
    attributes event_engine, cells, rows and handlers: the context menu
    is not built and the monitor is not registered with the event
    engine.  This holds for every [init_ui] that begins with the one of
    [BaseMonitor]. *)
Theorem X20_sorted_monitor_is_never_constructed (own : list string)
    (M : Monitor.MonitorClass) (event_type : string) (rest : Exec Obj unit) :
  Monitor.sorting M = true →
  Qt "sorting_change" = false →
  "sorting_change" ∉ own →
  let r := BaseMonitor__init__ Qt own event_type (BaseMonitor_init_ui Qt own M ;; rest) new in
  (∃ name, r.1 = Raise (AttributeError name) ∧ Qt name = false)
  ∧ (∀ name, name ∈ attrs r.2 → name ∈ ["event_engine"; "cells"; "rows"; "handlers"])
  ∧ effects r.2 = [].
Proof.
  intros Hsort HQt Hown r.
  assert (triple (only ["event_engine"; "cells"; "rows"; "handlers"])
            (BaseMonitor__init__ Qt own event_type (BaseMonitor_init_ui Qt own M ;; rest))
            (λ _ _, False)
            (lookup_failed Qt (only ["event_engine"; "cells"; "rows"; "handlers"]))) as Hrun.
  { unfold BaseMonitor__init__. cbv zeta. do 4 tset. tget.
    eapply triple_bind; [|intros ?; apply triple_false].
    eapply triple_bind; [|intros ?; apply triple_false].
    unfold BaseMonitor_init_ui. cbv zeta. tget.
    eapply triple_bind; [|intros ?; apply triple_false].
    apply init_table_sorting_fails; try done.
    apply (bool_decide_unpack _). vm_compute. exact I. }
  specialize (Hrun new (only_new _)). subst r.
  destruct (BaseMonitor__init__ _ _ _ _ new) as [[[]|e] o']; [done|].
  destruct Hrun as [(name & -> & Hname) [Hattrs Heff]]. cbn [fst snd]. eauto.
Qed.

(** *** The main window *)

(** X21: the main window cannot be constructed: while Qt provides no
    attribute [open_connect_dialog] (the class defines none),
    [MainWindow.__init__] raises AttributeError in [init_central_widget],
    for a name that Qt does not provide.  By then the instance has at
    most the six attributes bound at the start of [__init__] and nothing
    has been added to the window: no central widget, tool bar or dock,
    and the status timer is not started. *)
Theorem X21_main_window_is_never_constructed (init_menu : Exec Obj unit)
    (construct : string → outcome unit) (QDockWidget_attrs : string → bool) (darwin : bool) :
  Qt "open_connect_dialog" = false →
  let r := MainWindow__init__ Qt init_menu construct QDockWidget_attrs darwin new in
  (∃ name, r.1 = Raise (AttributeError name) ∧ Qt name = false)
  ∧ (∀ name, name ∈ attrs r.2 →
       name ∈ ["main_engine"; "event_engine"; "connect_status"; "window_title"; "widgets";
               "monitors"])
  ∧ effects r.2 = [].
Proof.
  intros HQt r.
  set (names := ["main_engine"; "event_engine"; "connect_status"; "window_title"; "widgets";
                 "monitors"]).
  assert (triple (only names)
            (MainWindow__init__ Qt init_menu construct QDockWidget_attrs darwin)
            (λ _ _, False) (lookup_failed Qt (only names))) as Hrun.
  { unfold MainWindow__init__, self. do 6 tset. tget.
    eapply triple_bind; [|intros ?; apply triple_false].
    unfold MainWindow_init_ui, self. do 5 tget.
    eapply triple_bind; [|intros ?; apply triple_false].
    unfold init_central_widget, self. tget.
    eapply triple_bind; [|intros ?; apply triple_false].
    apply triple_get_missing; [| |done].
    - intros o [Hattrs _] Hin. apply Hattrs in Hin. revert Hin.
      apply (bool_decide_unpack _). vm_compute. exact I.
    - apply (bool_decide_unpack _). vm_compute. exact I. }
  specialize (Hrun new (only_new _)). subst r.
  destruct (MainWindow__init__ _ _ _ _ _ new) as [[[]|e] o']; [done|].
  destruct Hrun as [(name & -> & Hname) [Hattrs Heff]]. cbn [fst snd]. eauto.
Qed.

Lemma self_get_cases cls name o :
  self_get Qt cls name o = (Return tt, o)
  ∨ self_get Qt cls name o = (Raise (AttributeError name), o).
Proof. unfold self_get. rewrite bind_eq. cbn [get]. destruct (_ || _); auto. Qed.

Lemma self_get_found cls name o :
  name ∈ attrs o ∨ name ∈ cls ∨ Qt name = true →
  self_get Qt cls name o = (Return tt, o).
Proof.
  intros Hfound. unfold self_get. rewrite bind_eq. cbn [get].
  assert (bool_decide (name ∈ attrs o) || bool_decide (name ∈ cls) || Qt name = true) as Hor.
  { destruct Hfound as [H|[H|H]].
    - by rewrite (bool_decide_eq_true_2 _ H).
    - by rewrite (bool_decide_eq_true_2 (name ∈ cls) H), orb_true_r.
    - by rewrite H, orb_true_r. }
  by rewrite Hor.
Qed.

(** The lookups on the dock stop at the first name that the dock does
    not provide. *)
Lemma dock_lookups_run QDockWidget_attrs names o :
  for_each names (dock_get QDockWidget_attrs) o
  = match List.find (λ name, negb (QDockWidget_attrs name)) names with
    | Some name => (Raise (AttributeError name), o)
    | None => (Return tt, o)
    end.
Proof.
  induction names as [|name names IH]; [done|].
  cbn [for_each List.find]. rewrite bind_eq. unfold dock_get at 1.
  destruct (QDockWidget_attrs name); cbn [negb ret raise]; [apply IH|done].
Qed.

(** [create_dock] gives a dock, not a pair. *)
Lemma dock_pair_raises construct QDockWidget_attrs widget_class name direction o :
  ∃ e o', dock_pair Qt construct QDockWidget_attrs widget_class name direction o
          = (Raise e, o')
          ∧ attrs o' = attrs o.
Proof.
  unfold dock_pair, create_dock, self. rewrite bind_eq.
  destruct (self_get_cases MainWindow_attrs "create_dock" o) as [-> | ->]; [|eauto].
  rewrite !bind_eq.
  destruct (self_get_cases MainWindow_attrs "main_engine" o) as [-> | ->]; [|eauto].
  rewrite !bind_eq.
  destruct (self_get_cases MainWindow_attrs "event_engine" o) as [-> | ->]; [|eauto].
  destruct (construct widget_class) as [[]|e]; [|cbn; eauto].
  rewrite !bind_eq, dock_lookups_run.
  destruct (List.find _ dock_lookups); [eauto|].
  rewrite !bind_eq.
  destruct (self_get_cases MainWindow_attrs "addDockWidget" o) as [-> | ->]; [|eauto].
  cbn. eauto.
Qed.

(** X22: [init_dock] never returns: [create_dock] returns the dock alone,
    and [init_dock] unpacks its result into a widget and a dock.  In
    whatever state the window is, the first statement of [init_dock]
    raises, and no attribute is bound: [self.trading_widget] is never
    set. *)
Theorem X22_init_dock_never_returns (construct : string → outcome unit)
    (QDockWidget_attrs : string → bool) (o : Obj) :
  ∃ e, (init_dock Qt construct QDockWidget_attrs o).1 = Raise e
       ∧ attrs (init_dock Qt construct QDockWidget_attrs o).2 = attrs o.
Proof.
  unfold init_dock. rewrite bind_eq.
  destruct (dock_pair_raises construct QDockWidget_attrs "TradingWidget" "交易"
              LeftDockWidgetArea o) as (e & o' & -> & Hattrs).
  eauto.
Qed.

(** X23: when the window has its engines, Qt provides [addDockWidget] and
    the trading widget can be constructed, [init_dock] stops in its first
    statement in one of two ways.  If the dock lacks one of the names that
    [create_dock] looks up on it (such as [DockWidgetFloatable]), the
    first such name raises AttributeError and no dock is added.  If the
    dock provides them all, the dock of the trading widget is added on
    the left and unpacking it raises TypeError.  Either way none of the
    seven monitors is created and the double clicks on ticks and
    positions are never connected to the trading widget. *)
Theorem X23_init_dock_adds_at_most_the_trading_dock (construct : string → outcome unit)
    (QDockWidget_attrs : string → bool) (o : Obj) :
  "main_engine" ∈ attrs o →
  "event_engine" ∈ attrs o →
  Qt "addDockWidget" = true →
  construct "TradingWidget" = Return tt →
  init_dock Qt construct QDockWidget_attrs o
  = match List.find (λ name, negb (QDockWidget_attrs name)) dock_lookups with
    | Some name => (Raise (AttributeError name), o)
    | None =>
        (Raise (TypeError "cannot unpack non-iterable QDockWidget object"),
         {| attrs := attrs o;
            effects := effects o
                       ++ [AddDockWidget "交易" "TradingWidget" LeftDockWidgetArea] |})
    end.
Proof.
  intros Hmain Hevent HQt Hconstruct.
  unfold init_dock, dock_pair, create_dock, self.
  rewrite !bind_eq, self_get_found
    by (right; left; apply (bool_decide_unpack _); vm_compute; exact I).
  rewrite !bind_eq, self_get_found by auto.
  rewrite !bind_eq, self_get_found by auto.
  rewrite Hconstruct.
  rewrite !bind_eq, dock_lookups_run.
  destruct (List.find _ dock_lookups); [done|].
  rewrite !bind_eq, self_get_found by auto.
  reflexivity.
Qed.

(** *** The quote monitor *)

Lemma triple_weaken {A} P (c : Exec Obj A) Q (R R' : exn → Obj → Prop) :
  triple P c Q R → (∀ e o, R e o → R' e o) → triple P c Q R'.
Proof.
  intros Hc HR o Ho. specialize (Hc o Ho). destruct (c o) as [[a|e] o']; auto.
Qed.

Lemma bound_get cls name names :
  triple (bound names) (self_get Qt cls name) (λ _, bound names) (λ _, bound names).
Proof. eapply triple_weaken; [apply triple_get|]. by intros e o [_ ?]. Qed.

Lemma bound_set name names :
  name ∈ names →
  triple (bound names) (self_set name) (λ _, bound names) (λ _, bound names).
Proof.
  intros Hin. apply triple_set. intros o Ho n [->%elem_of_singleton|?]%elem_of_union; auto.
Qed.

Lemma bound_emit e names :
  triple (bound names) (emit e) (λ _, bound names) (λ _, bound names).
Proof. by intros o Ho. Qed.

Lemma bound_global name names :
  triple (bound names) (Monitor.global_name name) (λ _, bound names) (λ _, bound names).
Proof. intros o Ho. unfold Monitor.global_name. by destruct (bool_decide _). Qed.

Ltac bound_step :=
  first
    [ apply bound_get
    | apply bound_global
    | apply bound_set; apply (bool_decide_unpack _); vm_compute; exact I
    | apply bound_emit
    | apply triple_ret
    | eapply triple_bind; [|intros ?; cbv beta] ].

(** [BaseMonitor.__init__] binds no attribute [main_engine]. *)
Lemma QuoteMonitor_attributes event_type :
  triple (bound ["event_engine"; "cells"; "rows"; "handlers"; "menu"])
    (BaseMonitor__init__ Qt QuoteMonitor_attrs event_type (QuoteMonitor_init_ui Qt))
    (λ _, bound ["event_engine"; "cells"; "rows"; "handlers"; "menu"])
    (λ _, bound ["event_engine"; "cells"; "rows"; "handlers"; "menu"]).
Proof.
  unfold BaseMonitor__init__, QuoteMonitor_init_ui, BaseMonitor_init_ui, init_table, init_menu,
    register_event.
  cbv zeta. change (Monitor.sorting Monitor.QuoteMonitor) with true. cbv iota.
  destruct (String.eqb event_type ""); repeat bound_step.
Qed.

(** X24: a double click on a quote never cancels it: the monitor's
    constructor takes an event engine and a parent and binds no
    attribute [main_engine], so on the instance that [BaseMonitor.__init__]
    leaves, whether it returned or raised, [cancel_quote] raises
    AttributeError at [self.main_engine] and nothing is handed to the
    registry. *)
Theorem X24_cancel_quote_always_raises (event_type : string) :
  Qt "main_engine" = false →
  let o := (BaseMonitor__init__ Qt QuoteMonitor_attrs event_type (QuoteMonitor_init_ui Qt)
              new).2 in
  cancel_quote Qt QuoteMonitor_attrs o = (Raise (AttributeError "main_engine"), o).
Proof.
  intros HQt o.
  assert (bound ["event_engine"; "cells"; "rows"; "handlers"; "menu"] o) as Hbound.
  { pose proof (QuoteMonitor_attributes event_type new) as Hrun. subst o.
    destruct (BaseMonitor__init__ _ _ _ _ new) as [[[]|e] o']; apply Hrun; by intros n ?%elem_of_empty. }
  unfold cancel_quote. cbv zeta. rewrite bind_eq. unfold self_get. rewrite bind_eq. cbn [get].
  rewrite HQt, !bool_decide_eq_false_2; [done| |].
  - apply (bool_decide_unpack _). vm_compute. exact I.
  - intros Hin. apply Hbound in Hin. revert Hin. apply (bool_decide_unpack _). vm_compute. exact I.
Qed.

End WithQt.

Lemma X20_sorted_monitor_is_never_constructed_witness :
  let r := BaseMonitor__init__ sample_Qt QuoteMonitor_attrs "eQuote."
             (BaseMonitor_init_ui sample_Qt QuoteMonitor_attrs Monitor.QuoteMonitor ;;
              self_get sample_Qt (QuoteMonitor_attrs ++ BaseMonitor_attrs) "setToolTip") new in
  (∃ name, r.1 = Raise (AttributeError name) ∧ sample_Qt name = false)
  ∧ (∀ name, name ∈ attrs r.2 → name ∈ ["event_engine"; "cells"; "rows"; "handlers"])
  ∧ effects r.2 = [].
Proof.
  apply (X20_sorted_monitor_is_never_constructed sample_Qt QuoteMonitor_attrs
           Monitor.QuoteMonitor "eQuote.").
  - reflexivity.
  - reflexivity.
  - apply (bool_decide_unpack _). vm_compute. exact I.
Defined.

Lemma X21_main_window_is_never_constructed_witness :
  let r := MainWindow__init__ sample_Qt (ret tt) (λ _, Return tt) sample_QDockWidget false
             new in
  (∃ name, r.1 = Raise (AttributeError name) ∧ sample_Qt name = false)
  ∧ (∀ name, name ∈ attrs r.2 →
       name ∈ ["main_engine"; "event_engine"; "connect_status"; "window_title"; "widgets";
               "monitors"])
  ∧ effects r.2 = [].
Proof.
  apply (X21_main_window_is_never_constructed sample_Qt (ret tt) (λ _, Return tt)
           sample_QDockWidget false).
  reflexivity.
Defined.

Lemma X23_init_dock_adds_at_most_the_trading_dock_witness :
  let o := {| attrs := {[ "main_engine"; "event_engine" ]}; effects := [] |} in
  init_dock sample_Qt (λ _, Return tt) sample_QDockWidget o
  = match List.find (λ name, negb (sample_QDockWidget name)) dock_lookups with
    | Some name => (Raise (AttributeError name), o)
    | None =>
        (Raise (TypeError "cannot unpack non-iterable QDockWidget object"),
         {| attrs := attrs o;
            effects := effects o
                       ++ [AddDockWidget "交易" "TradingWidget" LeftDockWidgetArea] |})
    end.
Proof.
  apply (X23_init_dock_adds_at_most_the_trading_dock sample_Qt (λ _, Return tt)
           sample_QDockWidget
           {| attrs := {[ "main_engine"; "event_engine" ]}; effects := [] |}).
  - apply (bool_decide_unpack _). vm_compute. exact I.
  - apply (bool_decide_unpack _). vm_compute. exact I.
  - reflexivity.
  - reflexivity.
Defined.

Lemma X24_cancel_quote_always_raises_witness :
  let o := (BaseMonitor__init__ sample_Qt QuoteMonitor_attrs "eQuote."
              (QuoteMonitor_init_ui sample_Qt) new).2 in
  cancel_quote sample_Qt QuoteMonitor_attrs o = (Raise (AttributeError "main_engine"), o).
Proof.
  apply (X24_cancel_quote_always_raises sample_Qt "eQuote."). reflexivity.
Defined.

End StartupFacts.

(** ** The contract query *)

Module ContractsFacts.
Import Monitor Contracts MonitorFacts.

Lemma contains_empty hay : contains "" hay = true.
Proof. by destruct hay. Qed.

Lemma is_contract_vt_symbol contract :
  is_contract contract → assoc "vt_symbol" contract = Some (VStr (vt_symbol_of contract)).
Proof.
  intros [Hstr _]. unfold vt_symbol_of.
  destruct (assoc "vt_symbol" contract) as [[]|]; done.
Qed.

Lemma matching_run flt all_contracts (t : Table) :
  Forall is_contract all_contracts →
  matching flt all_contracts t = (Return (selected flt all_contracts), t).
Proof.
  induction 1 as [|contract rest Hvt%is_contract_vt_symbol _ IH]; [done|].
  cbn [matching]. rewrite bind_eq, getattr_run, Hvt, bind_eq, IH. cbn [ret].
  unfold selected. rewrite filter_cons. cbv beta.
  destruct (contains flt (vt_symbol_of contract));
    [by rewrite decide_True|by rewrite decide_False].
Qed.

Lemma selected_all all_contracts : selected "" all_contracts = all_contracts.
Proof.
  unfold selected. induction all_contracts as [|c l IH]; [done|].
  rewrite filter_cons, decide_True by apply contains_empty. by rewrite IH.
Qed.

(** The columns that the inner loop fills. *)
Lemma fill_columns_spec row contract : ∀ names column (t : Table),
  Forall (λ name, is_Some (assoc name contract)) names →
  (row < rowCount t)%nat →
  (column + length names ≤ columnCount)%nat →
  ∃ t', fill_columns row column names contract t = (Return tt, t')
    ∧ rowCount t' = rowCount t
    ∧ ∀ r c, item t' r c
        = if decide (r = row ∧ (column ≤ c)%nat) then
            match names !! (c - column)%nat with
            | Some name => (λ value, cell_of (blank value) contract) <$> assoc name contract
            | None => item t r c
            end
          else item t r c.
Proof.
  induction names as [|name names IH]; intros column t Hall Hrow Hcol.
  - exists t. repeat split. intros r c. by destruct (decide _).
  - apply Forall_cons in Hall as [[v Hv] Hall]. cbn [length] in Hcol.
    cbn [fill_columns]. rewrite bind_eq, getattr_run, Hv, bind_eq. cbn [modify].
    set (t1 := setItem row column (cell_of (blank v) contract) t).
    assert (t1 = {| rowCount := rowCount t;
                    table_items := <[(row, column) := cell_of (blank v) contract]>
                                     (table_items t) |}) as Ht1.
    { subst t1. unfold setItem.
      rewrite (proj2 (Nat.ltb_lt _ _) Hrow), (proj2 (Nat.ltb_lt column columnCount)) by lia.
      done. }
    destruct (IH (S column) t1) as (t' & Hrun & Hrows & Hitems); [done|by rewrite Ht1|lia|].
    exists t'. split; [done|]. split; [by rewrite Hrows, Ht1|].
    intros r c. rewrite Hitems.
    destruct (decide (r = row ∧ (S column ≤ c)%nat)) as [[-> Hc]|Hno].
    + rewrite decide_True by (split; [done|lia]).
      replace (c - column)%nat with (S (c - S column)) by lia. cbn [lookup list_lookup].
      destruct (names !! (c - S column)%nat); [done|].
      unfold item. rewrite Ht1. cbn. rewrite lookup_insert_ne; [done|]. intros [=]. lia.
    + unfold item at 1. rewrite Ht1. cbn [table_items].
      destruct (decide ((row, column) = (r, c))) as [[= <- <-]|Hne].
      * rewrite lookup_insert_eq, decide_True by done.
        rewrite Nat.sub_diag. cbn. by rewrite Hv.
      * rewrite lookup_insert_ne by done. rewrite decide_False; [done|].
        intros [-> Hc]. destruct (decide (c = column)) as [->|?]; [done|].
        apply Hno. split; [done|lia].
Qed.

(** The rows that the outer loop fills. *)
Lemma fill_rows_spec : ∀ contracts row (t : Table),
  Forall is_contract contracts →
  (row + length contracts ≤ rowCount t)%nat →
  ∃ t', fill_rows row contracts t = (Return tt, t')
    ∧ rowCount t' = rowCount t
    ∧ ∀ r c, item t' r c
        = if decide (row ≤ r)%nat then
            match contracts !! (r - row)%nat with
            | Some contract =>
                match map fst headers !! c with
                | Some name => (λ value, cell_of (blank value) contract) <$> assoc name contract
                | None => item t r c
                end
            | None => item t r c
            end
          else item t r c.
Proof.
  induction contracts as [|contract contracts IH]; intros row t Hall Hrows.
  - exists t. repeat split. intros r c. by destruct (decide _).
  - apply Forall_cons in Hall as [[_ Hattrs] Hall]. cbn [length] in Hrows.
    cbn [fill_rows]. rewrite bind_eq.
    destruct (fill_columns_spec row contract (map fst headers) 0%nat t)
      as (t1 & Hrun1 & Hrows1 & Hitems1); [done|lia|done|].
    rewrite Hrun1.
    destruct (IH (S row) t1) as (t' & Hrun & Hrows' & Hitems); [done|lia|].
    exists t'. split; [done|]. split; [congruence|].
    intros r c. rewrite Hitems.
    destruct (decide (S row ≤ r)%nat) as [Hr|Hr].
    + rewrite decide_True by lia.
      replace (r - row)%nat with (S (r - S row)) by lia. cbn [lookup list_lookup].
      rewrite Hitems1, decide_False by lia. done.
    + rewrite Hitems1. destruct (decide (r = row)) as [->|Hne].
      * destruct (decide (row ≤ row)%nat); [|lia].
        destruct (decide (row = row ∧ (0 ≤ c)%nat)) as [_|Hn]; [|destruct Hn; split; [done|lia]].
        rewrite Nat.sub_diag, Nat.sub_0_r. done.
      * destruct (decide (row ≤ r)%nat); [lia|].
        destruct (decide (r = row ∧ (0 ≤ c)%nat)) as [[? _]|_]; done.
Qed.

(** X25: for contract objects, [show_contracts] leaves in the table
    exactly the contracts whose vt_symbol contains the filter text (every
    contract for an empty filter), one row each in the order of the
    registry, whatever the table showed before; a cell shows nothing for
    a value that is None or 0, and [str] of the value otherwise. *)
Theorem X25_contract_query_shows_selected (flt : string) (all_contracts : list Data)
    (t : Table) :
  Forall is_contract all_contracts →
  let r := show_contracts flt all_contracts t in
  r.1 = Return tt
  ∧ rowCount r.2 = length (selected flt all_contracts)
  ∧ ∀ row column,
      item r.2 row column
      = match selected flt all_contracts !! row, map fst headers !! column with
        | Some contract, Some name =>
            (λ value, cell_of (blank value) contract) <$> assoc name contract
        | _, _ => None
        end.
Proof.
  intros Hall r. subst r. unfold show_contracts.
  assert ((if negb (String.eqb flt "") then matching flt all_contracts else ret all_contracts) t
          = (Return (selected flt all_contracts), t)) as Hsel.
  { destruct (String.eqb flt "") eqn:Hflt; cbn [negb].
    - apply String.eqb_eq in Hflt as ->. by rewrite selected_all.
    - by apply matching_run. }
  rewrite bind_eq, Hsel. repeat (rewrite bind_eq; cbn [modify]).
  assert (Forall is_contract (selected flt all_contracts)) as Hsub.
  { unfold selected. apply Forall_forall. intros c [_ Hc]%list_elem_of_filter.
    by eapply Forall_forall in Hc. }
  destruct (fill_rows_spec (selected flt all_contracts) 0%nat
              (setRowCount (length (selected flt all_contracts)) (clearContents t)))
    as (t' & Hrun & Hrows & Hitems); [done|cbn; lia|].
  rewrite Hrun. cbn [fst snd]. split; [done|]. split; [done|].
  intros row column. rewrite Hitems, decide_True by lia. rewrite Nat.sub_0_r.
  assert (item (setRowCount (length (selected flt all_contracts)) (clearContents t)) row column
          = None) as ->.
  { unfold item, setRowCount, clearContents. cbn. by rewrite map_filter_empty. }
  destruct (selected flt all_contracts !! row); [|done].
  by destruct (map fst headers !! column).
Qed.

Lemma X25_contract_query_shows_selected_witness :
  let r := show_contracts "SHFE" sample_contracts
             {| rowCount := 7; table_items := {[ (5%nat, 0%nat) := new_cell BaseCell VNone [] ]} |} in
  r.1 = Return tt
  ∧ rowCount r.2 = length (selected "SHFE" sample_contracts)
  ∧ ∀ row column,
      item r.2 row column
      = match selected "SHFE" sample_contracts !! row, map fst headers !! column with
        | Some contract, Some name =>
            (λ value, cell_of (blank value) contract) <$> assoc name contract
        | _, _ => None
        end.
Proof.
  apply (X25_contract_query_shows_selected "SHFE" sample_contracts).
  apply (bool_decide_unpack _). vm_compute. exact I.
Defined.

End ContractsFacts.

(** ** Cell colours *)

Module ColourFacts.
Import Monitor Rows MonitorFacts.

Lemma set_content_fg cls content data c r c' :
  cls ≠ DirectionCell →
  set_content cls content data c = (r, c') → cell_fg c' = cell_fg c.
Proof.
  intros Hcls. destruct cls; try done; cbn;
    unfold EnumCell_set_content, TimeCell_set_content, DateCell_set_content;
    repeat match goal with
           | |- context [if ?b then _ else _] => destruct b
           | |- context [match ?v with VNone => _ | _ => _ end] => destruct v
           end; run; cbn; intros [= <- <-]; reflexivity.
Qed.

Lemma on_cell_colour id content data s r s' c :
  store s !! id = Some c →
  cell_cls c ≠ DirectionCell →
  Forall constructor_colour (store s) →
  on_cell id (λ cls, set_content cls content data) s = (r, s') →
  Forall constructor_colour (store s').
Proof.
  intros Hc Hcls Hall. unfold on_cell. rewrite Hc.
  destruct (set_content (cell_cls c) content data c) as [r0 c0] eqn:Hset.
  intros [= <- <-]. cbn [store with_store].
  apply Forall_insert; [done|].
  pose proof (set_content_cls _ _ _ _ _ _ Hset) as Hsame.
  pose proof (set_content_fg _ _ _ _ _ _ Hcls Hset) as Hfg.
  unfold constructor_colour. rewrite Hfg, Hsame.
  by eapply (proj1 (Forall_lookup _ _) Hall).
Qed.

Lemma update_cells_colour data rc : ∀ s r s',
  Forall (λ e, ∃ c, store s !! e.2 = Some c ∧ cell_cls c ≠ DirectionCell) rc →
  Forall constructor_colour (store s) →
  update_cells data rc s = (r, s') →
  Forall constructor_colour (store s').
Proof.
  induction rc as [|[name id] rc IH]; intros s r s' Hrc Hall.
  - by intros [= <- <-].
  - apply Forall_cons in Hrc as [(c & Hc & Hcls) Hrc]. cbn [snd] in Hc.
    rewrite update_cells_cons. destruct (assoc name data) as [content|]; [|by intros [= <- <-]].
    destruct (on_cell _ _ s) as [[[]|e] s1] eqn:Hon.
    + pose proof (on_cell_spec _ _ _ _ _ _ Hon) as (Hg & _).
      apply IH; [|by eapply on_cell_colour].
      eapply Forall_impl; [exact Hrc|]. intros [n i] (c1 & Hc1 & Hcls1). cbn [snd] in *.
      destruct (Hg _ _ Hc1) as (c2 & Hc2 & Hsame). exists c2. split; [done|congruence].
    + intros [= <- <-]. by eapply on_cell_colour.
Qed.

Lemma fill_row_colour data hs : ∀ column acc s r s',
  Forall constructor_colour (store s) →
  fill_row data column hs acc s = (r, s') →
  Forall constructor_colour (store s').
Proof.
  induction hs as [|[name setting] hs IH]; intros column acc s r s' Hall.
  - by intros [= <- <-].
  - cbn [fill_row]. rewrite bind_eq, getattr_run.
    destruct (assoc name data) as [content|]; [|by intros [= <- <-]].
    rewrite !bind_eq. unfold alloc, setItem0. cbn [ret modify].
    apply IH. cbn [store with_store with_rows]. apply Forall_app. split; [done|].
    constructor; [|done]. unfold constructor_colour. by destruct (cell setting).
Qed.

Lemma insert_new_row_colour M data s r s' :
  Forall constructor_colour (store s) →
  insert_new_row M data s = (r, s') →
  Forall constructor_colour (store s').
Proof.
  intros Hall. unfold insert_new_row, insertRow0. rewrite bind_eq. cbn [modify]. rewrite bind_eq.
  destruct (fill_row _ _ _ _ _) as [[rc|e] s1] eqn:Hfill;
    apply fill_row_colour in Hfill; try done; [|by intros [= <- <-]].
  destruct (String.eqb (data_key M) ""); [by intros [= <- <-]|].
  rewrite bind_eq, getattr_run. destruct (assoc _ data); by intros [= <- <-].
Qed.

Lemma colour_sort_off M s :
  Forall constructor_colour (store s) → Forall constructor_colour (store (sort_off M s)).
Proof. unfold sort_off. by destruct (sorting M). Qed.

Lemma colour_sort_on M s :
  Forall constructor_colour (store s) → Forall constructor_colour (store (sort_on M s)).
Proof. unfold sort_on. by destruct (sorting M). Qed.

Lemma row_cells_not_direction M s rc :
  Forall (λ h, cell h.2 ≠ DirectionCell) (updatable (headers M)) →
  row_ok M s rc →
  Forall (λ e, ∃ c, store s !! e.2 = Some c ∧ cell_cls c ≠ DirectionCell) rc.
Proof.
  unfold row_ok. generalize (updatable (headers M)) as hs. intros hs Hhs Hok.
  induction Hok as [|h e hs rc (_ & c & Hc & Hcls) _ IH]; [done|].
  apply Forall_cons in Hhs as [Hh Hhs]. constructor; [|by apply IH].
  exists c. split; [done|congruence].
Qed.

Lemma process_event_colour M data s :
  Forall (λ h, cell h.2 ≠ DirectionCell) (updatable (headers M)) →
  wf M s →
  Forall constructor_colour (store s) →
  Forall constructor_colour (store (after_event M s data)).
Proof.
  intros Hdir Hwf Hall. unfold after_event.
  destruct (String.eqb (data_key M) "") eqn:Hk.
  - rewrite process_event_unkeyed by done.
    destruct (insert_new_row _ _ _) as [[[]|e] s1] eqn:Hins; cbn [snd];
      [apply colour_sort_on|]; (eapply insert_new_row_colour; [|exact Hins];
                                by apply colour_sort_off).
  - destruct (assoc (data_key M) data) as [key|] eqn:Hkey.
    2:{ rewrite process_event_no_key_attr by done. by apply colour_sort_off. }
    destruct (cells s !! key) as [rc|] eqn:Hrc.
    + rewrite (process_event_seen _ _ _ _ _ Hk Hkey Hrc).
      assert (row_ok M (sort_off M s) rc) as Hok.
      { apply (wf_sort_off M s Hwf key).
        destruct (same_table_sort_off M s) as (_ & _ & ->). done. }
      destruct (update_cells _ _ _) as [[[]|e] s1] eqn:Hup; cbn [snd];
        [apply colour_sort_on|];
        (eapply update_cells_colour; [| |exact Hup];
         [by eapply row_cells_not_direction|by apply colour_sort_off]).
    + rewrite (process_event_new _ _ _ _ Hk Hkey Hrc).
      destruct (insert_new_row _ _ _) as [[[]|e] s1] eqn:Hins; cbn [snd];
        [apply colour_sort_on|]; (eapply insert_new_row_colour; [|exact Hins];
                                  by apply colour_sort_off).
Qed.

(** X26: in a monitor class none of whose updatable columns is a
    DirectionCell (every monitor of the source), after any events every
    cell object still has the foreground its constructor gave it: bid and
    ask cells their colours, every other cell none.  The colours that
    [DirectionCell.set_content] and [PnlCell.set_content] would set for
    a direction or a profit are never set. *)
Theorem X26_direction_and_pnl_never_coloured (M : MonitorClass) (evs : list Data) :
  Forall (λ h, cell h.2 ≠ DirectionCell) (updatable (headers M)) →
  Forall constructor_colour (store (after_events M init evs))
  ∧ ∀ c, c ∈ store (after_events M init evs) →
         cell_cls c = DirectionCell ∨ cell_cls c = PnlCell → cell_fg c = None.
Proof.
  intros Hdir.
  assert (∀ s, wf M s → Forall constructor_colour (store s) →
               Forall constructor_colour (store (after_events M s evs))) as Hinv.
  { induction evs as [|d evs IH]; intros s Hwf Hall; [done|].
    cbn [after_events foldl]. apply IH; [by apply process_event_wf|by apply process_event_colour]. }
  specialize (Hinv init (wf_init M) (Forall_nil_2 _)). split; [done|].
  intros c Hin Hcls. eapply Forall_forall in Hinv; [|exact Hin].
  unfold constructor_colour in Hinv. rewrite Hinv. by destruct Hcls as [-> | ->].
Qed.

Lemma X26_direction_and_pnl_never_coloured_witness :
  Forall constructor_colour
    (store (after_events PositionMonitor init [position_of "rb2410" 3 120; position_of "rb2410" 3 (-50)]))
  ∧ ∀ c, c ∈ store (after_events PositionMonitor init
                      [position_of "rb2410" 3 120; position_of "rb2410" 3 (-50)]) →
         cell_cls c = DirectionCell ∨ cell_cls c = PnlCell → cell_fg c = None.
Proof.
  apply (X26_direction_and_pnl_never_coloured PositionMonitor).
  apply (bool_decide_unpack _). vm_compute. exact I.
Defined.

End ColourFacts.
